(** * Screen-capture MCP server: a shallow embedding of
      [servers/screenshare_mcp.py] and the properties of its tools.

    The Python module keeps one module-level dictionary [_SRC] and talks to
    the outside (the [mss] capture library, PIL, the clock, the file system,
    external screenshot utilities).  The embedding threads a [World] holding
    [_SRC], the log of the effects performed and call counters; what the
    outside answers is an [Env] of oracles.  Python exceptions are the
    [Raise] results of a small state-and-exception monad.  Python [int] is
    [Z], Python [float] is a binary64 [spec_float].  Logging to stderr is
    left out. *)

From Stdlib Require Import ZArith Floats String Ascii List Bool Lia.
From Stdlib Require Import DecimalString DecimalNat DecimalZ.
Import ListNotations.

Local Open Scope string_scope.
Local Open Scope Z_scope.

Set Warnings "-register-all".

(** ** Exceptions and results *)

(** A raised exception: its class and the text [str(e)] gives. *)
Record Exn : Type := mkExn { exn_class : string; exn_str : string }.

Inductive Result (A : Type) : Type :=
| Ok (a : A)
| Raise (e : Exn).
Arguments Ok {A} a.
Arguments Raise {A} e.

Definition ZeroDivisionError : Exn :=
  mkExn "ZeroDivisionError" "float division by zero".
Definition OverflowError_int : Exn :=
  mkExn "OverflowError" "int too large to convert to float".
Definition OverflowError_inf : Exn :=
  mkExn "OverflowError" "cannot convert float infinity to integer".
Definition ValueError_nan : Exn :=
  mkExn "ValueError" "cannot convert float NaN to integer".
Definition RuntimeError (msg : string) : Exn := mkExn "RuntimeError" msg.

(** ** Python values returned to the transport *)

Inductive Value : Type :=
| VNone
| VBool (b : bool)
| VInt (z : Z)
| VFloat (f : spec_float)
| VStr (s : string)
| VList (l : list Value)
| VDict (d : list (string * Value)).

Definition Dict : Type := list (string * Value).

(** [d.get(k)] on a dictionary written as its items in insertion order. *)
Fixpoint dict_get (k : string) (d : Dict) : option Value :=
  match d with
  | [] => None
  | (k', v) :: d' => if String.eqb k k' then Some v else dict_get k d'
  end.

(** ** Python numbers *)

Module Py.

(** A Python [float] is an IEEE 754 binary64 number: the specification
    floats of the standard library at precision 53 and exponent bound
    1024 (the numbers the primitive floats compute with), in their
    canonical form, which the operations below preserve. *)
Definition float : Type := spec_float.

Definition f0 : float := S754_zero false.                       (* 0.0 *)
Definition f1 : float := S754_finite false 4503599627370496 (-52).   (* 1.0 *)
Definition f0_1 : float := S754_finite false 7205759403792794 (-56). (* 0.1 *)
Definition f1000 : float := S754_finite false 8796093022208000 (-43). (* 1000.0 *)

Definition fadd : float -> float -> float := SFadd prec emax.
Definition fsub : float -> float -> float := SFsub prec emax.
Definition fmul : float -> float -> float := SFmul prec emax.
Definition flt : float -> float -> bool := SFltb.
Definition feq : float -> float -> bool := SFeqb.

(** [float(z)] for an [int]: the nearest binary64 value, ties to even;
    [OverflowError] when that is out of range. *)
Definition float_of_int (z : Z) : Result float :=
  match binary_normalize prec emax z 0 false with
  | S754_infinity _ => Raise OverflowError_int
  | sf => Ok sf
  end.

(** [m * 2^e] rounded to the nearest integer, ties to even ([m], the
    magnitude, is not negative). *)
Definition round_half_even (m e : Z) : Z :=
  if 0 <=? e then m * 2 ^ e
  else
    let d := 2 ^ (- e) in
    let q := m / d in
    match (2 * (m mod d)) ?= d with
    | Lt => q
    | Gt => q + 1
    | Eq => if Z.even q then q else q + 1
    end.

(** [round(x)] with one argument: an [int]. *)
Definition round (x : float) : Result Z :=
  match x with
  | S754_nan => Raise ValueError_nan
  | S754_infinity _ => Raise OverflowError_inf
  | S754_zero _ => Ok 0
  | S754_finite s m e => Ok (cond_Zopp s (round_half_even (Zpos m) e))
  end.

(** [int(x)] for a [float]: truncation towards zero. *)
Definition int_of_float (x : float) : Result Z :=
  match x with
  | S754_nan => Raise ValueError_nan
  | S754_infinity _ => Raise OverflowError_inf
  | S754_zero _ => Ok 0
  | S754_finite s m e =>
      Ok (cond_Zopp s (if 0 <=? e then Zpos m * 2 ^ e
                       else Zpos m / 2 ^ (- e)))
  end.

(** [a / b] on floats: Python raises on a zero divisor, and otherwise
    divides as IEEE 754 does. *)
Definition fdiv (a b : float) : Result float :=
  if feq b f0 then Raise ZeroDivisionError else Ok (SFdiv prec emax a b).

(** [max(a, b)] and [min(a, b)] keep the first argument unless the second
    is strictly beyond it. *)
Definition fmax (a b : float) : float := if flt a b then b else a.
Definition fmin (a b : float) : float := if flt b a then b else a.

(** [x or 1.0]: a float is falsy exactly when it equals zero. *)
Definition or_one (x : float) : float := if feq x f0 then f1 else x.

(** [str(z)] for an [int]. *)
Definition str (z : Z) : string := NilZero.string_of_int (Z.to_int z).

(** The decimal digits of a natural number. *)
Definition digits (n : nat) : string := NilZero.string_of_uint (Nat.to_uint n).

Fixpoint zeros (k : nat) : string :=
  match k with
  | O => ""
  | S k' => String "0" (zeros k')
  end.

(** [f"{n:0wd}"] for a number that is not negative: zero-padded on the
    left to at least [w] characters. *)
Definition zpad (w : nat) (n : nat) : string :=
  let s := digits n in
  zeros (w - String.length s) ++ s.

Definition lower_ascii (c : ascii) : ascii :=
  let n := nat_of_ascii c in
  if andb (Nat.leb 65 n) (Nat.leb n 90) then ascii_of_nat (n + 32) else c.

(** [s.lower()]; only the ASCII letters are mapped, which is all the
    comparisons with ["jpg"] and ["microsoft"] can see. *)
Fixpoint lower (s : string) : string :=
  match s with
  | EmptyString => EmptyString
  | String c s' => String (lower_ascii c) (lower s')
  end.

(** [sub in s]. *)
Fixpoint contains (sub s : string) : bool :=
  if String.prefix sub s then true
  else match s with
       | EmptyString => false
       | String _ s' => contains sub s'
       end.

(** [s or d] for strings: the empty string is falsy. *)
Definition str_or (s d : string) : string :=
  match s with EmptyString => d | _ => s end.

End Py.

(** ** What the program sees of the outside *)

Definition bytes : Type := list Byte.byte.

(** One entry of [sct.monitors]. *)
Record Monitor : Type := mkMonitor {
  mon_left : Z; mon_top : Z; mon_width : Z; mon_height : Z }.

(** An [mss.mss()] handle with the monitor list it enumerates (entry 0 is
    the virtual screen spanning all monitors). *)
Record Sct : Type := mkSct { sct_id : nat; monitors : list Monitor }.

(** The [region] dictionary of [_SRC]. *)
Record Region : Type := mkRegion {
  region_left : Z; region_top : Z; region_width : Z; region_height : Z }.

(** A PIL image: its size, its mode and its pixel buffer. *)
Record Image : Type := mkImage {
  img_width : Z; img_height : Z; img_mode : string; img_pixels : bytes }.

(** [time.localtime()] as [time.strftime] reads it. *)
Record struct_time : Type := mkTime {
  tm_year : nat; tm_mon : nat; tm_mday : nat;
  tm_hour : nat; tm_min : nat; tm_sec : nat }.

(** The effects the process performs on the outside, in program order. *)
Inductive Event : Type :=
| EvAcquire (h : Sct)                  (* mss.mss() gave a handle *)
| EvClose (h : Sct)                    (* sct.close() was called *)
| EvRun (cmd : string)                 (* subprocess was asked to start cmd *)
| EvSleep (secs : Py.float)               (* time.sleep(secs) *)
| EvMkdir (path : string)              (* out_dir.mkdir(parents, exist_ok) *)
| EvWrite (path : string) (data : bytes) (* f.write(data) on the file at path *)
| EvOpen (path : string)               (* open(path, "wb"): created or emptied *)
| EvTemp (path : string).              (* the program started is to save there *)

(** The answers of the outside.  The [nat] argument is the number of
    earlier calls of the same kind, so that two calls can differ. *)
Record Env : Type := mkEnv {
  (* mss *)
  mss_mss : nat -> Result Sct;
  sct_close : Sct -> option Exn;
  (* sct.grab(region) followed by Image.frombytes("RGB", ...) *)
  sct_grab : nat -> Sct -> Region -> Result Image;
  (* platform and os *)
  platform_release : Result string;
  platform_version : Result string;
  wsl_interop_exists : bool;
  (* os.getenv(name) *)
  getenv : string -> option string;
  (* float(s) of a string *)
  float_of_str : string -> Result Py.float;
  (* the file the PowerShell script of lines 156-168 saves its bitmap in:
     wsl_scrn_<date>.png under the temp path of Windows *)
  ps_tmp : nat -> string;
  (* subprocess.check_output of powershell.exe with a timeout, stripped *)
  powershell_exe : nat -> Py.float -> Result string;
  (* subprocess.check_output(["wslpath", "-u", out]), stripped *)
  wslpath : nat -> string -> Result string;
  (* Image.open(path) *)
  Image_open : nat -> string -> Result Image;
  (* tempfile.gettempdir() and shutil.which(name) *)
  gettempdir : Result string;
  which : string -> bool;
  (* subprocess.run of a screenshot tool told to save in a file, and
     Image.open of that file *)
  run_tool : nat -> string -> string -> Result Image;
  (* PIL *)
  lanczos : Image -> Z -> Z -> bytes;
  pil_convert : Image -> string -> Result bytes;
  pil_save : Image -> string -> Result bytes;
  (* clocks *)
  perf_counter : nat -> Py.float;
  localtime : nat -> struct_time;
  (* time.time(), in whole milliseconds *)
  time_millis : nat -> Z;
  (* os.path.expanduser, then pathlib.Path, read back with str() *)
  Path_expanduser : string -> string;
  (* the file system *)
  fs_mkdir : nat -> string -> option Exn;
  (* open(path, "wb") *)
  open_wb : nat -> string -> option Exn;
  (* f.write(data) and the close that ends the with block *)
  f_write : nat -> string -> bytes -> option Exn
}.

(** ** The module state *)

(** The dictionary [_SRC]. *)
Record Src : Type := mkSrc {
  src_sct : option Sct;
  src_monitor_index : Z;
  src_region : option Region;
  src_scale : Py.float;
  src_props : Dict
}.

(** [_SRC] as the module is loaded, and as [_close_source] leaves it. *)
Definition SRC_default : Src :=
  {| src_sct := None; src_monitor_index := 1; src_region := None;
     src_scale := Py.f1; src_props := [] |}.

Record World : Type := mkWorld {
  _SRC : Src;
  effects : list Event;      (* oldest first *)
  mss_calls : nat;
  grab_calls : nat;
  clock_reads : nat;
  fs_calls : nat
}.

Definition initial_world : World :=
  {| _SRC := SRC_default; effects := []; mss_calls := 0%nat;
     grab_calls := 0%nat; clock_reads := 0%nat; fs_calls := 0%nat |}.

Definition set_SRC (s : Src) (w : World) : World :=
  {| _SRC := s; effects := effects w; mss_calls := mss_calls w;
     grab_calls := grab_calls w; clock_reads := clock_reads w;
     fs_calls := fs_calls w |}.

Definition emit (ev : Event) (w : World) : World :=
  {| _SRC := _SRC w; effects := (effects w ++ [ev])%list;
     mss_calls := mss_calls w; grab_calls := grab_calls w;
     clock_reads := clock_reads w; fs_calls := fs_calls w |}.

Definition tick_mss (w : World) : World :=
  {| _SRC := _SRC w; effects := effects w; mss_calls := S (mss_calls w);
     grab_calls := grab_calls w; clock_reads := clock_reads w;
     fs_calls := fs_calls w |}.

Definition tick_grab (w : World) : World :=
  {| _SRC := _SRC w; effects := effects w; mss_calls := mss_calls w;
     grab_calls := S (grab_calls w); clock_reads := clock_reads w;
     fs_calls := fs_calls w |}.

Definition tick_clock (w : World) : World :=
  {| _SRC := _SRC w; effects := effects w; mss_calls := mss_calls w;
     grab_calls := grab_calls w; clock_reads := S (clock_reads w);
     fs_calls := fs_calls w |}.

Definition tick_fs (w : World) : World :=
  {| _SRC := _SRC w; effects := effects w; mss_calls := mss_calls w;
     grab_calls := grab_calls w; clock_reads := clock_reads w;
     fs_calls := S (fs_calls w) |}.

(** ** The monad of the program: state and exceptions *)

Definition M (A : Type) : Type := World -> Result A * World.

Definition ret {A} (a : A) : M A := fun w => (Ok a, w).
Definition raise {A} (e : Exn) : M A := fun w => (Raise e, w).
Definition bind {A B} (m : M A) (k : A -> M B) : M B :=
  fun w => match m w with
           | (Ok a, w') => k a w'
           | (Raise e, w') => (Raise e, w')
           end.
(** [try: m except Exception as e: h e]. *)
Definition try_except {A} (m : M A) (h : Exn -> M A) : M A :=
  fun w => match m w with
           | (Ok a, w') => (Ok a, w')
           | (Raise e, w') => h e w'
           end.
Definition lift {A} (r : Result A) : M A := fun w => (r, w).
Definition get_world : M World := fun w => (Ok w, w).
Definition modify (f : World -> World) : M unit := fun w => (Ok tt, f w).

Declare Scope py_scope.
Delimit Scope py_scope with py.
Notation "x <- m ;; k" := (bind m (fun x => k))
  (at level 61, m at next level, right associativity) : py_scope.
Notation "' pat <- m ;; k" := (bind m (fun x => match x with pat => k end))
  (at level 61, pat pattern, m at next level, right associativity) : py_scope.
Notation "m ;; k" := (bind m (fun _ => k))
  (at level 61, right associativity) : py_scope.
Local Open Scope py_scope.

(** A [for] loop body either leaves the function with a value or goes on
    with the updated locals. *)
Inductive Flow (R S : Type) : Type :=
| Return (r : R)
| Next (s : S).
Arguments Return {R S} r.
Arguments Next {R S} s.

(** [for i in range(start, start + count): body], on the locals [s]. *)
Fixpoint for_range {R S} (body : Z -> S -> M (Flow R S))
         (start : Z) (count : nat) (s : S) : M (Flow R S) :=
  match count with
  | O => ret (Next s)
  | S c =>
      x <- body start s ;;
      match x with
      | Return r => ret (Return r)
      | Next s' => for_range body (start + 1) c s'
      end
  end.

(** The outcome of a computation as a value: the body of a [try]. *)
Definition attempt {A} (m : M A) : M (Result A) :=
  fun w => let (r, w') := m w in (Ok r, w').

(** ** Small library models *)

(** [os.path.join(a, b)] for a relative [b]. *)
Definition os_path_join (a b : string) : string :=
  if String.eqb a "" then b
  else if String.eqb (String.substring (String.length a - 1) 1 a) "/"
       then (a ++ b)%string
       else (a ++ "/" ++ b)%string.

(** [str(d / name)] for a [pathlib.Path] that prints as [d] and a file
    name: the current directory prints as ["."] and disappears from the
    joined path; only a root ends with a separator. *)
Definition path_join (d name : string) : string :=
  if String.eqb d "." then name else os_path_join d name.

(** [img.resize((w, h), Image.LANCZOS)]. *)
Definition resize (resample : Image -> Z -> Z -> bytes) (img : Image) (w h : Z)
  : Image :=
  {| img_width := w; img_height := h; img_mode := img_mode img;
     img_pixels := resample img w h |}.

(** [time.strftime("%Y%m%d_%H%M%S")]. *)
Definition strftime_compact (t : struct_time) : string :=
  (Py.zpad 4 (tm_year t) ++ Py.zpad 2 (tm_mon t) ++ Py.zpad 2 (tm_mday t)
   ++ "_" ++ Py.zpad 2 (tm_hour t) ++ Py.zpad 2 (tm_min t)
   ++ Py.zpad 2 (tm_sec t))%string.

(** The [region] dictionary as a value. *)
Definition region_dict (r : Region) : Dict :=
  [("left", VInt (region_left r)); ("top", VInt (region_top r));
   ("width", VInt (region_width r)); ("height", VInt (region_height r))].

Definition paths_value (paths : list string) : Value :=
  VList (map VStr paths).

(** [max(1, int(round(float(duration_ms) / float(period_ms))))], the frame
    count [screenshare_burst] derives from a duration. *)
Definition burst_n_from_duration (duration_ms period_ms : Z) : Result Z :=
  match Py.float_of_int duration_ms with
  | Raise e => Raise e
  | Ok d =>
      match Py.float_of_int period_ms with
      | Raise e => Raise e
      | Ok p =>
          match Py.fdiv d p with
          | Raise e => Raise e
          | Ok q =>
              match Py.round q with
              | Raise e => Raise e
              | Ok r => Ok (Z.max 1 r)
              end
          end
      end
  end.

(** ** The program *)

Section Program.

Variable E : Env.

(** *** Calls to the outside *)

(** [mss.mss()]. *)
Definition mss_new : M Sct :=
  fun w =>
    match mss_mss E (mss_calls w) with
    | Ok h => (Ok h, emit (EvAcquire h) (tick_mss w))
    | Raise e => (Raise e, tick_mss w)
    end.

(** [sct.close()]. *)
Definition close_handle (h : Sct) : M unit :=
  fun w =>
    match sct_close E h with
    | None => (Ok tt, emit (EvClose h) w)
    | Some e => (Raise e, emit (EvClose h) w)
    end.

(** The number of this [_grab] call among those that reached a capture
    mechanism. *)
Definition next_grab : M nat :=
  fun w => (Ok (grab_calls w), tick_grab w).

(** One reading of a clock. *)
Definition next_clock : M nat :=
  fun w => (Ok (clock_reads w), tick_clock w).

Definition time_perf_counter : M Py.float :=
  k <- next_clock ;; ret (perf_counter E k).

Definition time_strftime : M string :=
  k <- next_clock ;; ret (strftime_compact (localtime E k)).

(** [int((time.time() % 1) * 1000)]: the milliseconds within the second. *)
Definition time_ms : M nat :=
  k <- next_clock ;; ret (Z.to_nat (time_millis E k mod 1000)).

Definition time_sleep (secs : Py.float) : M unit := modify (emit (EvSleep secs)).

Definition run_process (cmd : string) : M unit := modify (emit (EvRun cmd)).

(** A program started to save a screenshot in [file]. *)
Definition run_saving (cmd file : string) : M unit :=
  modify (emit (EvRun cmd)) ;; modify (emit (EvTemp file)).

(** [out_dir.mkdir(parents=True, exist_ok=True)]. *)
Definition mkdir (path : string) : M unit :=
  fun w =>
    match fs_mkdir E (fs_calls w) path with
    | None => (Ok tt, emit (EvMkdir path) (tick_fs w))
    | Some e => (Raise e, tick_fs w)
    end.

(** [with open(path, "wb") as f: f.write(data)]: [open] creates the file
    or empties it before anything is written, so that a write that fails
    leaves it behind. *)
Definition write_file (path : string) (data : bytes) : M unit :=
  fun w =>
    match open_wb E (fs_calls w) path with
    | Some e => (Raise e, tick_fs w)
    | None =>
        let w1 := emit (EvOpen path) (tick_fs w) in
        match f_write E (fs_calls w) path data with
        | None => (Ok tt, emit (EvWrite path data) w1)
        | Some e => (Raise e, w1)
        end
    end.

(** *** [_open_source] *)

Definition _open_source (monitor_index left top width height : Z)
           (scale : Py.float) : M (bool * string) :=
  w <- get_world ;;
  match src_sct (_SRC w) with
  | Some _ => ret (true, "Screen capture already initialized")
  | None =>
      r <- attempt mss_new ;;
      match r with
      | Raise e => ret (false, ("Failed to initialize mss: " ++ exn_str e)%string)
      | Ok sct =>
          let monitors := monitors sct in
          let len := Z.of_nat (List.length monitors) in
          if (monitor_index <? 0) || (monitor_index >=? len) then
            close_handle sct ;;
            ret (false, ("Invalid monitor_index " ++ Py.str monitor_index
                         ++ "; available 0.." ++ Py.str (len - 1))%string)
          else
            match nth_error monitors (Z.to_nat monitor_index) with
            | None => raise (mkExn "IndexError" "list index out of range")
            | Some mon =>
                let region :=
                  if (width <=? 0) || (height <=? 0) then
                    {| region_left := mon_left mon;
                       region_top := mon_top mon;
                       region_width := mon_width mon;
                       region_height := mon_height mon |}
                  else
                    {| region_left := mon_left mon + Z.max 0 left;
                       region_top := mon_top mon + Z.max 0 top;
                       region_width := Z.max 1 width;
                       region_height := Z.max 1 height |} in
                let scale :=
                  Py.fmax Py.f0_1 (Py.fmin Py.f1 (Py.or_one scale)) in
                modify (set_SRC
                  {| src_sct := Some sct;
                     src_monitor_index := monitor_index;
                     src_region := Some region;
                     src_scale := scale;
                     src_props := [("monitor_index", VInt monitor_index);
                               ("region", VDict (region_dict region));
                               ("scale", VFloat scale)] |}) ;;
                ret (true, "Screen source initialized")
            end
      end
  end.

(** *** [_close_source] *)

Definition _close_source : M unit :=
  w <- get_world ;;
  match src_sct (_SRC w) with
  | Some sct => try_except (close_handle sct) (fun _ => ret tt)
  | None => ret tt
  end ;;
  modify (set_SRC {| src_sct := None; src_monitor_index := 1;
                     src_region := None; src_scale := Py.f1;
                     src_props := [] |}).

(** *** [_is_wsl] *)

Definition _is_wsl : bool :=
  match platform_release E with
  | Raise _ => false
  | Ok release =>
      if Py.contains "microsoft" (Py.lower release) then true
      else match platform_version E with
           | Raise _ => false
           | Ok version =>
               if Py.contains "microsoft" (Py.lower version) then true
               else wsl_interop_exists E
           end
  end.

(** *** [_grab] *)

(** The resize every mechanism applies to what it grabbed:
    [if 0 < scale < 1.0: img = img.resize((w, h), Image.LANCZOS)]. *)
Definition rescale (img : Image) (scale : Py.float) : M Image :=
  if Py.flt Py.f0 scale && Py.flt scale Py.f1 then
    fw <- lift (Py.float_of_int (img_width img)) ;;
    iw <- lift (Py.int_of_float (Py.fmul fw scale)) ;;
    fh <- lift (Py.float_of_int (img_height img)) ;;
    ih <- lift (Py.int_of_float (Py.fmul fh scale)) ;;
    ret (resize (lanczos E) img (Z.max 1 iw) (Z.max 1 ih))
  else ret img.

(** Lines 141-208 of [_grab]: the capture mechanisms, tried in order,
    for the [k]-th grab on an initialized source. *)
Definition grab_mechanisms (sct : Sct) (region : Region) (scale : Py.float)
           (k : nat) : M (bool * option Image * string) :=
  (* fast path: mss *)
  try_except
    (img <- lift (sct_grab E k sct region) ;;
     img <- rescale img scale ;;
     ret (true, Some img, "ok"))
    (fun e_primary =>
       let err_primary := exn_str e_primary in
       (* WSL fallback: the Windows desktop through PowerShell *)
       r <- (if _is_wsl then
               try_except
                 (timeout <- lift (float_of_str E
                    match getenv E "SCREENSHARE_WSL_PS_TIMEOUT" with
                    | Some s => s
                    | None => "10"
                    end) ;;
                  run_saving "powershell.exe" (ps_tmp E k) ;;
                  out <- lift (powershell_exe E k timeout) ;;
                  run_process "wslpath" ;;
                  wsl_path <- lift (wslpath E k out) ;;
                  img <- lift (Image_open E k wsl_path) ;;
                  img <- rescale img scale ;;
                  ret (inl img))
                 (fun e_ps => ret (inr (exn_str e_ps)))
             else ret (inr "n/a")) ;;
       match r with
       | inl img => ret (true, Some img, "ok")
       | inr err_ps =>
           (* compositor fallbacks: GNOME or wlroots *)
           try_except
             (tmp <- lift (gettempdir E) ;;
              let tmp_png := os_path_join tmp "screenshare_fallback.png" in
              tool <- (if which E "gnome-screenshot" then ret "gnome-screenshot"
                       else if which E "grim" then ret "grim"
                       else raise (RuntimeError
                         "no compositor screenshot tool (gnome-screenshot/grim) found")) ;;
              run_saving tool tmp_png ;;
              img <- lift (run_tool E k tool tmp_png) ;;
              img <- rescale img scale ;;
              ret (true, Some img, "ok"))
             (fun e_fb =>
                ret (false, None,
                     ("Failed to grab (mss=" ++ err_primary
                      ++ ", wsl_ps=" ++ err_ps
                      ++ ", fallback=" ++ exn_str e_fb ++ ")")%string))
       end).

Definition _grab : M (bool * option Image * string) :=
  w <- get_world ;;
  let scale := Py.or_one (src_scale (_SRC w)) in
  match src_sct (_SRC w), src_region (_SRC w) with
  | Some sct, Some region =>
      k <- next_grab ;;
      grab_mechanisms sct region scale k
  | _, _ => ret (false, None, "Screen source not initialized")
  end.

(** *** [_encode_image_pil] *)

Definition _encode_image_pil (img : Image) (fmt : string)
  : bool * bytes * string * Z * Z :=
  let fmt := Py.lower (Py.str_or fmt "jpg") in
  if String.eqb fmt "jpg" then
    (* ensure RGB; JPEG has no alpha *)
    let converted :=
      if negb (String.eqb (img_mode img) "RGB") then
        match pil_convert E img "RGB" with
        | Ok px => Ok {| img_width := img_width img;
                         img_height := img_height img;
                         img_mode := "RGB"; img_pixels := px |}
        | Raise e => Raise e
        end
      else Ok img in
    match converted with
    | Raise e => (false, [], ("encode failed: " ++ exn_str e)%string,
                  img_width img, img_height img)
    | Ok img' =>
        match pil_save E img' "JPEG" with
        | Ok data => (true, data, "image/jpeg", img_width img', img_height img')
        | Raise e => (false, [], ("encode failed: " ++ exn_str e)%string,
                      img_width img', img_height img')
        end
    end
  else
    match pil_save E img "PNG" with
    | Ok data => (true, data, "image/png", img_width img, img_height img)
    | Raise e => (false, [], ("encode failed: " ++ exn_str e)%string,
                  img_width img, img_height img)
    end.

(** *** [_timestamp_name] *)

Definition _timestamp_name (prefix ext : string) : M string :=
  ts <- time_strftime ;;
  ms <- time_ms ;;
  ret (prefix ++ "_" ++ ts ++ "_" ++ Py.zpad 3 ms ++ ext)%string.

(** *** The tools *)

Definition display_dict (i : Z) (mon : Monitor) : Value :=
  VDict [("index", VInt i); ("left", VInt (mon_left mon));
         ("top", VInt (mon_top mon)); ("width", VInt (mon_width mon));
         ("height", VInt (mon_height mon)); ("virtual", VBool (i =? 0))].

(** [for i, mon in enumerate(mons): if i > max_index: break; out.append(..)]. *)
Fixpoint enumerate_displays (i : Z) (mons : list Monitor) (max_index : Z)
  : list Value :=
  match mons with
  | [] => []
  | mon :: rest =>
      if i >? max_index then []
      else display_dict i mon :: enumerate_displays (i + 1) rest max_index
  end.

Definition list_displays (max_index : Z) : M Dict :=
  try_except
    (sct <- mss_new ;;
     let out := enumerate_displays 0 (monitors sct) max_index in
     close_handle sct ;;
     ret [("displays", VList out)])
    (fun e => ret [("displays", VList []); ("error", VStr (exn_str e))]).

Definition screenshare_start (monitor_index left top width height : Z)
           (scale : Py.float) : M Dict :=
  '(ok, msg) <- _open_source monitor_index left top width height scale ;;
  w <- get_world ;;
  ret [("ok", VBool ok); ("message", VStr msg);
       ("props", VDict (src_props (_SRC w)));
       ("monitor_index", VInt (src_monitor_index (_SRC w)))].

Definition screenshare_status : M Dict :=
  w <- get_world ;;
  ret [("open", VBool (match src_sct (_SRC w) with Some _ => true | None => false end));
       ("monitor_index", VInt (src_monitor_index (_SRC w)));
       ("props", VDict (src_props (_SRC w)))].

Definition screenshare_capture (save_dir format : string) : M Dict :=
  '(ok, img, msg) <- _grab ;;
  match ok, img with
  | true, Some img =>
      let '(ok2, data, mime, w, h) := _encode_image_pil img format in
      if negb ok2 then ret [("ok", VBool false); ("error", VStr mime)]
      else
        let out_dir := Path_expanduser E save_dir in
        mkdir out_dir ;;
        let ext := if String.eqb mime "image/jpeg" then ".jpg" else ".png" in
        fname <- _timestamp_name "screen" ext ;;
        let fpath := path_join out_dir fname in
        try_except
          (write_file fpath data ;;
           ret [("ok", VBool true); ("path", VStr fpath); ("mime", VStr mime);
                ("width", VInt w); ("height", VInt h)])
          (fun e => ret [("ok", VBool false);
                         ("error", VStr ("Failed to write file: " ++ exn_str e))])
  | _, _ => ret [("ok", VBool false); ("error", VStr msg)]
  end.

(** The locals the burst loop updates. *)
Record BurstLocals : Type := mkLocals {
  paths : list string;
  mime_last : string;
  w_last : Z;
  h_last : Z
}.

(** The file name of frame [i]: [f"scr_{ts}_{ms:03d}_{i:02d}{ext}"]. *)
Definition burst_fname (ts : string) (ms : nat) (i : Z) (ext : string)
  : string :=
  ("scr_" ++ ts ++ "_" ++ Py.zpad 3 ms ++ "_" ++ Py.zpad 2 (Z.to_nat i)
          ++ ext)%string.

(** One iteration of the capture loop of [screenshare_burst]. *)
Definition burst_frame (t0 period_s : Py.float) (out_dir format : string)
           (i : Z) (l : BurstLocals) : M (Flow Dict BurstLocals) :=
  fi <- lift (Py.float_of_int i) ;;
  let target := Py.fadd t0 (Py.fmul fi period_s) in
  now <- time_perf_counter ;;
  (if Py.flt now target then time_sleep (Py.fsub target now) else ret tt) ;;
  '(ok, img, msg) <- _grab ;;
  match ok, img with
  | true, Some img =>
      let '(ok2, data, mime, w, h) := _encode_image_pil img format in
      if negb ok2 then
        ret (Return [("ok", VBool false); ("error", VStr "encode failed");
                     ("paths", paths_value (paths l))])
      else
        ts <- time_strftime ;;
        ms <- time_ms ;;
        let ext := if String.eqb mime "image/jpeg" then ".jpg" else ".png" in
        let fname := burst_fname ts ms i ext in
        let fpath := path_join out_dir fname in
        write_file fpath data ;;
        ret (Next {| paths := (paths l ++ [fpath])%list; mime_last := mime;
                     w_last := w; h_last := h |})
  | _, _ =>
      ret (Return [("ok", VBool false);
                   ("error", VStr ("Failed to capture: " ++ msg));
                   ("paths", paths_value (paths l))])
  end.

(** Lines 353-404 of [screenshare_burst]: what the tool does once the
    frame count [n] is settled. *)
Definition burst_capture (n period_ms : Z) (save_dir format : string)
           (warmup duration_ms : Z) : M Dict :=
  let out_dir := Path_expanduser E save_dir in
  mkdir out_dir ;;
  p <- lift (Py.float_of_int period_ms) ;;
  q <- lift (Py.fdiv p Py.f1000) ;;
  let period_s := Py.fmax Py.f0 q in
  t0 <- time_perf_counter ;;
  let locals :=
    {| paths := [];
       mime_last := if String.eqb (Py.lower (Py.str_or format "jpg")) "jpg"
                    then "image/jpeg" else "image/png";
       w_last := 0; h_last := 0 |} in
  (* optional warmup no-op (kept for API parity) *)
  for_range (R := Dict) (fun _ (u : unit) => _grab ;; ret (Next u))
            0 (Z.to_nat (Z.max 0 warmup)) tt ;;
  r <- for_range (burst_frame t0 period_s out_dir format)
                 0 (Z.to_nat (Z.max 1 n)) locals ;;
  match r with
  | Return d => ret d
  | Next l =>
      ret [("ok", VBool true);
           ("paths", paths_value (paths l));
           ("mime", VStr (mime_last l));
           ("width", VInt (w_last l));
           ("height", VInt (h_last l));
           ("n", VInt (Z.of_nat (List.length (paths l))));
           ("period_ms", VInt period_ms);
           ("duration_ms", VInt duration_ms);
           ("save_dir", VStr out_dir)]
  end.

Definition screenshare_burst (n period_ms : Z) (save_dir format : string)
           (warmup duration_ms : Z) : M Dict :=
  w <- get_world ;;
  match src_sct (_SRC w) with
  | None => ret [("ok", VBool false);
                 ("error", VStr "Screen source not initialized")]
  | Some _ =>
      (* compute n from duration if provided *)
      n <- (if 0 <? duration_ms
            then lift (burst_n_from_duration duration_ms period_ms)
            else ret n) ;;
      burst_capture n period_ms save_dir format warmup duration_ms
  end.

Definition screenshare_stop : M Dict :=
  _close_source ;;
  ret [("ok", VBool true)].

End Program.

(** ** Vocabulary of the statements *)

(** The exception, if any, that leaves
    [with open(path, "wb") as f: f.write(data)] as the [k]-th file system
    operation: that of [open], or else that of the write. *)
Definition fs_write (E : Env) (k : nat) (path : string) (data : bytes)
  : option Exn :=
  match open_wb E k path with
  | Some e => Some e
  | None => f_write E k path data
  end.

(** The files written, in program order, among a list of effects. *)
Fixpoint writes_of (evs : list Event) : list (string * bytes) :=
  match evs with
  | [] => []
  | EvWrite p d :: evs' => (p, d) :: writes_of evs'
  | _ :: evs' => writes_of evs'
  end.

(** The directories created among a list of effects. *)
Fixpoint mkdirs_of (evs : list Event) : list string :=
  match evs with
  | [] => []
  | EvMkdir p :: evs' => p :: mkdirs_of evs'
  | _ :: evs' => mkdirs_of evs'
  end.

(** The handles released among a list of effects. *)
Fixpoint closes_of (evs : list Event) : list Sct :=
  match evs with
  | [] => []
  | EvClose h :: evs' => h :: closes_of evs'
  | _ :: evs' => closes_of evs'
  end.

Definition is_open (w : World) : bool :=
  match src_sct (_SRC w) with Some _ => true | None => false end.

(** A world that differs from [w] by more effects and more [_grab] calls. *)
Definition advance (evs : list Event) (grabs : nat) (w : World) : World :=
  {| _SRC := _SRC w; effects := (effects w ++ evs)%list;
     mss_calls := mss_calls w; grab_calls := (grabs + grab_calls w)%nat;
     clock_reads := clock_reads w; fs_calls := fs_calls w |}.

(** What the [k]-th [_grab] returns when [_SRC] is [src]. *)
Definition grab_of (E : Env) (src : Src) (k : nat)
  : Result (bool * option Image * string) :=
  fst (_grab E {| _SRC := src; effects := []; mss_calls := 0%nat;
                  grab_calls := k; clock_reads := 0%nat; fs_calls := 0%nat |}).

Definition ext_of_mime (mime : string) : string :=
  if String.eqb mime "image/jpeg" then ".jpg" else ".png".

(** Frame [j] of a burst whose first frame uses grab number [g] and whose
    clock stands at [c] when the loop starts: the path and the bytes of the
    file, with the metadata of the encoded image; [None] when the grab or
    the encoding of that frame fails.  A frame reads the clock three times
    ([perf_counter], [strftime], [time]), so that frame [j] names its file
    from the readings [c + 3j + 1] and [c + 3j + 2]. *)
Definition frame_file (E : Env) (src : Src) (out_dir format : string)
           (g c j : nat) : option (string * bytes * string * Z * Z) :=
  match grab_of E src (g + j) with
  | Ok (true, Some img, _) =>
      match _encode_image_pil E img format with
      | (true, data, mime, w, h) =>
          let ts := strftime_compact (localtime E (c + 3 * j + 1)) in
          let ms := Z.to_nat (time_millis E (c + 3 * j + 2) mod 1000) in
          Some (path_join out_dir
                  (burst_fname ts ms (Z.of_nat j) (ext_of_mime mime)),
                data, mime, w, h)
      | _ => None
      end
  | _ => None
  end.

Definition frame_path (E : Env) (src : Src) (out_dir format : string)
           (g c j : nat) : string :=
  match frame_file E src out_dir format g c j with
  | Some (p, _, _, _, _) => p
  | None => ""
  end.

Definition frame_data (E : Env) (src : Src) (out_dir format : string)
           (g c j : nat) : bytes :=
  match frame_file E src out_dir format g c j with
  | Some (_, d, _, _, _) => d
  | None => []
  end.

(** Frame [j] can be captured, encoded and written as the [f + j]-th file
    system operation. *)
Definition frame_ok (E : Env) (src : Src) (out_dir format : string)
           (g c f j : nat) : Prop :=
  exists p d mime w h,
    frame_file E src out_dir format g c j = Some (p, d, mime, w, h)
    /\ fs_write E (f + j) p d = None.

Definition is_digit (a : ascii) : bool :=
  match uint_of_char a (Some Decimal.Nil) with
  | Some _ => true
  | None => false
  end.

Fixpoint take_digits (l : list ascii) : list ascii :=
  match l with
  | a :: l' => if is_digit a then a :: take_digits l' else []
  | [] => []
  end.

(** The sequence index a burst file name carries: the decimal number
    written between its last underscore and its four-character extension,
    as in [scr_20250102_030405_123_07.jpg]. *)
Definition sequence_index (path : string) : option nat :=
  let field :=
    rev (take_digits (skipn 4 (rev (list_ascii_of_string path)))) in
  option_map Nat.of_uint (NilZero.uint_of_string (string_of_list_ascii field)).

(** The frame count a call settles on before it captures. *)
Definition frames_requested (n period_ms duration_ms : Z) : Result Z :=
  if 0 <? duration_ms then burst_n_from_duration duration_ms period_ms
  else Ok n.

(** [float(z)] does not overflow. *)
Definition fits_float (z : Z) : Prop :=
  exists x, Py.float_of_int z = Ok x.

(** ** Vocabulary of the proofs *)

(** Effects that only start external programs and name the files those
    are to save. *)
Definition runs_only (evs : list Event) : Prop :=
  Forall (fun ev => (exists cmd, ev = EvRun cmd) \/ (exists f, ev = EvTemp f))
         evs.

(** A computation that reads nothing of the world and only starts external
    programs: its result and its effects are the same in every world. *)
Definition uniform {A} (m : M A) : Prop :=
  exists r evs, runs_only evs /\ forall w, m w = (r, advance evs 0 w).

(** A uniform computation that cannot raise. *)
Definition total {A} (m : M A) : Prop :=
  exists a evs, runs_only evs /\ forall w, m w = (Ok a, advance evs 0 w).

(** A source whose handle and region are both set: what [_grab] asks for. *)
Definition ready (src : Src) : bool :=
  match src_sct src, src_region src with
  | Some _, Some _ => true
  | _, _ => false
  end.

(** How a world moved: [_SRC] and the capture library untouched, the
    counters advanced, effects appended. *)
Record moved (w w' : World) (grabs clocks files : nat) (evs : list Event)
  : Prop := mkMoved {
  moved_src : _SRC w' = _SRC w;
  moved_mss : mss_calls w' = mss_calls w;
  moved_grab : grab_calls w' = (grab_calls w + grabs)%nat;
  moved_clock : clock_reads w' = (clock_reads w + clocks)%nat;
  moved_fs : fs_calls w' = (fs_calls w + files)%nat;
  moved_effects : effects w' = (effects w ++ evs)%list
}.

(** In step with the burst loop: the world in which frame [j] starts, when
    frame 0 uses grab number [g] and the loop starts with the clock at [c]
    and [f] file system operations done. *)
Definition at_frame (src : Src) (g c f : nat) (w : World) (j : nat) : Prop :=
  _SRC w = src /\ grab_calls w = (g + j)%nat
  /\ clock_reads w = (c + 3 * j)%nat /\ fs_calls w = (f + j)%nat.

(** ** A sample environment *)

(** Two monitors side by side, a capture library that works, Linux without
    WSL or compositor tools, and a file system that accepts every write. *)
Definition demo_monitors : list Monitor :=
  [ mkMonitor 0 0 3840 1080; mkMonitor 0 0 1920 1080;
    mkMonitor 1920 0 1920 1080 ].

Definition demo_env : Env :=
  {| mss_mss := fun k => Ok (mkSct k demo_monitors);
     sct_close := fun _ => None;
     sct_grab := fun _ _ r =>
       Ok (mkImage (region_width r) (region_height r) "RGB" []);
     platform_release := Ok "6.8.0-generic";
     platform_version := Ok "#1 SMP PREEMPT_DYNAMIC";
     wsl_interop_exists := false;
     getenv := fun _ => None;
     float_of_str := fun s =>
       if String.eqb s "10" then Py.float_of_int 10
       else Raise (mkExn "ValueError" "could not convert string to float");
     ps_tmp := fun _ => "C:\Temp\wsl_scrn_20250102_030405_000.png";
     powershell_exe := fun _ _ =>
       Raise (mkExn "FileNotFoundError" "powershell.exe");
     wslpath := fun _ _ => Raise (mkExn "FileNotFoundError" "wslpath");
     Image_open := fun _ _ =>
       Raise (mkExn "FileNotFoundError" "No such file or directory");
     gettempdir := Ok "/tmp";
     which := fun _ => false;
     run_tool := fun _ _ _ => Raise (mkExn "FileNotFoundError" "no tool");
     lanczos := fun img _ _ => img_pixels img;
     pil_convert := fun img _ => Ok (img_pixels img);
     pil_save := fun img _ => Ok (img_pixels img);
     perf_counter := fun _ => Py.f0;
     localtime := fun _ => mkTime 2025 1 2 3 4 5;
     time_millis := fun k => 1700000000123 + 150 * Z.of_nat k;
     Path_expanduser := fun s => s;
     fs_mkdir := fun _ _ => None;
     open_wb := fun _ _ => None;
     f_write := fun _ _ _ => None |}.

(** The same, with a capture library that fails at the third grab of the
    session and no fallback to take over. *)
Definition flaky_env : Env :=
  {| mss_mss := mss_mss demo_env;
     sct_close := sct_close demo_env;
     sct_grab := fun k h r =>
       if Nat.eqb k 2 then Raise (mkExn "ScreenShotError" "XGetImage() failed")
       else sct_grab demo_env k h r;
     platform_release := platform_release demo_env;
     platform_version := platform_version demo_env;
     wsl_interop_exists := false;
     getenv := getenv demo_env;
     float_of_str := float_of_str demo_env;
     ps_tmp := ps_tmp demo_env;
     powershell_exe := powershell_exe demo_env;
     wslpath := wslpath demo_env;
     Image_open := Image_open demo_env;
     gettempdir := gettempdir demo_env;
     which := which demo_env;
     run_tool := run_tool demo_env;
     lanczos := lanczos demo_env;
     pil_convert := pil_convert demo_env;
     pil_save := pil_save demo_env;
     perf_counter := perf_counter demo_env;
     localtime := localtime demo_env;
     time_millis := time_millis demo_env;
     Path_expanduser := Path_expanduser demo_env;
     fs_mkdir := fs_mkdir demo_env;
     open_wb := open_wb demo_env;
     f_write := f_write demo_env |}.

(** The same as [demo_env], on a disk that is full: the file can be
    created, not filled. *)
Definition full_disk_env : Env :=
  {| mss_mss := mss_mss demo_env;
     sct_close := sct_close demo_env;
     sct_grab := sct_grab demo_env;
     platform_release := platform_release demo_env;
     platform_version := platform_version demo_env;
     wsl_interop_exists := false;
     getenv := getenv demo_env;
     float_of_str := float_of_str demo_env;
     ps_tmp := ps_tmp demo_env;
     powershell_exe := powershell_exe demo_env;
     wslpath := wslpath demo_env;
     Image_open := Image_open demo_env;
     gettempdir := gettempdir demo_env;
     which := which demo_env;
     run_tool := run_tool demo_env;
     lanczos := lanczos demo_env;
     pil_convert := pil_convert demo_env;
     pil_save := pil_save demo_env;
     perf_counter := perf_counter demo_env;
     localtime := localtime demo_env;
     time_millis := time_millis demo_env;
     Path_expanduser := Path_expanduser demo_env;
     fs_mkdir := fs_mkdir demo_env;
     open_wb := open_wb demo_env;
     f_write := fun _ _ _ =>
       Some (mkExn "OSError" "[Errno 28] No space left on device") |}.

(** The world after [screenshare_start()] with its default arguments. *)
Definition demo_world : World :=
  snd (screenshare_start demo_env 1 0 0 0 0 Py.f1 initial_world).

(** ** More vocabulary of the statements *)

(** The handles acquired among a list of effects. *)
Fixpoint acquires_of (evs : list Event) : list Sct :=
  match evs with
  | [] => []
  | EvAcquire h :: evs' => h :: acquires_of evs'
  | _ :: evs' => acquires_of evs'
  end.

(** The external programs started among a list of effects. *)
Fixpoint runs_of (evs : list Event) : list string :=
  match evs with
  | [] => []
  | EvRun cmd :: evs' => cmd :: runs_of evs'
  | _ :: evs' => runs_of evs'
  end.

(** The files opened for writing, and so created or emptied, among a list
    of effects. *)
Fixpoint opens_of (evs : list Event) : list string :=
  match evs with
  | [] => []
  | EvOpen p :: evs' => p :: opens_of evs'
  | _ :: evs' => opens_of evs'
  end.

(** The files external programs were told to save among a list of
    effects. *)
Fixpoint temps_of (evs : list Event) : list string :=
  match evs with
  | [] => []
  | EvTemp p :: evs' => p :: temps_of evs'
  | _ :: evs' => temps_of evs'
  end.

(** A scale within the documented bounds, [0.1 <= s <= 1.0]. *)
Definition scale_in_bounds (s : Py.float) : bool :=
  SFleb Py.f0_1 s && SFleb s Py.f1.

(** [0 < scale < 1.0]: the test [_grab] makes before it resizes. *)
Definition downscales (s : Py.float) : bool :=
  Py.flt Py.f0 s && Py.flt s Py.f1.

(** The scale [_grab] works with: [float(_SRC.get("scale") or 1.0)]. *)
Definition grab_scale (w : World) : Py.float :=
  Py.or_one (src_scale (_SRC w)).

(** The fast path of the [k]-th grab (lines 143-148): [sct.grab(region)]
    and the resize of its image. *)
Definition primary_grab (E : Env) (h : Sct) (rg : Region) (sc : Py.float)
           (k : nat) : Result Image :=
  match sct_grab E k h rg with
  | Raise e => Raise e
  | Ok raw => fst (rescale E raw sc initial_world)
  end.

(** What the PowerShell mechanism of the [k]-th grab hands over before the
    resize (lines 169-176): the timeout is read, [powershell.exe] runs the
    script, [wslpath] translates the path it printed and [Image.open]
    opens the file. *)
Definition powershell_capture (E : Env) (k : nat) : Result Image :=
  match float_of_str E match getenv E "SCREENSHARE_WSL_PS_TIMEOUT" with
                       | Some s => s
                       | None => "10"
                       end with
  | Raise e => Raise e
  | Ok timeout =>
      match powershell_exe E k timeout with
      | Raise e => Raise e
      | Ok out =>
          match wslpath E k out with
          | Raise e => Raise e
          | Ok wsl_path => Image_open E k wsl_path
          end
      end
  end.

(** The files the programs of the [k]-th grab can be told to save: that of
    the PowerShell script, and [screenshare_fallback.png] in the temp
    directory for the compositor tools. *)
Definition tool_files (E : Env) (k : nat) : list string :=
  ps_tmp E k ::
  match gettempdir E with
  | Ok tmp => [os_path_join tmp "screenshare_fallback.png"]
  | Raise _ => []
  end.

(** The path [screenshare_capture] gives its file when it reads the clock
    at [c]: [out_dir / _timestamp_name("screen", ext)]. *)
Definition capture_path (E : Env) (save_dir : string) (c : nat)
           (mime : string) : string :=
  path_join (Path_expanduser E save_dir)
    ("screen_" ++ strftime_compact (localtime E c) ++ "_"
     ++ Py.zpad 3 (Z.to_nat (time_millis E (S c) mod 1000))
     ++ ext_of_mime mime).

(** The path [screenshare_burst] gives frame [i] in [out_dir] when it reads
    the clock at [c]: [out_dir / f"scr_{ts}_{ms:03d}_{i:02d}{ext}"]. *)
Definition burst_path (E : Env) (out_dir : string) (c : nat) (i : Z)
           (mime : string) : string :=
  path_join out_dir
    (burst_fname (strftime_compact (localtime E c))
                 (Z.to_nat (time_millis E (S c) mod 1000)) i
                 (ext_of_mime mime)).

(** ** More vocabulary of the proofs *)

(** What holds of a run of the capture mechanisms, for the [k]-th grab with
    handle [h], region [rg] and scale [sc], that answered [(ok, img, msg)]
    and performed the effects [evs]. *)
Definition mechanisms_outcome (E : Env) (h : Sct) (rg : Region)
           (sc : Py.float) (k : nat) (ok : bool) (img : option Image)
           (msg : string) (evs : list Event) : Prop :=
  ((ok = true /\ msg = "ok"
    /\ exists i, img = Some i
                 /\ (downscales sc = true ->
                     1 <= img_width i /\ 1 <= img_height i))
   \/ (ok = false /\ img = None
       /\ exists e1 e2 e3,
           msg = ("Failed to grab (mss=" ++ e1 ++ ", wsl_ps=" ++ e2
                  ++ ", fallback=" ++ e3 ++ ")")%string
           /\ (forall e, sct_grab E k h rg = Raise e -> e1 = exn_str e)
           /\ (_is_wsl E = false -> e2 = "n/a")
           /\ (forall e, _is_wsl E = true ->
                         powershell_capture E k = Raise e ->
                         e2 = exn_str e)
           /\ (which E "gnome-screenshot" = false ->
               which E "grim" = false ->
               (exists tmp, gettempdir E = Ok tmp) ->
               e3 = "no compositor screenshot tool (gnome-screenshot/grim) found")))
  /\ (exists ps fb,
         runs_of evs = (ps ++ fb)%list
         /\ (ps = [] \/ ps = ["powershell.exe"]
             \/ ps = ["powershell.exe"; "wslpath"])
         /\ (fb = [] \/ fb = ["gnome-screenshot"] \/ fb = ["grim"])
         /\ (ps <> [] -> _is_wsl E = true)
         /\ (fb = ["gnome-screenshot"] -> which E "gnome-screenshot" = true)
         /\ (fb = ["grim"] ->
             which E "gnome-screenshot" = false /\ which E "grim" = true))
  /\ incl (temps_of evs) (tool_files E k)
  /\ (forall i, primary_grab E h rg sc k = Ok i ->
                evs = [] /\ ok = true /\ img = Some i).

(** Effects that leave directories and handles alone, and whose temp files
    are those of the programs of some grab. *)
Definition frame_quiet (E : Env) (evs : list Event) : Prop :=
  mkdirs_of evs = [] /\ closes_of evs = [] /\ acquires_of evs = []
  /\ (forall f, In f (temps_of evs) -> exists k, In f (tool_files E k)).

(** What frame [i] of a burst into [out_dir] has done, with the locals [l]
    when it started, the result [r] and the effects [evs]. *)
Definition frame_outcome (E : Env) (out_dir format : string) (i : Z)
           (l : BurstLocals) (r : Result (Flow Dict BurstLocals))
           (evs : list Event) : Prop :=
  match r with
  | Ok (Next l') =>
      exists img p d,
        paths l' = (paths l ++ [p])%list
        /\ writes_of evs = [(p, d)]
        /\ opens_of evs = [p]
        /\ (exists c mime, p = burst_path E out_dir c i mime)
        /\ _encode_image_pil E img format
           = (true, d, mime_last l', w_last l', h_last l')
  | Ok (Return resp) =>
      writes_of evs = [] /\ opens_of evs = []
      /\ exists err,
          resp = [("ok", VBool false); ("error", VStr err);
                  ("paths", paths_value (paths l))]
  | Raise _ => writes_of evs = []
  end.

(** The files of the frames from [start] on: each one was opened once and
    written, and the [j]-th carries the index [start + j]. *)
Definition frames_outcome (E : Env) (out_dir : string) (start : Z)
           (evs : list Event) : Prop :=
  opens_of evs = map fst (writes_of evs)
  /\ (forall j p d,
         nth_error (writes_of evs) j = Some (p, d) ->
         exists c mime, p = burst_path E out_dir c (start + Z.of_nat j) mime).

(** ** More sample environments *)

(** A machine without a display: [mss.mss()] fails. *)
Definition headless_env : Env :=
  {| mss_mss := fun _ => Raise (mkExn "ScreenShotError" "$DISPLAY not set.");
     sct_close := sct_close demo_env;
     sct_grab := sct_grab demo_env;
     platform_release := platform_release demo_env;
     platform_version := platform_version demo_env;
     wsl_interop_exists := false;
     getenv := getenv demo_env;
     float_of_str := float_of_str demo_env;
     ps_tmp := ps_tmp demo_env;
     powershell_exe := powershell_exe demo_env;
     wslpath := wslpath demo_env;
     Image_open := Image_open demo_env;
     gettempdir := gettempdir demo_env;
     which := which demo_env;
     run_tool := run_tool demo_env;
     lanczos := lanczos demo_env;
     pil_convert := pil_convert demo_env;
     pil_save := pil_save demo_env;
     perf_counter := perf_counter demo_env;
     localtime := localtime demo_env;
     time_millis := time_millis demo_env;
     Path_expanduser := Path_expanduser demo_env;
     fs_mkdir := fs_mkdir demo_env;
     open_wb := open_wb demo_env;
     f_write := f_write demo_env |}.

(** A Wayland session: [sct.grab] fails, both compositor tools are
    installed and give an RGBA screenshot. *)
Definition wayland_env : Env :=
  {| mss_mss := mss_mss demo_env;
     sct_close := sct_close demo_env;
     sct_grab := fun _ _ _ =>
       Raise (mkExn "ScreenShotError" "XGetImage() failed");
     platform_release := platform_release demo_env;
     platform_version := platform_version demo_env;
     wsl_interop_exists := false;
     getenv := getenv demo_env;
     float_of_str := float_of_str demo_env;
     ps_tmp := ps_tmp demo_env;
     powershell_exe := powershell_exe demo_env;
     wslpath := wslpath demo_env;
     Image_open := Image_open demo_env;
     gettempdir := gettempdir demo_env;
     which := fun _ => true;
     run_tool := fun _ _ _ => Ok (mkImage 1920 1080 "RGBA" []);
     lanczos := lanczos demo_env;
     pil_convert := pil_convert demo_env;
     pil_save := pil_save demo_env;
     perf_counter := perf_counter demo_env;
     localtime := localtime demo_env;
     time_millis := time_millis demo_env;
     Path_expanduser := Path_expanduser demo_env;
     fs_mkdir := fs_mkdir demo_env;
     open_wb := open_wb demo_env;
     f_write := f_write demo_env |}.

(** WSL without a working capture mechanism: [sct.grab] and PowerShell
    both fail and no compositor tool is installed. *)
Definition wsl_env : Env :=
  {| mss_mss := mss_mss demo_env;
     sct_close := sct_close demo_env;
     sct_grab := fun _ _ _ =>
       Raise (mkExn "ScreenShotError" "XGetImage() failed");
     platform_release := Ok "5.15.90.1-Microsoft-standard-WSL2";
     platform_version := platform_version demo_env;
     wsl_interop_exists := true;
     getenv := getenv demo_env;
     float_of_str := float_of_str demo_env;
     ps_tmp := ps_tmp demo_env;
     powershell_exe := fun _ _ =>
       Raise (mkExn "TimeoutExpired" "powershell.exe timed out");
     wslpath := wslpath demo_env;
     Image_open := Image_open demo_env;
     gettempdir := gettempdir demo_env;
     which := which demo_env;
     run_tool := run_tool demo_env;
     lanczos := lanczos demo_env;
     pil_convert := pil_convert demo_env;
     pil_save := pil_save demo_env;
     perf_counter := perf_counter demo_env;
     localtime := localtime demo_env;
     time_millis := time_millis demo_env;
     Path_expanduser := Path_expanduser demo_env;
     fs_mkdir := fs_mkdir demo_env;
     open_wb := open_wb demo_env;
     f_write := f_write demo_env |}.

(** The world after [screenshare_start(scale=0.5)]. *)
Definition half_scale_world : World :=
  snd (screenshare_start demo_env 1 0 0 0 0
         (S754_finite false 4503599627370496 (-53)) initial_world).

(** * Properties *)

(** ** The model on small inputs *)

(** The float constants are the binary64 values of the literals. *)
Example float_constants :
  Prim2SF 0.5%float = S754_finite false 4503599627370496 (-53)
  /\ Prim2SF 1%float = Py.f1
  /\ Prim2SF 1000%float = Py.f1000
  /\ Prim2SF 0x1.999999999999ap-4%float = Py.f0_1
  /\ Py.float_of_int 1000 = Ok Py.f1000.
Proof. repeat split; reflexivity. Qed.

(** [round] takes ties to the even neighbour, as Python 3 does. *)
Example round_ties_to_even :
  Py.round (Prim2SF 2.5%float) = Ok 2
  /\ Py.round (Prim2SF 3.5%float) = Ok 4
  /\ Py.round (Prim2SF (-2.5)%float) = Ok (-2)
  /\ burst_n_from_duration 750 300 = Ok 2
  /\ burst_n_from_duration 1000 200 = Ok 5
  /\ burst_n_from_duration 10 1000 = Ok 1
  /\ burst_n_from_duration 1000 (-200) = Ok 1.
Proof. repeat split; reflexivity. Qed.

Example formatting :
  Py.zpad 3 7 = "007" /\ Py.zpad 2 123 = "123" /\ Py.str (-5) = "-5"
  /\ burst_fname "20250102_030405" 123 7 ".jpg"
     = "scr_20250102_030405_123_07.jpg"
  /\ path_join "." "a.png" = "a.png"
  /\ path_join "/tmp/frames" "a.png" = "/tmp/frames/a.png"
  /\ sequence_index "/tmp/frames/scr_20250102_030405_123_07.jpg" = Some 7%nat.
Proof. repeat split; reflexivity. Qed.

(** The scale is clamped into [0.1, 1.0], and 0 means 1.0. *)
Example start_clamps_scale :
  src_scale (_SRC (snd (screenshare_start demo_env 1 0 0 0 0
                          (S754_finite false 5629499534213120 (-50))
                          initial_world))) = Py.f1              (* 5.0 *)
  /\ src_scale (_SRC (snd (screenshare_start demo_env 1 0 0 0 0
                             Py.f0 initial_world))) = Py.f1
  /\ src_scale (_SRC (snd (screenshare_start demo_env 1 0 0 0 0
                             (S754_finite false 4503599627370496 (-62))
                             initial_world))) = Py.f0_1.         (* 2^-10 *)
Proof. repeat split; reflexivity. Qed.

Example list_displays_truncates :
  fst (list_displays demo_env 1 initial_world) =
    Ok [("displays",
         VList [display_dict 0 (mkMonitor 0 0 3840 1080);
                display_dict 1 (mkMonitor 0 0 1920 1080)])].
Proof. reflexivity. Qed.

Example burst_of_three :
  fst (screenshare_burst demo_env 3 150 "shots" "png" 1 0 demo_world) =
    Ok [("ok", VBool true);
        ("paths",
         VList [VStr "shots/scr_20250102_030405_573_00.png";
                VStr "shots/scr_20250102_030405_023_01.png";
                VStr "shots/scr_20250102_030405_473_02.png"]);
        ("mime", VStr "image/png"); ("width", VInt 1920);
        ("height", VInt 1080); ("n", VInt 3); ("period_ms", VInt 150);
        ("duration_ms", VInt 0); ("save_dir", VStr "shots")].
Proof. vm_compute. reflexivity. Qed.

(** ** Conversion of integers to floats *)

Lemma digits2_pos_bounds p :
  2 ^ (Zpos (digits2_pos p) - 1) <= Zpos p < 2 ^ Zpos (digits2_pos p).
Proof.
  induction p as [p IH | p IH |]; cbn [digits2_pos].
  - rewrite Pos2Z.inj_succ. change (Zpos p~1) with (2 * Zpos p + 1).
    replace (Z.succ (Zpos (digits2_pos p)) - 1)
      with (Z.succ (Zpos (digits2_pos p) - 1)) by lia.
    rewrite !Z.pow_succ_r by lia.
    revert IH. generalize (2 ^ (Zpos (digits2_pos p) - 1)).
    generalize (2 ^ Zpos (digits2_pos p)). intros a b [H1 H2]. split; lia.
  - rewrite Pos2Z.inj_succ. change (Zpos p~0) with (2 * Zpos p).
    replace (Z.succ (Zpos (digits2_pos p)) - 1)
      with (Z.succ (Zpos (digits2_pos p) - 1)) by lia.
    rewrite !Z.pow_succ_r by lia.
    revert IH. generalize (2 ^ (Zpos (digits2_pos p) - 1)).
    generalize (2 ^ Zpos (digits2_pos p)). intros a b [H1 H2]. split; lia.
  - cbn. lia.
Qed.

Lemma digits2_pos_unique p k :
  2 ^ (k - 1) <= Zpos p < 2 ^ k -> Zpos (digits2_pos p) = k.
Proof.
  intros [Hlo Hhi]. pose proof (digits2_pos_bounds p) as [Dlo Dhi].
  assert (0 < k).
  { destruct (Z.ltb_spec 0 k); [assumption|].
    assert (2 ^ k <= 2 ^ 0) by (apply Z.pow_le_mono_r; lia).
    change (2 ^ 0) with 1 in *. lia. }
  destruct (Z.lt_trichotomy (Zpos (digits2_pos p)) k) as [Hlt | [Heq | Hgt]];
    [ | assumption | ].
  - assert (2 ^ Zpos (digits2_pos p) <= 2 ^ (k - 1))
      by (apply Z.pow_le_mono_r; lia). lia.
  - assert (2 ^ k <= 2 ^ (Zpos (digits2_pos p) - 1))
      by (apply Z.pow_le_mono_r; lia). lia.
Qed.

Lemma shr_1_m mrs : 0 <= shr_m mrs -> shr_m (shr_1 mrs) = shr_m mrs / 2.
Proof.
  destruct mrs as [m r s]. cbn [shr_m]. intro Hm.
  rewrite <- Z.div2_div.
  destruct m as [| [p | p |] | p]; try reflexivity; lia.
Qed.

Lemma iter_shr_m p : forall mrs,
  0 <= shr_m mrs ->
  shr_m (iter_pos shr_1 p mrs) = shr_m mrs / 2 ^ Zpos p.
Proof.
  assert (Hnn : forall mrs, 0 <= shr_m mrs -> 0 <= shr_m (shr_1 mrs)).
  { intros mrs H. rewrite shr_1_m by assumption. apply Z.div_pos; lia. }
  induction p as [p IH | p IH |]; intros mrs Hm; cbn [iter_pos].
  - assert (0 <= shr_m (iter_pos shr_1 p (shr_1 mrs)))
      by (rewrite IH by auto; apply Z.div_pos; [auto | apply Z.pow_pos_nonneg; lia]).
    rewrite IH, IH, shr_1_m by auto.
    rewrite !Z.div_div by (try apply Z.pow_pos_nonneg; lia).
    f_equal. change (Zpos p~1) with (2 * Zpos p + 1).
    replace (2 * Zpos p + 1) with (Z.succ (Zpos p + Zpos p)) by lia.
    rewrite Z.pow_succ_r, Z.pow_add_r by lia. lia.
  - assert (0 <= shr_m (iter_pos shr_1 p mrs))
      by (rewrite IH by auto; apply Z.div_pos; [auto | apply Z.pow_pos_nonneg; lia]).
    rewrite IH, IH by auto.
    rewrite !Z.div_div by (try apply Z.pow_pos_nonneg; lia).
    f_equal. change (Zpos p~0) with (2 * Zpos p).
    replace (2 * Zpos p) with (Zpos p + Zpos p) by lia.
    rewrite Z.pow_add_r by lia. lia.
  - rewrite shr_1_m by assumption. reflexivity.
Qed.

Lemma iter_xO_digits d : forall m,
  Zpos (digits2_pos (Pos.iter xO m d)) = Zpos (digits2_pos m) + Zpos d.
Proof.
  induction d using Pos.peano_ind; intro m.
  - cbn. lia.
  - rewrite Pos.iter_succ. cbn [digits2_pos]. rewrite Pos2Z.inj_succ, IHd. lia.
Qed.

Lemma round_nearest_even_bounds q l :
  q <= round_nearest_even q l <= q + 1.
Proof.
  destruct l as [| []]; cbn; try lia. destruct (Z.even q); lia.
Qed.

(** Rounding a mantissa of at least 53 bits to binary64 never gives a
    zero: it gives a number with a 53-bit mantissa, or an infinity when
    the exponent is out of range.  The exponent grows by one exactly when
    the rounding carries, and the mantissa is then [2^52]. *)
Lemma binary_round_aux_shape sx mz ez :
  53 <= Zpos (digits2_pos mz) ->
  -1074 <= ez ->
  exists m' e',
    Zpos (digits2_pos m') = 53
    /\ Zpos (digits2_pos mz) + ez - 53 <= e' <= Zpos (digits2_pos mz) + ez - 52
    /\ (e' = Zpos (digits2_pos mz) + ez - 52 -> Zpos m' = 2 ^ 52)
    /\ binary_round_aux prec emax sx (Zpos mz) ez loc_Exact
       = if e' <=? emax - prec then S754_finite sx m' e'
         else S754_infinity sx.
Proof.
  intros Hd He.
  pose proof (digits2_pos_bounds mz) as [Blo Bhi].
  set (d := Zpos (digits2_pos mz)) in *.
  unfold binary_round_aux, shr_fexp. cbn [Zdigits2 shr_record_of_loc].
  fold d.
  replace (fexp prec emax (d + ez) - ez) with (d - 53)
    by (unfold fexp, SpecFloat.emin, prec, emax; lia).
  destruct (Z.eq_dec d 53) as [Hd53 | Hd53].
  - (* the mantissa fits: nothing is shifted out *)
    replace (d - 53) with 0 by lia. cbn [shr].
    cbn [shr_m loc_of_shr_record round_nearest_even Zdigits2].
    fold d. rewrite Hd53.
    replace (fexp prec emax (53 + ez) - ez) with 0
      by (unfold fexp, SpecFloat.emin, prec, emax; lia).
    cbn [shr shr_record_of_loc shr_m].
    exists mz, ez. repeat split; lia.
  - clearbody d. destruct (d - 53) as [| n | n] eqn:Hn; try lia.
    cbn [shr].
    set (mrs := iter_pos shr_1 n _).
    assert (Hq : shr_m mrs = Zpos mz / 2 ^ Zpos n)
      by (subst mrs; rewrite iter_shr_m; cbn [shr_m]; [reflexivity | lia]).
    assert (Hpow : 2 ^ d = 2 ^ 53 * 2 ^ Zpos n)
      by (rewrite <- Z.pow_add_r by lia; f_equal; lia).
    assert (Hpow' : 2 ^ (d - 1) = 2 ^ 52 * 2 ^ Zpos n)
      by (rewrite <- Z.pow_add_r by lia; f_equal; lia).
    assert (Hpos : 0 < 2 ^ Zpos n) by (apply Z.pow_pos_nonneg; lia).
    assert (Hqlo : 2 ^ 52 <= shr_m mrs)
      by (rewrite Hq; apply Z.div_le_lower_bound; lia).
    assert (Hqhi : shr_m mrs < 2 ^ 53)
      by (rewrite Hq; apply Z.div_lt_upper_bound; lia).
    pose proof (round_nearest_even_bounds (shr_m mrs) (loc_of_shr_record mrs))
      as [Rlo Rhi].
    set (m1 := round_nearest_even (shr_m mrs) (loc_of_shr_record mrs)) in *.
    destruct m1 as [| pm1 | pm1] eqn:Hm1; try lia.
    cbn [Zdigits2 shr_record_of_loc].
    destruct (Z.eq_dec (Zpos pm1) (2 ^ 53)) as [Htop | Htop].
    + (* the rounding carried into a 54th bit *)
      assert (Hd1 : Zpos (digits2_pos pm1) = 54)
        by (apply digits2_pos_unique; rewrite Htop; split; [reflexivity | reflexivity]).
      rewrite Hd1.
      replace (fexp prec emax (54 + (ez + Zpos n)) - (ez + Zpos n)) with 1
        by (unfold fexp, SpecFloat.emin, prec, emax; lia).
      cbn [shr iter_pos]. rewrite Htop.
      cbn [shr_1 shr_m Z.pow Z.pow_pos Pos.iter Z.mul Pos.mul].
      exists 4503599627370496%positive, (ez + Zpos n + 1).
      split; [reflexivity|]. split; [lia|]. split; [reflexivity|]. reflexivity.
    + assert (Hd1 : Zpos (digits2_pos pm1) = 53)
        by (apply digits2_pos_unique; change (53 - 1) with 52; lia).
      rewrite Hd1.
      replace (fexp prec emax (53 + (ez + Zpos n)) - (ez + Zpos n)) with 0
        by (unfold fexp, SpecFloat.emin, prec, emax; lia).
      cbn [shr shr_m].
      exists pm1, (ez + Zpos n).
      split; [exact Hd1|]. split; [lia|]. split; [lia|]. reflexivity.
Qed.

Lemma binary_round_shape sx m :
  exists m' e',
    Zpos (digits2_pos m') = 53
    /\ Zpos (digits2_pos m) - 53 <= e' <= Zpos (digits2_pos m) - 52
    /\ (e' = Zpos (digits2_pos m) - 52 -> Zpos m' = 2 ^ 52)
    /\ binary_round prec emax sx m 0
       = if e' <=? emax - prec then S754_finite sx m' e'
         else S754_infinity sx.
Proof.
  unfold binary_round, shl_align.
  replace (fexp prec emax (Zpos (digits2_pos m) + 0))
    with (Zpos (digits2_pos m) - 53)
    by (unfold fexp, SpecFloat.emin, prec, emax; lia).
  destruct (Zpos (digits2_pos m) - 53 - 0) as [| k | k] eqn:Hk.
  - destruct (binary_round_aux_shape sx m 0)
      as (m' & e' & Hd & He & Hc & Hr); try lia.
    exists m', e'. split; [exact Hd|]. split; [lia|]. split; [|exact Hr].
    intro; apply Hc; lia.
  - destruct (binary_round_aux_shape sx m 0)
      as (m' & e' & Hd & He & Hc & Hr); try lia.
    exists m', e'. split; [exact Hd|]. split; [lia|]. split; [|exact Hr].
    intro; apply Hc; lia.
  - destruct (binary_round_aux_shape sx (Pos.iter xO m k)
                                    (Zpos (digits2_pos m) - 53))
      as (m' & e' & Hd & He & Hc & Hr); rewrite ?iter_xO_digits; try lia.
    rewrite iter_xO_digits in He, Hc.
    exists m', e'. split; [exact Hd|]. split; [lia|]. split; [|exact Hr].
    intro; apply Hc; lia.
Qed.

(** [float(z)] of a nonzero integer is not a zero. *)
Lemma float_of_int_nonzero z x :
  z <> 0 -> Py.float_of_int z = Ok x -> Py.feq x Py.f0 = false.
Proof.
  intros Hz. unfold Py.float_of_int, binary_normalize.
  destruct z as [| m | m]; [congruence | |].
  - destruct (binary_round_shape false m) as (m' & e' & _ & _ & _ & ->).
    destruct (e' <=? emax - prec); [|discriminate].
    intros [= <-]. reflexivity.
  - destruct (binary_round_shape true m) as (m' & e' & _ & _ & _ & ->).
    destruct (e' <=? emax - prec); [|discriminate].
    intros [= <-]. reflexivity.
Qed.

Lemma digits2_pos_below m k :
  0 <= k -> Zpos m < 2 ^ k -> Zpos (digits2_pos m) <= k.
Proof.
  intros Hk Hm. pose proof (digits2_pos_bounds m) as [Blo _].
  destruct (Z.leb_spec (Zpos (digits2_pos m)) k) as [|Hgt]; [assumption|].
  assert (2 ^ k <= 2 ^ (Zpos (digits2_pos m) - 1))
    by (apply Z.pow_le_mono_r; lia).
  lia.
Qed.

(** The float of a nonzero integer below [2^1023] in magnitude: a 53-bit
    mantissa [m] and an exponent [e] with [m * 2^e <= 2^1023]. *)
Lemma float_of_int_normal z :
  z <> 0 -> Z.abs z < 2 ^ 1023 ->
  exists m e,
    Py.float_of_int z = Ok (S754_finite (z <? 0) m e)
    /\ Zpos (digits2_pos m) = 53
    /\ -52 <= e <= 971
    /\ Zpos m <= 2 ^ (1023 - e).
Proof.
  intros Hz Habs. unfold Py.float_of_int, binary_normalize.
  assert (Hgen : forall sx p, Zpos p < 2 ^ 1023 ->
            exists m e,
              match binary_round prec emax sx p 0 with
              | S754_infinity _ => Raise OverflowError_int
              | sf => Ok sf
              end = Ok (S754_finite sx m e)
              /\ Zpos (digits2_pos m) = 53
              /\ -52 <= e <= 971
              /\ Zpos m <= 2 ^ (1023 - e)).
  { intros sx p Hp.
    pose proof (digits2_pos_below p 1023 ltac:(lia) Hp) as HD.
    destruct (binary_round_shape sx p) as (m' & e' & Hd & He & Hc & ->).
    replace (e' <=? emax - prec) with true
      by (symmetry; apply Z.leb_le; unfold emax, prec; lia).
    exists m', e'. split; [reflexivity|]. split; [exact Hd|].
    split; [lia|].
    destruct (Z.eq_dec e' (Zpos (digits2_pos p) - 52)) as [Hcarry | Hno].
    - rewrite (Hc Hcarry). apply Z.pow_le_mono_r; lia.
    - pose proof (digits2_pos_bounds m') as [_ Bhi]. rewrite Hd in Bhi.
      assert (2 ^ 53 <= 2 ^ (1023 - e')) by (apply Z.pow_le_mono_r; lia).
      lia. }
  destruct z as [| p | p]; [congruence | |].
  - apply Hgen. cbn in Habs. lia.
  - apply Hgen. cbn in Habs. lia.
Qed.

(** Integers below [2^1023] in magnitude convert to floats. *)
Lemma fits_float_bound z : Z.abs z < 2 ^ 1023 -> fits_float z.
Proof.
  intro Hz. destruct (Z.eq_dec z 0) as [-> | Hnz].
  - eexists; reflexivity.
  - destruct (float_of_int_normal z Hnz Hz) as (m & e & H & _).
    eexists; exact H.
Qed.

Lemma Zdigits2_below x k : 0 <= k -> 0 <= x < 2 ^ k -> Zdigits2 x <= k.
Proof.
  intros Hk [Hlo Hhi]. destruct x as [| p | p]; cbn; try lia.
  now apply digits2_pos_below.
Qed.

Lemma shr_record_of_loc_m m l : shr_m (shr_record_of_loc m l) = m.
Proof. destruct l as [| []]; reflexivity. Qed.

(** One alignment step: the mantissa is kept, or shifted right up to the
    exponent the format asks for. *)
Lemma shr_fexp_spec m e l :
  0 <= m ->
  exists mrs e1,
    shr_fexp prec emax m e l = (mrs, e1)
    /\ 0 <= shr_m mrs
    /\ ((e1 = e /\ shr_m mrs = m)
        \/ (e1 = fexp prec emax (Zdigits2 m + e) /\ e < e1
            /\ shr_m mrs = m / 2 ^ (e1 - e))).
Proof.
  intro Hm. unfold shr_fexp, shr.
  destruct (fexp prec emax (Zdigits2 m + e) - e) as [| n | n] eqn:Hn.
  - eexists _, _. split; [reflexivity|]. rewrite shr_record_of_loc_m.
    split; [assumption|]. left. split; reflexivity.
  - eexists _, _. split; [reflexivity|].
    rewrite iter_shr_m by (rewrite shr_record_of_loc_m; exact Hm).
    rewrite shr_record_of_loc_m.
    split; [apply Z.div_pos; [assumption | apply Z.pow_pos_nonneg; lia]|].
    right. split; [lia|]. split; [lia|]. do 2 f_equal. lia.
  - eexists _, _. split; [reflexivity|]. rewrite shr_record_of_loc_m.
    split; [assumption|]. left. split; reflexivity.
Qed.

(** Rounding [q * 2^e <= 2^1023] to binary64 cannot overflow: [round]
    accepts the result. *)
Lemma binary_round_aux_bounded sx q e l :
  0 <= q -> e <= 970 -> q <= 2 ^ (1023 - e) ->
  exists r, Py.round (binary_round_aux prec emax sx q e l) = Ok r.
Proof.
  intros Hq He Hv. unfold binary_round_aux.
  assert (Hfexp : forall x, x <= 1024 -> fexp prec emax x <= 971)
    by (intros; unfold fexp, SpecFloat.emin, prec, emax; lia).
  assert (Hroom : forall x k, 0 <= x -> k <= 971 -> x <= 2 ^ (1023 - k) + 1 ->
                              Zdigits2 x + k <= 1024).
  { intros x k Hx Hk Hxv.
    assert (Zdigits2 x <= 1024 - k); [|lia].
    apply Zdigits2_below; [lia|]. split; [assumption|].
    replace (1024 - k) with (Z.succ (1023 - k)) by lia.
    rewrite Z.pow_succ_r by lia.
    assert (1 < 2 ^ (1023 - k)) by (apply Z.pow_gt_1; lia). lia. }
  destruct (shr_fexp_spec q e l Hq) as (mrs1 & e1 & -> & Hm1 & Hcase1).
  assert (H1 : e1 <= 971 /\ shr_m mrs1 <= 2 ^ (1023 - e1)).
  { destruct Hcase1 as [[-> ->] | (Heq & Hlt & ->)].
    - split; [lia | assumption].
    - assert (He1 : e1 <= 971)
        by (rewrite Heq; apply Hfexp, Hroom; lia).
      split; [exact He1|].
      apply Z.div_le_upper_bound; [apply Z.pow_pos_nonneg; lia|].
      rewrite <- Z.pow_add_r by lia.
      now replace (e1 - e + (1023 - e1)) with (1023 - e) by lia. }
  destruct H1 as [He1 Hv1].
  pose proof (round_nearest_even_bounds (shr_m mrs1) (loc_of_shr_record mrs1))
    as [Rlo Rhi].
  set (m1 := round_nearest_even (shr_m mrs1) (loc_of_shr_record mrs1)) in *.
  destruct (shr_fexp_spec m1 e1 loc_Exact ltac:(lia))
    as (mrs2 & e2 & -> & Hm2 & Hcase2).
  assert (He2 : e2 <= 971).
  { destruct Hcase2 as [[-> _] | (-> & _)]; [assumption|].
    apply Hfexp, Hroom; lia. }
  destruct (shr_m mrs2) as [| p | p]; try lia.
  - eexists; reflexivity.
  - replace (e2 <=? emax - prec) with true
      by (symmetry; apply Z.leb_le; unfold emax, prec; lia).
    eexists; reflexivity.
Qed.

(** The quotient of a float of at most [2^1023] by a float of at least 1,
    both with 53-bit mantissas, can be rounded to an integer. *)
Lemma SFdiv_round_total s1 m1 e1 s2 m2 e2 :
  Zpos (digits2_pos m1) = 53 -> Zpos (digits2_pos m2) = 53 ->
  e1 <= 971 -> Zpos m1 <= 2 ^ (1023 - e1) -> -52 <= e2 ->
  exists r,
    Py.round (SFdiv prec emax (S754_finite s1 m1 e1) (S754_finite s2 m2 e2))
    = Ok r.
Proof.
  intros D1 D2 He1 Hv He2. unfold SFdiv, SFdiv_core_binary.
  cbn [Zdigits2]. rewrite D1, D2.
  set (e' := Z.min (fexp prec emax (53 + e1 - (53 + e2))) (e1 - e2)).
  assert (He' : e' <= 970 /\ e' <= e1 - e2).
  { subst e'. unfold fexp, SpecFloat.emin, prec, emax. lia. }
  destruct He' as [He' Hs].
  remember (e1 - e2 - e') as s eqn:Hsdef.
  assert (Hs0 : 0 <= s) by lia.
  set (m' := match s with
             | 0 => Zpos m1
             | Zpos _ => Z.shiftl (Zpos m1) s
             | Zneg _ => 0
             end).
  assert (Hm' : m' = Zpos m1 * 2 ^ s).
  { subst m'. destruct s as [| ps | ps] eqn:Hps; try lia.
    apply Z.shiftl_mul_pow2. lia. }
  destruct (Z.div_eucl m' (Zpos m2)) as [q r] eqn:Hdiv.
  assert (Hq : q = m' / Zpos m2) by (unfold Z.div; now rewrite Hdiv).
  assert (Hpow_s : 0 < 2 ^ s) by (apply Z.pow_pos_nonneg; lia).
  pose proof (digits2_pos_bounds m2) as [B2 _]. rewrite D2 in B2.
  change (2 ^ (53 - 1)) with (2 ^ 52) in B2.
  apply binary_round_aux_bounded; [ | exact He' | ].
  - rewrite Hq, Hm'. apply Z.div_pos; lia.
  - rewrite Hq. apply Z.div_le_upper_bound; [lia|].
    rewrite Hm'.
    assert (Hnum : Zpos m1 * 2 ^ s <= 2 ^ (1023 - e2 - e')).
    { replace (1023 - e2 - e') with ((1023 - e1) + s) by lia.
      rewrite Z.pow_add_r by lia. apply Z.mul_le_mono_nonneg_r; lia. }
    assert (Hpow_e : 0 < 2 ^ (1023 - e')) by (apply Z.pow_pos_nonneg; lia).
    assert (Hden : 2 ^ (1023 - e2 - e') <= Zpos m2 * 2 ^ (1023 - e')).
    { destruct (Z.leb_spec e2 0) as [Hneg | Hpos].
      - replace (1023 - e2 - e') with (- e2 + (1023 - e')) by lia.
        rewrite Z.pow_add_r by lia.
        apply Z.mul_le_mono_nonneg_r; [lia|].
        assert (2 ^ (- e2) <= 2 ^ 52) by (apply Z.pow_le_mono_r; lia). lia.
      - assert (2 ^ (1023 - e2 - e') <= 2 ^ (1023 - e'))
          by (apply Z.pow_le_mono_r; lia).
        assert (1 * 2 ^ (1023 - e') <= Zpos m2 * 2 ^ (1023 - e'))
          by (apply Z.mul_le_mono_nonneg_r; lia).
        lia. }
    lia.
Qed.

(** For a positive duration and a nonzero period, both below [2^1023] in
    magnitude, the frame count is defined: the conversions, the division
    and [round] all succeed. *)
Lemma burst_n_from_duration_total duration_ms period_ms :
  0 < duration_ms < 2 ^ 1023 ->
  period_ms <> 0 -> Z.abs period_ms < 2 ^ 1023 ->
  exists fd fp r,
    Py.float_of_int duration_ms = Ok fd
    /\ Py.float_of_int period_ms = Ok fp
    /\ Py.round (SFdiv prec emax fd fp) = Ok r
    /\ burst_n_from_duration duration_ms period_ms = Ok (Z.max 1 r).
Proof.
  intros Hd Hp Hpa.
  destruct (float_of_int_normal duration_ms ltac:(lia) ltac:(lia))
    as (m1 & e1 & Hfd & D1 & He1 & Hv1).
  destruct (float_of_int_normal period_ms Hp Hpa)
    as (m2 & e2 & Hfp & D2 & He2 & _).
  destruct (SFdiv_round_total (duration_ms <? 0) m1 e1 (period_ms <? 0) m2 e2)
    as (r & Hr); try lia.
  eexists _, _, r. split; [exact Hfd|]. split; [exact Hfp|].
  split; [exact Hr|].
  unfold burst_n_from_duration. rewrite Hfd, Hfp.
  unfold Py.fdiv. rewrite (float_of_int_nonzero period_ms _ Hp Hfp).
  now rewrite Hr.
Qed.

(** ** File names *)

Lemma list_ascii_of_string_app s1 s2 :
  list_ascii_of_string (s1 ++ s2)
  = (list_ascii_of_string s1 ++ list_ascii_of_string s2)%list.
Proof. induction s1 as [| a s1 IH]; cbn; [reflexivity | now rewrite IH]. Qed.

Lemma take_digits_stop ds rest :
  forallb is_digit ds = true ->
  take_digits (ds ++ "_"%char :: rest) = ds.
Proof.
  induction ds as [| a ds IH]; cbn; [reflexivity|].
  intro H. apply andb_true_iff in H as [Ha Hds].
  rewrite Ha. now rewrite IH.
Qed.

Lemma digits_string_of_uint d :
  forallb is_digit (list_ascii_of_string (NilEmpty.string_of_uint d)) = true.
Proof. induction d; cbn; auto. Qed.

Lemma digits_zeros k :
  forallb is_digit (list_ascii_of_string (Py.zeros k)) = true.
Proof. induction k; cbn; auto. Qed.

Lemma digits_zpad w n :
  forallb is_digit (list_ascii_of_string (Py.zpad w n)) = true.
Proof.
  unfold Py.zpad, Py.digits, NilZero.string_of_uint.
  rewrite list_ascii_of_string_app, forallb_app, digits_zeros.
  destruct (Nat.to_uint n); try apply digits_string_of_uint. reflexivity.
Qed.

Lemma uint_of_string_zeros k s :
  NilEmpty.uint_of_string (Py.zeros k ++ s)
  = option_map (Nat.iter k Decimal.D0) (NilEmpty.uint_of_string s).
Proof.
  induction k as [| k IH]; cbn [Py.zeros String.append Nat.iter].
  - now destruct (NilEmpty.uint_of_string s).
  - cbn [NilEmpty.uint_of_string]. rewrite IH.
    now destruct (NilEmpty.uint_of_string s).
Qed.

Lemma of_uint_zeros k d :
  Nat.of_uint (Nat.iter k Decimal.D0 d) = Nat.of_uint d.
Proof. induction k as [| k IH]; cbn [Nat.iter]; [reflexivity | exact IH]. Qed.

(** Reading back a zero-padded number gives the number. *)
Lemma parse_zpad w n :
  option_map Nat.of_uint (NilZero.uint_of_string (Py.zpad w n)) = Some n.
Proof.
  unfold Py.zpad, Py.digits.
  assert (Hne : Nat.to_uint n <> Decimal.Nil).
  { intro H. pose proof (DecimalNat.Unsigned.of_to n) as Hn.
    rewrite H in Hn. cbn in Hn. subst n. discriminate H. }
  set (s := NilZero.string_of_uint (Nat.to_uint n)).
  assert (Hs : NilEmpty.uint_of_string s = Some (Nat.to_uint n)).
  { subst s. unfold NilZero.string_of_uint.
    destruct (Nat.to_uint n) eqn:Hd; try congruence;
      rewrite <- Hd; apply NilEmpty.usu. }
  assert (Hnil : (Py.zeros (w - String.length s) ++ s)%string <> "").
  { destruct (Py.zeros (w - String.length s)); cbn; [|discriminate].
    intro H. rewrite H in Hs. cbn in Hs. congruence. }
  unfold NilZero.uint_of_string.
  destruct (Py.zeros (w - String.length s) ++ s)%string eqn:Hz; [congruence|].
  rewrite <- Hz, uint_of_string_zeros, Hs. cbn [option_map].
  now rewrite of_uint_zeros, DecimalNat.Unsigned.of_to.
Qed.

Lemma forallb_rev A (p : A -> bool) l : forallb p (rev l) = forallb p l.
Proof.
  induction l as [| a l IH]; cbn; [reflexivity|].
  rewrite forallb_app, IH. cbn. rewrite andb_true_r. apply andb_comm.
Qed.

Lemma string_app_assoc (a b c : string) : ((a ++ b) ++ c = a ++ (b ++ c))%string.
Proof. induction a as [| x a IH]; cbn; [reflexivity | now rewrite IH]. Qed.

(** The sequence index read back from the name of frame [i], under any
    directory prefix. *)
Lemma sequence_index_fname pre ts ms i ext :
  String.length ext = 4%nat ->
  sequence_index (pre ++ burst_fname ts ms (Z.of_nat i) ext) = Some i.
Proof.
  intro Hext. unfold sequence_index, burst_fname.
  rewrite Nat2Z.id.
  set (D := Py.zpad 2 i).
  replace (pre ++ "scr_" ++ ts ++ "_" ++ Py.zpad 3 ms ++ "_" ++ D ++ ext)%string
    with ((pre ++ "scr_" ++ ts ++ "_" ++ Py.zpad 3 ms) ++ "_" ++ D ++ ext)%string
    by (rewrite !string_app_assoc; reflexivity).
  set (X := (pre ++ "scr_" ++ ts ++ "_" ++ Py.zpad 3 ms)%string).
  rewrite !list_ascii_of_string_app. cbn [list_ascii_of_string app].
  rewrite rev_app_distr. cbn [rev]. rewrite rev_app_distr.
  rewrite <- !app_assoc. cbn [app].
  rewrite skipn_app.
  replace (4 - List.length (rev (list_ascii_of_string ext)))%nat with 0%nat.
  2:{ rewrite length_rev.
      rewrite <- (string_of_list_ascii_of_string ext) in Hext.
      revert Hext. generalize (list_ascii_of_string ext) as l.
      induction l as [| a l IH]; cbn; [discriminate|].
      intros [= H]. cbn.
      clear IH. revert H.
      assert (Hlen : forall l', String.length (string_of_list_ascii l') = List.length l')
        by (induction l'; cbn; congruence).
      rewrite Hlen. intros ->. reflexivity. }
  rewrite skipn_all2.
  2:{ rewrite length_rev.
      assert (Hlen : forall s, List.length (list_ascii_of_string s) = String.length s)
        by (induction s; cbn; congruence).
      rewrite Hlen, Hext. lia. }
  cbn [skipn app].
  rewrite take_digits_stop by (rewrite forallb_rev; apply digits_zpad).
  rewrite rev_involutive, string_of_list_ascii_of_string.
  apply parse_zpad.
Qed.

Lemma path_join_prefix d :
  exists pre, forall name, path_join d name = (pre ++ name)%string.
Proof.
  unfold path_join, os_path_join.
  destruct (d =? ".")%string; [now exists ""|].
  destruct (d =? "")%string; [now exists ""|].
  destruct (_ =? "/")%string.
  - now exists d.
  - exists (d ++ "/")%string. intro name. now rewrite string_app_assoc.
Qed.

Lemma ext_of_mime_length mime : String.length (ext_of_mime mime) = 4%nat.
Proof. unfold ext_of_mime. now destruct (mime =? "image/jpeg")%string. Qed.

(** The path of a frame carries the index of the frame. *)
Lemma sequence_index_frame E src out_dir format g c j p d mime wd ht :
  frame_file E src out_dir format g c j = Some (p, d, mime, wd, ht) ->
  sequence_index p = Some j.
Proof.
  unfold frame_file.
  destruct (grab_of E src (g + j)) as [[[[] [img|]] msg] | e]; try discriminate.
  destruct (_encode_image_pil E img format) as [[[[[] data] mime'] wd'] ht'];
    try discriminate.
  intros [= <- _ _ _ _].
  destruct (path_join_prefix out_dir) as [pre ->].
  apply sequence_index_fname, ext_of_mime_length.
Qed.

(** Paths that carry distinct indices are distinct. *)
Lemma NoDup_by_index (path : nat -> string) (l : list nat) :
  (forall i, In i l -> sequence_index (path i) = Some i) ->
  NoDup l -> NoDup (map path l).
Proof.
  intros Hidx. induction 1 as [| i l Hnotin Hnd IH]; cbn; constructor.
  - intro Hin. apply in_map_iff in Hin as (j & Heq & Hj).
    assert (Some j = Some i) as [= ->].
    { rewrite <- (Hidx j) by now right. rewrite Heq. apply Hidx. now left. }
    contradiction.
  - apply IH. intros j Hj. apply Hidx. now right.
Qed.

(** ** The monad *)

Lemma advance_advance evs1 g1 evs2 g2 w :
  advance evs2 g2 (advance evs1 g1 w) = advance (evs1 ++ evs2) (g2 + g1) w.
Proof.
  unfold advance; simpl. f_equal.
  - now rewrite app_assoc.
  - lia.
Qed.

Lemma advance_nil w : advance [] 0 w = w.
Proof. destruct w; unfold advance; simpl. now rewrite app_nil_r. Qed.

Lemma runs_only_app evs1 evs2 :
  runs_only evs1 -> runs_only evs2 -> runs_only (evs1 ++ evs2).
Proof. intros H1 H2. apply Forall_app. now split. Qed.

Lemma runs_only_silent evs :
  runs_only evs -> writes_of evs = [] /\ mkdirs_of evs = [] /\ closes_of evs = [].
Proof.
  induction 1 as [| ev evs [[cmd ->] | [f ->]] _ IH]; simpl; auto.
Qed.

Lemma total_uniform A (m : M A) : total m -> uniform m.
Proof. intros (a & evs & H). now exists (Ok a), evs. Qed.

Lemma total_ret A (a : A) : total (ret a).
Proof.
  exists a, []. split; [constructor|]. intro w. now rewrite advance_nil.
Qed.

Lemma uniform_raise A (e : Exn) : uniform (raise (A := A) e).
Proof.
  exists (Raise e), []. split; [constructor|]. intro w. now rewrite advance_nil.
Qed.

Lemma uniform_lift A (r : Result A) : uniform (lift r).
Proof.
  exists r, []. split; [constructor|]. intro w. now rewrite advance_nil.
Qed.

Lemma total_run_process cmd : total (run_process cmd).
Proof.
  exists tt, [EvRun cmd]. split; [|reflexivity].
  constructor; [left; now exists cmd | constructor].
Qed.

Lemma total_run_saving cmd file : total (run_saving cmd file).
Proof.
  exists tt, [EvRun cmd; EvTemp file]. split.
  - constructor; [left; now exists cmd|].
    constructor; [right; now exists file | constructor].
  - intro w. unfold run_saving, bind, modify, advance, emit. simpl.
    now rewrite <- app_assoc.
Qed.

Lemma uniform_bind A B (m : M A) (k : A -> M B) :
  uniform m -> (forall a, uniform (k a)) -> uniform (bind m k).
Proof.
  intros (r & evs & Hr & Hm) Hk. destruct r as [a | e].
  - destruct (Hk a) as (r' & evs' & Hr' & Hk').
    exists r', (evs ++ evs')%list. split; [now apply runs_only_app|].
    intro w. unfold bind. rewrite Hm, Hk', advance_advance. reflexivity.
  - exists (Raise e), evs. split; [assumption|].
    intro w. unfold bind. now rewrite Hm.
Qed.

Lemma total_bind A B (m : M A) (k : A -> M B) :
  total m -> (forall a, total (k a)) -> total (bind m k).
Proof.
  intros (a & evs & Hr & Hm) Hk.
  destruct (Hk a) as (b & evs' & Hr' & Hk').
  exists b, (evs ++ evs')%list. split; [now apply runs_only_app|].
  intro w. unfold bind. rewrite Hm, Hk', advance_advance. reflexivity.
Qed.

Lemma uniform_try A (m : M A) (h : Exn -> M A) :
  uniform m -> (forall e, uniform (h e)) -> uniform (try_except m h).
Proof.
  intros (r & evs & Hr & Hm) Hh. destruct r as [a | e].
  - exists (Ok a), evs. split; [assumption|].
    intro w. unfold try_except. now rewrite Hm.
  - destruct (Hh e) as (r' & evs' & Hr' & Hh').
    exists r', (evs ++ evs')%list. split; [now apply runs_only_app|].
    intro w. unfold try_except. rewrite Hm, Hh', advance_advance. reflexivity.
Qed.

(** A [try] whose handlers cannot raise cannot raise. *)
Lemma total_try A (m : M A) (h : Exn -> M A) :
  uniform m -> (forall e, total (h e)) -> total (try_except m h).
Proof.
  intros (r & evs & Hr & Hm) Hh. destruct r as [a | e].
  - exists a, evs. split; [assumption|].
    intro w. unfold try_except. now rewrite Hm.
  - destruct (Hh e) as (b & evs' & Hr' & Hh').
    exists b, (evs ++ evs')%list. split; [now apply runs_only_app|].
    intro w. unfold try_except. rewrite Hm, Hh', advance_advance. reflexivity.
Qed.

Section Grab.

Variable E : Env.

Lemma uniform_rescale img sc : uniform (rescale E img sc).
Proof.
  unfold rescale. destruct (_ && _).
  - repeat (apply uniform_bind; [apply uniform_lift | intro]).
    apply total_uniform, total_ret.
  - apply total_uniform, total_ret.
Qed.

(** The chain of mechanisms always returns: every mechanism sits in its
    own [try]. *)
Lemma total_mechanisms h rg sc k : total (grab_mechanisms E h rg sc k).
Proof.
  unfold grab_mechanisms.
  assert (Hok : forall img,
             uniform (bind (rescale E img sc)
                           (fun img' => ret (true, Some img', "ok"))))
    by (intro; apply uniform_bind;
        [apply uniform_rescale | intro; apply total_uniform, total_ret]).
  apply total_try.
  { apply uniform_bind; [apply uniform_lift | exact Hok]. }
  intro e_primary. apply total_bind.
  - destruct (_is_wsl E); [|apply total_ret].
    apply total_try; [|intro; apply total_ret].
    apply uniform_bind; [apply uniform_lift | intro timeout].
    apply uniform_bind; [apply total_uniform, total_run_saving | intros _].
    apply uniform_bind; [apply uniform_lift | intro out].
    apply uniform_bind; [apply total_uniform, total_run_process | intros _].
    apply uniform_bind; [apply uniform_lift | intro wsl_path].
    apply uniform_bind; [apply uniform_lift | intro img].
    apply uniform_bind;
      [apply uniform_rescale | intro; apply total_uniform, total_ret].
  - intros [img | err_ps]; [apply total_ret|].
    apply total_try; [|intro; apply total_ret].
    apply uniform_bind; [apply uniform_lift | intro tmp].
    apply uniform_bind.
    { destruct (which E "gnome-screenshot");
        [apply total_uniform, total_ret|].
      destruct (which E "grim");
        [apply total_uniform, total_ret | apply uniform_raise]. }
    intro tool.
    apply uniform_bind; [apply total_uniform, total_run_saving | intros _].
    apply uniform_bind; [apply uniform_lift | exact Hok].
Qed.

(** [_grab] never raises, leaves [_SRC] and the clock alone, does
    nothing but start programs, and what it returns depends on [_SRC]
    and on its call number only. *)
Lemma grab_run w :
  exists r evs,
    grab_of E (_SRC w) (grab_calls w) = Ok r
    /\ _grab E w = (Ok r, advance evs (if ready (_SRC w) then 1 else 0) w)
    /\ runs_only evs
    /\ (ready (_SRC w) = false ->
        r = (false, None, "Screen source not initialized")).
Proof.
  unfold grab_of, _grab, ready, bind, get_world, next_grab. simpl.
  destruct (src_sct (_SRC w)) as [h|];
    [destruct (src_region (_SRC w)) as [rg|] |].
  2,3: exists (false, None, "Screen source not initialized"), [];
       rewrite advance_nil; repeat split; constructor.
  destruct (total_mechanisms h rg (Py.or_one (src_scale (_SRC w)))
                             (grab_calls w)) as (a & evs & Hr & Hm).
  exists a, evs. rewrite !Hm. repeat split; try assumption.
  discriminate.
Qed.

End Grab.

(** ** The capture source: start, status, stop *)

Section Source.

Variable E : Env.

Lemma status_run w :
  screenshare_status w =
    (Ok [("open", VBool (is_open w));
         ("monitor_index", VInt (src_monitor_index (_SRC w)));
         ("props", VDict (src_props (_SRC w)))], w).
Proof. reflexivity. Qed.

Lemma open_source_when_open w h mi l t wd ht sc :
  src_sct (_SRC w) = Some h ->
  _open_source E mi l t wd ht sc w =
    (Ok (true, "Screen capture already initialized"), w).
Proof.
  intro H. unfold _open_source, bind, get_world. now rewrite H.
Qed.

(** What a successful [_open_source] stores for monitor [mon]. *)
Lemma open_source_new w h mi l t wd ht sc mon :
  src_sct (_SRC w) = None ->
  mss_mss E (mss_calls w) = Ok h ->
  0 <= mi ->
  nth_error (monitors h) (Z.to_nat mi) = Some mon ->
  let rg := if (wd <=? 0) || (ht <=? 0)
            then mkRegion (mon_left mon) (mon_top mon)
                          (mon_width mon) (mon_height mon)
            else mkRegion (mon_left mon + Z.max 0 l) (mon_top mon + Z.max 0 t)
                          (Z.max 1 wd) (Z.max 1 ht) in
  let sc' := Py.fmax Py.f0_1 (Py.fmin Py.f1 (Py.or_one sc)) in
  _open_source E mi l t wd ht sc w =
    (Ok (true, "Screen source initialized"),
     set_SRC {| src_sct := Some h; src_monitor_index := mi;
                src_region := Some rg; src_scale := sc';
                src_props := [("monitor_index", VInt mi);
                              ("region", VDict (region_dict rg));
                              ("scale", VFloat sc')] |}
             (emit (EvAcquire h) (tick_mss w))).
Proof.
  intros Hs Hm Hmi Hnth rg sc'.
  unfold _open_source, bind, get_world, attempt, mss_new.
  rewrite Hs, Hm. simpl.
  assert (Hlen : (Z.to_nat mi < List.length (monitors h))%nat)
    by (apply nth_error_Some; congruence).
  replace (mi <? 0) with false by (symmetry; apply Z.ltb_ge; lia).
  replace (mi >=? Z.of_nat (List.length (monitors h))) with false
    by (symmetry; rewrite Z.geb_leb; apply Z.leb_gt; lia).
  simpl. rewrite Hnth. reflexivity.
Qed.

End Source.

(** C2: with a source open, [screenshare_start] succeeds at once whatever
    its arguments: it leaves the whole world as it was (the stored
    monitor index, region, scale and props, and no call to the capture
    library), answers with the stored configuration, answers the same for
    any other arguments, and [screenshare_status] afterwards reports the
    configuration stored before the call. *)
Theorem start_when_open_keeps_configuration
        (E : Env) (w : World) (h : Sct) (mi l t wd ht : Z) (sc : Py.float) :
  src_sct (_SRC w) = Some h ->
  screenshare_start E mi l t wd ht sc w =
    (Ok [("ok", VBool true);
         ("message", VStr "Screen capture already initialized");
         ("props", VDict (src_props (_SRC w)));
         ("monitor_index", VInt (src_monitor_index (_SRC w)))], w)
  /\ (forall mi' l' t' wd' ht' sc',
         screenshare_start E mi' l' t' wd' ht' sc' w =
         screenshare_start E mi l t wd ht sc w)
  /\ screenshare_status (snd (screenshare_start E mi l t wd ht sc w)) =
       (Ok [("open", VBool true);
            ("monitor_index", VInt (src_monitor_index (_SRC w)));
            ("props", VDict (src_props (_SRC w)))], w).
Proof.
  intro Hopen.
  assert (Hrun : forall mi l t wd ht sc,
             screenshare_start E mi l t wd ht sc w =
             (Ok [("ok", VBool true);
                  ("message", VStr "Screen capture already initialized");
                  ("props", VDict (src_props (_SRC w)));
                  ("monitor_index", VInt (src_monitor_index (_SRC w)))], w)).
  { intros. unfold screenshare_start, bind at 1.
    rewrite (open_source_when_open E w h) by assumption. reflexivity. }
  split; [apply Hrun|]. split.
  - intros. now rewrite !Hrun.
  - rewrite Hrun. simpl. rewrite status_run. unfold is_open.
    now rewrite Hopen.
Qed.

Lemma start_when_open_keeps_configuration_witness :
  src_sct (_SRC demo_world) = Some (mkSct 0 demo_monitors)
  /\ screenshare_start demo_env 2 40 40 640 480 Py.f0_1 demo_world =
       (Ok [("ok", VBool true);
            ("message", VStr "Screen capture already initialized");
            ("props", VDict (src_props (_SRC demo_world)));
            ("monitor_index", VInt 1)], demo_world).
Proof.
  split; [reflexivity|].
  apply (start_when_open_keeps_configuration
           demo_env demo_world (mkSct 0 demo_monitors) 2 40 40 640 480 Py.f0_1).
  reflexivity.
Defined.




(** C4: opening a new source on the display [mon] chosen by a valid
    [monitor_index] stores the resolved region: the full bounds of the
    display when [width <= 0] or [height <= 0], otherwise the display's
    origin moved by [max(0, left)] and [max(0, top)] with extents
    [max(1, width)] and [max(1, height)]; the region has width and height
    at least 1 (in the first case because the display has, its extents
    being positive). *)
Theorem start_resolves_region
        (E : Env) (w : World) (h : Sct) (mon : Monitor)
        (mi l t wd ht : Z) (sc : Py.float) :
  src_sct (_SRC w) = None ->
  mss_mss E (mss_calls w) = Ok h ->
  0 <= mi ->
  nth_error (monitors h) (Z.to_nat mi) = Some mon ->
  exists rg resp w',
    screenshare_start E mi l t wd ht sc w = (Ok resp, w')
    /\ dict_get "ok" resp = Some (VBool true)
    /\ src_region (_SRC w') = Some rg
    /\ dict_get "region" (src_props (_SRC w')) = Some (VDict (region_dict rg))
    /\ (wd <= 0 \/ ht <= 0 ->
        rg = mkRegion (mon_left mon) (mon_top mon)
                      (mon_width mon) (mon_height mon))
    /\ (0 < wd /\ 0 < ht ->
        rg = mkRegion (mon_left mon + Z.max 0 l) (mon_top mon + Z.max 0 t)
                      (Z.max 1 wd) (Z.max 1 ht))
    /\ (1 <= mon_width mon -> 1 <= mon_height mon ->
        1 <= region_width rg /\ 1 <= region_height rg).
Proof.
  intros Hs Hm Hmi Hnth.
  pose proof (open_source_new E w h mi l t wd ht sc mon Hs Hm Hmi Hnth) as Hrun.
  cbv zeta in Hrun.
  eexists _, _, _. split.
  { unfold screenshare_start, bind at 1. rewrite Hrun. reflexivity. }
  split; [reflexivity|]. split; [reflexivity|]. split; [reflexivity|].
  destruct ((wd <=? 0) || (ht <=? 0)) eqn:Hfull.
  - apply orb_true_iff in Hfull. rewrite !Z.leb_le in Hfull.
    repeat split; simpl; auto; lia.
  - apply orb_false_iff in Hfull. rewrite !Z.leb_gt in Hfull.
    repeat split; simpl; auto; lia.
Qed.

Lemma start_resolves_region_witness :
  exists rg resp w',
    screenshare_start demo_env 2 10 (-5) 640 480 Py.f1 initial_world
      = (Ok resp, w')
    /\ dict_get "ok" resp = Some (VBool true)
    /\ src_region (_SRC w') = Some rg
    /\ rg = mkRegion 1930 0 640 480
    /\ 1 <= region_width rg /\ 1 <= region_height rg.
Proof.
  destruct (start_resolves_region
              demo_env initial_world (mkSct 0 demo_monitors)
              (mkMonitor 1920 0 1920 1080) 2 10 (-5) 640 480 Py.f1)
    as (rg & resp & w' & Hrun & Hok & Hrg & _ & _ & Hcrop & Hpos).
  - reflexivity.
  - reflexivity.
  - lia.
  - reflexivity.
  - exists rg, resp, w'. split; [exact Hrun|]. split; [exact Hok|].
    split; [exact Hrg|]. split; [apply Hcrop; lia|].
    apply Hpos; simpl; lia.
Defined.

(** C7: with no source open, [screenshare_capture] answers [ok: false]
    with the not-initialized error whatever the directory and the format,
    and leaves the world as it was: no file is written and no directory
    is created. *)
Theorem capture_without_source
        (E : Env) (w : World) (save_dir format : string) :
  src_sct (_SRC w) = None ->
  screenshare_capture E save_dir format w =
    (Ok [("ok", VBool false);
         ("error", VStr "Screen source not initialized")], w).
Proof.
  intro Hs. unfold screenshare_capture, _grab, bind, get_world.
  rewrite Hs. reflexivity.
Qed.

Lemma capture_without_source_witness :
  src_sct (_SRC initial_world) = None
  /\ screenshare_capture demo_env "~/.screen_frames" "png" initial_world =
       (Ok [("ok", VBool false);
            ("error", VStr "Screen source not initialized")], initial_world).
Proof.
  split; [reflexivity|].
  apply (capture_without_source demo_env initial_world "~/.screen_frames" "png").
  reflexivity.
Defined.

(** C9: [screenshare_stop] always answers [ok: true] and never raises: it
    closes the handle if there is one (a failure of the release is
    swallowed), resets [_SRC] to its default (no handle, monitor index 1,
    no region, scale 1.0, empty props), so that [screenshare_status]
    then reports [open: false] with the default properties; with no
    source open nothing is released, stopping again changes nothing, and
    stopping a world whose [_SRC] is the default leaves it as it is. *)
Theorem stop_resets_source (E : Env) (w : World) :
  exists w',
    screenshare_stop E w = (Ok [("ok", VBool true)], w')
    /\ _SRC w' = SRC_default
    /\ effects w' =
         (effects w ++ match src_sct (_SRC w) with
                       | Some h => [EvClose h]
                       | None => []
                       end)%list
    /\ screenshare_status w' =
         (Ok [("open", VBool false); ("monitor_index", VInt 1);
              ("props", VDict [])], w')
    /\ screenshare_stop E w' = (Ok [("ok", VBool true)], w')
    /\ (_SRC w = SRC_default -> w' = w).
Proof.
  unfold screenshare_stop, _close_source, bind, get_world, try_except,
    close_handle, modify, ret.
  destruct w as [src evs m g c f]; simpl.
  destruct (src_sct src) as [h|] eqn:Hs; simpl.
  - destruct (sct_close E h); simpl; eexists; repeat split;
      intros ->; discriminate Hs.
  - eexists; repeat split; simpl; [now rewrite app_nil_r|].
    now intros ->.
Qed.

Lemma stop_resets_source_witness :
  exists w',
    screenshare_stop demo_env initial_world = (Ok [("ok", VBool true)], w')
    /\ _SRC w' = SRC_default
    /\ effects w' = []
    /\ w' = initial_world.
Proof.
  destruct (stop_resets_source demo_env initial_world)
    as (w' & Hrun & Hsrc & Heff & _ & _ & Hsame).
  exists w'. split; [exact Hrun|]. split; [exact Hsrc|].
  split; [exact Heff|]. apply Hsame. reflexivity.
Defined.

(** ** The burst loop *)

Lemma writes_of_app evs1 evs2 :
  writes_of (evs1 ++ evs2) = (writes_of evs1 ++ writes_of evs2)%list.
Proof.
  induction evs1 as [| ev evs1 IH]; simpl; [reflexivity|].
  destruct ev; simpl; now rewrite IH.
Qed.

Lemma mkdirs_of_app evs1 evs2 :
  mkdirs_of (evs1 ++ evs2) = (mkdirs_of evs1 ++ mkdirs_of evs2)%list.
Proof.
  induction evs1 as [| ev evs1 IH]; simpl; [reflexivity|].
  destruct ev; simpl; now rewrite IH.
Qed.

Lemma closes_of_app evs1 evs2 :
  closes_of (evs1 ++ evs2) = (closes_of evs1 ++ closes_of evs2)%list.
Proof.
  induction evs1 as [| ev evs1 IH]; simpl; [reflexivity|].
  destruct ev; simpl; now rewrite IH.
Qed.

Lemma moved_refl w : moved w w 0 0 0 [].
Proof. split; try lia; auto. now rewrite app_nil_r. Qed.

Lemma moved_trans w1 w2 w3 g1 c1 f1 e1 g2 c2 f2 e2 :
  moved w1 w2 g1 c1 f1 e1 -> moved w2 w3 g2 c2 f2 e2 ->
  moved w1 w3 (g1 + g2) (c1 + c2) (f1 + f2) (e1 ++ e2).
Proof.
  intros [] []. split; try congruence; try lia.
  rewrite app_assoc. congruence.
Qed.

Local Arguments Nat.mul : simpl never.
Local Arguments Nat.add : simpl never.

Section Burst.

Variable E : Env.
Variables (src : Src) (out_dir format : string).
Variables (t0 period_s : Py.float).
(** The grab number of frame 0, the clock reading and the file system
    operation count when the loop starts. *)
Variables (g c f : nat).

Lemma grab_of_ready k img msg :
  grab_of E src k = Ok (true, Some img, msg) -> ready src = true.
Proof.
  intro H.
  destruct (grab_run E {| _SRC := src; effects := []; mss_calls := 0;
                          grab_calls := k; clock_reads := 0; fs_calls := 0 |})
    as (r & evs & Hr & _ & _ & Hnot).
  simpl in Hr, Hnot. destruct (ready src); [reflexivity|].
  rewrite Hnot in Hr by reflexivity. congruence.
Qed.

Lemma burst_frame_ok j l w p d mime wd ht :
  at_frame src g c f w j ->
  fits_float (Z.of_nat j) ->
  frame_file E src out_dir format g c j = Some (p, d, mime, wd, ht) ->
  fs_write E (f + j) p d = None ->
  exists w' evs,
    burst_frame E t0 period_s out_dir format (Z.of_nat j) l w =
      (Ok (Next {| paths := (paths l ++ [p])%list; mime_last := mime;
                   w_last := wd; h_last := ht |}), w')
    /\ at_frame src g c f w' (S j)
    /\ moved w w' 1 3 1 evs
    /\ writes_of evs = [(p, d)] /\ mkdirs_of evs = [] /\ closes_of evs = [].
Proof.
  intros (Hsrc & Hg & Hc & Hf) [fi Hfi] Hfile Hwrite.
  unfold burst_frame. unfold bind at 1. unfold lift at 1. rewrite Hfi.
  unfold bind at 1. unfold time_perf_counter, bind at 1, next_clock, ret at 1.
  set (target := Py.fadd t0 (Py.fmul fi period_s)).
  set (now := perf_counter E (clock_reads w)).
  set (w1 := tick_clock w).
  assert (Hpace : exists w2 evs0,
             (if Py.flt now target then time_sleep (Py.fsub target now)
              else ret tt) w1 = (Ok tt, w2)
             /\ moved w w2 0 1 0 evs0 /\ writes_of evs0 = []
             /\ mkdirs_of evs0 = [] /\ closes_of evs0 = []).
  { destruct (Py.flt now target).
    - exists (emit (EvSleep (Py.fsub target now)) w1), [EvSleep (Py.fsub target now)].
      repeat split; simpl; lia.
    - exists w1, []. repeat split; simpl; try lia. now rewrite app_nil_r. }
  destruct Hpace as (w2 & evs0 & Hpace & M2 & Hw0 & Hm0 & Hc0).
  unfold bind at 1. rewrite Hpace.
  destruct (grab_run E w2) as (r & evs1 & Hr & Hrun & Hruns & _).
  destruct M2 as [S2 MS2 G2 C2 F2 E2].
  rewrite S2, Hsrc, G2, Hg, Nat.add_0_r in Hr.
  unfold frame_file in Hfile. rewrite Hr in Hfile.
  destruct r as [[ok img] msg].
  destruct ok; [|discriminate]. destruct img as [img|]; [|discriminate].
  pose proof (grab_of_ready _ _ _ Hr) as Hready.
  rewrite S2, Hsrc, Hready in Hrun.
  unfold bind at 1. rewrite Hrun.
  destruct (_encode_image_pil E img format) as [[[[ok2 data] mime'] wd'] ht'].
  destruct ok2; [|discriminate].
  injection Hfile as Hp -> -> -> ->.
  fold (ext_of_mime mime) in *.
  cbn [negb]. cbv beta iota.
  unfold time_strftime, time_ms, write_file, bind, next_clock, ret.
  cbv beta iota.
  set (w3 := tick_clock (tick_clock (advance evs1 1 w2))).
  assert (M3 : moved w w3 1 3 0 (evs0 ++ evs1)).
  { subst w3. split; simpl; try lia; try congruence.
    rewrite E2. now rewrite app_assoc. }
  destruct M3 as [S3 MS3 G3 C3 F3 E3].
  replace (clock_reads (advance evs1 1 w2)) with (c + 3 * j + 1)%nat
    by (simpl; lia).
  replace (clock_reads (tick_clock (advance evs1 1 w2)))
    with (c + 3 * j + 2)%nat by (simpl; lia).
  rewrite Hp. clearbody w3.
  replace (fs_calls w3) with (f + j)%nat by lia.
  unfold fs_write in Hwrite.
  destruct (open_wb E (f + j) p); [discriminate|].
  cbv zeta. rewrite Hwrite.
  destruct (runs_only_silent _ Hruns) as (Hw1 & Hm1 & Hc1).
  exists (emit (EvWrite p d) (emit (EvOpen p) (tick_fs w3))),
    (evs0 ++ evs1 ++ [EvOpen p; EvWrite p d])%list.
  split; [reflexivity|]. split.
  { unfold at_frame. simpl. repeat split; try lia. congruence. }
  split.
  { split; simpl; try lia; try congruence.
    rewrite E3. now rewrite <- !app_assoc. }
  rewrite !writes_of_app, !mkdirs_of_app, !closes_of_app.
  rewrite Hw0, Hw1, Hm0, Hm1, Hc0, Hc1. repeat split.
Qed.

(** A frame whose grab or encoding fails leaves the loop with the paths
    collected so far, and writes nothing. *)
Lemma burst_frame_fail j l w :
  _SRC w = src ->
  fits_float (Z.of_nat j) ->
  ready src = false
  \/ (grab_calls w = (g + j)%nat
      /\ frame_file E src out_dir format g c j = None) ->
  exists err w' evs,
    burst_frame E t0 period_s out_dir format (Z.of_nat j) l w =
      (Ok (Return [("ok", VBool false); ("error", VStr err);
                   ("paths", paths_value (paths l))]), w')
    /\ _SRC w' = src
    /\ effects w' = (effects w ++ evs)%list
    /\ writes_of evs = [] /\ mkdirs_of evs = [] /\ closes_of evs = [].
Proof.
  intros Hsrc [fi Hfi] Hfail.
  unfold burst_frame. unfold bind at 1. unfold lift at 1. rewrite Hfi.
  unfold bind at 1. unfold time_perf_counter, bind at 1, next_clock, ret at 1.
  set (target := Py.fadd t0 (Py.fmul fi period_s)).
  set (now := perf_counter E (clock_reads w)).
  set (w1 := tick_clock w).
  assert (Hpace : exists w2 evs0,
             (if Py.flt now target then time_sleep (Py.fsub target now)
              else ret tt) w1 = (Ok tt, w2)
             /\ moved w w2 0 1 0 evs0 /\ writes_of evs0 = []
             /\ mkdirs_of evs0 = [] /\ closes_of evs0 = []).
  { destruct (Py.flt now target).
    - exists (emit (EvSleep (Py.fsub target now)) w1), [EvSleep (Py.fsub target now)].
      repeat split; simpl; lia.
    - exists w1, []. repeat split; simpl; try lia. now rewrite app_nil_r. }
  destruct Hpace as (w2 & evs0 & Hpace & M2 & Hw0 & Hm0 & Hc0).
  unfold bind at 1. rewrite Hpace.
  destruct (grab_run E w2) as (r & evs1 & Hr & Hrun & Hruns & Hnot).
  destruct M2 as [S2 MS2 G2 C2 F2 E2].
  rewrite S2, Hsrc, G2, Nat.add_0_r in Hr.
  assert (Hfile : match r with
                  | (true, Some img, _) =>
                      match _encode_image_pil E img format with
                      | (true, _, _, _, _) => False
                      | _ => True
                      end
                  | _ => True
                  end).
  { destruct Hfail as [Hunready | [Hg Hfile]].
    - rewrite S2, Hsrc in Hnot. now rewrite (Hnot Hunready).
    - unfold frame_file in Hfile. rewrite <- Hg, Hr in Hfile.
      destruct r as [[[] [img|]] msg]; auto.
      destruct (_encode_image_pil E img format) as [[[[[] ?] ?] ?] ?];
        [discriminate | exact I]. }
  unfold bind at 1. rewrite Hrun.
  destruct (runs_only_silent _ Hruns) as (Hw1 & Hm1 & Hc1).
  assert (Hafter : _SRC (advance evs1 (if ready (_SRC w2) then 1 else 0) w2) = src
                   /\ effects (advance evs1 (if ready (_SRC w2) then 1 else 0) w2)
                      = (effects w ++ evs0 ++ evs1)%list).
  { simpl. split; [congruence|]. rewrite E2. now rewrite app_assoc. }
  destruct Hafter as (Ha1 & Ha2).
  assert (Hsilent : writes_of (evs0 ++ evs1) = [] /\ mkdirs_of (evs0 ++ evs1) = []
                    /\ closes_of (evs0 ++ evs1) = []).
  { rewrite writes_of_app, mkdirs_of_app, closes_of_app.
    rewrite Hw0, Hw1, Hm0, Hm1, Hc0, Hc1. repeat split. }
  destruct r as [[ok img] msg].
  destruct ok; [destruct img as [img|]|].
  - destruct (_encode_image_pil E img format) as [[[[ok2 data] mime'] wd'] ht'].
    destruct ok2; [contradiction|].
    cbn [negb]. cbv beta iota.
    eexists _, _, _. split; [reflexivity|]. split; [exact Ha1|].
    split; [exact Ha2|]. exact Hsilent.
  - eexists _, _, _. split; [reflexivity|]. split; [exact Ha1|].
    split; [exact Ha2|]. exact Hsilent.
  - eexists _, _, _. split; [reflexivity|]. split; [exact Ha1|].
    split; [exact Ha2|]. exact Hsilent.
Qed.

(** The frames from [j] on succeed one after the other. *)
Lemma burst_loop_ok cnt : forall j l w,
  at_frame src g c f w j ->
  (forall i, (j <= i < j + cnt)%nat ->
             fits_float (Z.of_nat i)
             /\ frame_ok E src out_dir format g c f i) ->
  exists l' w' evs,
    for_range (burst_frame E t0 period_s out_dir format)
              (Z.of_nat j) cnt l w = (Ok (Next l'), w')
    /\ paths l' =
         (paths l ++ map (frame_path E src out_dir format g c) (seq j cnt))%list
    /\ at_frame src g c f w' (j + cnt)
    /\ moved w w' cnt (3 * cnt) cnt evs
    /\ writes_of evs =
         map (fun i => (frame_path E src out_dir format g c i,
                        frame_data E src out_dir format g c i)) (seq j cnt)
    /\ mkdirs_of evs = [] /\ closes_of evs = [].
Proof.
  induction cnt as [| cnt IH]; intros j l w Hat Hall.
  - exists l, w, []. cbn [for_range seq map]. rewrite app_nil_r, Nat.add_0_r.
    split; [reflexivity|]. split; [reflexivity|]. split; [exact Hat|].
    split; [apply moved_refl|]. repeat split.
  - destruct (Hall j ltac:(lia)) as (Hfit & p & d & mime & wd & ht & Hfile & Hwrite).
    destruct (burst_frame_ok j l w p d mime wd ht Hat Hfit Hfile Hwrite)
      as (w1 & evs1 & Hrun & Hat1 & M1 & Hw1 & Hm1 & Hc1).
    destruct (IH (S j) {| paths := (paths l ++ [p])%list; mime_last := mime;
                          w_last := wd; h_last := ht |} w1 Hat1)
      as (l' & w' & evs2 & Hrun2 & Hpaths & Hat2 & M2 & Hw2 & Hm2 & Hc2).
    { intros i Hi. apply Hall. lia. }
    exists l', w', (evs1 ++ evs2)%list.
    assert (Hfp : frame_path E src out_dir format g c j = p)
      by (unfold frame_path; now rewrite Hfile).
    assert (Hfd : frame_data E src out_dir format g c j = d)
      by (unfold frame_data; now rewrite Hfile).
    split.
    { cbn [for_range]. unfold bind at 1. rewrite Hrun.
      replace (Z.of_nat j + 1) with (Z.of_nat (S j)) by lia. exact Hrun2. }
    split.
    { rewrite Hpaths. cbn [paths seq map]. rewrite Hfp.
      now rewrite <- app_assoc. }
    split.
    { replace (j + S cnt)%nat with (S j + cnt)%nat by lia. exact Hat2. }
    split.
    { pose proof (moved_trans _ _ _ _ _ _ _ _ _ _ _ M1 M2) as M.
      replace (1 + cnt)%nat with (S cnt) in M by lia.
      replace (3 + 3 * cnt)%nat with (3 * S cnt)%nat in M by lia.
      exact M. }
    rewrite writes_of_app, mkdirs_of_app, closes_of_app.
    rewrite Hw1, Hw2, Hm1, Hm2, Hc1, Hc2. cbn [seq map]. rewrite Hfp, Hfd.
    repeat split.
Qed.

(** The warm-up grabs: results ignored, nothing but grabs performed. *)
Lemma warmup_loop cnt : forall start w,
  _SRC w = src ->
  exists w' evs,
    for_range (R := Dict) (fun _ (u : unit) => bind (_grab E) (fun _ => ret (Next u)))
              start cnt tt w = (Ok (Next tt), w')
    /\ moved w w' (if ready src then cnt else 0) 0 0 evs
    /\ writes_of evs = [] /\ mkdirs_of evs = [] /\ closes_of evs = [].
Proof.
  induction cnt as [| cnt IH]; intros start w Hsrc.
  - exists w, []. cbn [for_range]. split; [reflexivity|].
    split; [destruct (ready src); apply moved_refl|]. repeat split.
  - destruct (grab_run E w) as (r & evs1 & _ & Hrun & Hruns & _).
    destruct (runs_only_silent _ Hruns) as (Hw1 & Hm1 & Hc1).
    rewrite Hsrc in Hrun.
    destruct (IH (start + 1) (advance evs1 (if ready src then 1 else 0) w))
      as (w' & evs2 & Hrun2 & M2 & Hw2 & Hm2 & Hc2); [exact Hsrc|].
    exists w', (evs1 ++ evs2)%list. split.
    { cbn [for_range]. unfold bind at 1. unfold bind at 1. rewrite Hrun.
      unfold ret at 1. exact Hrun2. }
    split.
    { destruct M2 as [S2 MS2 G2 C2 F2 E2]. simpl in *.
      split; simpl; try lia; try congruence.
      - destruct (ready src); lia.
      - rewrite E2. now rewrite app_assoc. }
    rewrite writes_of_app, mkdirs_of_app, closes_of_app.
    rewrite Hw1, Hw2, Hm1, Hm2, Hc1, Hc2. repeat split.
Qed.

End Burst.

(** The world in which the capture loop of [burst_capture] starts: the
    directory made, the clock read once, the warm-up grabs done. *)
Lemma burst_prologue E w n period_ms save_dir format warmup duration_ms :
  fs_mkdir E (fs_calls w) (Path_expanduser E save_dir) = None ->
  fits_float period_ms ->
  exists t0 ps w1 evs,
    burst_capture E n period_ms save_dir format warmup duration_ms w =
      bind (for_range (burst_frame E t0 ps (Path_expanduser E save_dir) format)
                      0 (Z.to_nat (Z.max 1 n))
                      {| paths := [];
                         mime_last :=
                           if String.eqb (Py.lower (Py.str_or format "jpg")) "jpg"
                           then "image/jpeg" else "image/png";
                         w_last := 0; h_last := 0 |})
           (fun r =>
              match r with
              | Return d => ret d
              | Next l =>
                  ret [("ok", VBool true);
                       ("paths", paths_value (paths l));
                       ("mime", VStr (mime_last l));
                       ("width", VInt (w_last l));
                       ("height", VInt (h_last l));
                       ("n", VInt (Z.of_nat (List.length (paths l))));
                       ("period_ms", VInt period_ms);
                       ("duration_ms", VInt duration_ms);
                       ("save_dir", VStr (Path_expanduser E save_dir))]
              end) w1
    /\ moved w w1 (if ready (_SRC w) then Z.to_nat (Z.max 0 warmup) else 0)
             1 1 evs
    /\ writes_of evs = []
    /\ mkdirs_of evs = [Path_expanduser E save_dir]
    /\ closes_of evs = [].
Proof.
  intros mkdir_ok [p Hp].
  unfold burst_capture.
  set (out_dir := Path_expanduser E save_dir) in *.
  unfold bind at 1. unfold mkdir at 1. rewrite mkdir_ok.
  unfold bind at 1. unfold lift at 1. rewrite Hp.
  unfold bind at 1. unfold lift at 1.
  change (Py.fdiv p Py.f1000) with (Ok (SFdiv prec emax p Py.f1000)).
  cbv beta iota.
  unfold bind at 1. unfold time_perf_counter, bind at 1, next_clock, ret at 1.
  set (w0 := tick_clock (emit (EvMkdir out_dir) (tick_fs w))).
  destruct (warmup_loop E (_SRC w) (Z.to_nat (Z.max 0 warmup)) 0 w0 eq_refl)
    as (w1 & evs1 & Hrun & M1 & Hw1 & Hm1 & Hc1).
  unfold bind at 1. rewrite Hrun.
  eexists _, _, w1, ([EvMkdir out_dir] ++ evs1)%list.
  split; [reflexivity|]. split.
  { destruct M1 as [S1 MS1 G1 C1 F1 E1]. subst w0. simpl in *.
    split; simpl; try lia; try congruence.
    rewrite E1. now rewrite <- app_assoc. }
  rewrite writes_of_app, mkdirs_of_app, closes_of_app.
  rewrite Hw1, Hm1, Hc1. repeat split.
Qed.

(** A loop of [a + b] rounds is a loop of [a] rounds followed, unless it
    left, by a loop of [b] rounds. *)
Lemma for_range_app R St (body : Z -> St -> M (Flow R St)) a b :
  forall start s w,
    for_range body start (a + b) s w =
      match for_range body start a s w with
      | (Ok (Next s'), w') => for_range body (start + Z.of_nat a) b s' w'
      | other => other
      end.
Proof.
  induction a as [| a IH]; intros start s w.
  - cbn [for_range Nat.add]. unfold ret. now rewrite Z.add_0_r.
  - replace (S a + b)%nat with (S (a + b)) by lia.
    cbn [for_range]. unfold bind.
    destruct (body start s w) as [[[r | s'] | e] w']; try reflexivity.
    rewrite IH. replace (start + 1 + Z.of_nat a) with (start + Z.of_nat (S a)) by lia.
    reflexivity.
Qed.

(** ** The burst as a whole *)

Section BurstCapture.

Variable E : Env.
Variables (w : World) (n period_ms : Z) (save_dir format : string)
        (warmup duration_ms : Z).

Hypothesis mkdir_ok :
fs_mkdir E (fs_calls w) (Path_expanduser E save_dir) = None.
Hypothesis period_fits : fits_float period_ms.

Lemma burst_capture_all_ok :
(forall i, (i < Z.to_nat (Z.max 1 n))%nat ->
           fits_float (Z.of_nat i)
           /\ frame_ok E (_SRC w) (Path_expanduser E save_dir) format
                       (grab_calls w + Z.to_nat (Z.max 0 warmup))
                       (S (clock_reads w)) (S (fs_calls w)) i) ->
exists l w' evs,
  burst_capture E n period_ms save_dir format warmup duration_ms w =
    (Ok [("ok", VBool true);
         ("paths", paths_value (paths l));
         ("mime", VStr (mime_last l));
         ("width", VInt (w_last l));
         ("height", VInt (h_last l));
         ("n", VInt (Z.of_nat (List.length (paths l))));
         ("period_ms", VInt period_ms);
         ("duration_ms", VInt duration_ms);
         ("save_dir", VStr (Path_expanduser E save_dir))], w')
  /\ paths l =
       map (frame_path E (_SRC w) (Path_expanduser E save_dir) format
                       (grab_calls w + Z.to_nat (Z.max 0 warmup))
                       (S (clock_reads w)))
           (seq 0 (Z.to_nat (Z.max 1 n)))
  /\ _SRC w' = _SRC w
  /\ effects w' = (effects w ++ evs)%list
  /\ writes_of evs =
       map (fun i =>
              (frame_path E (_SRC w) (Path_expanduser E save_dir) format
                          (grab_calls w + Z.to_nat (Z.max 0 warmup))
                          (S (clock_reads w)) i,
               frame_data E (_SRC w) (Path_expanduser E save_dir) format
                          (grab_calls w + Z.to_nat (Z.max 0 warmup))
                          (S (clock_reads w)) i))
           (seq 0 (Z.to_nat (Z.max 1 n)))
  /\ mkdirs_of evs = [Path_expanduser E save_dir]
  /\ closes_of evs = [].
Proof.
intro Hall.
set (out_dir := Path_expanduser E save_dir) in *.
set (g := (grab_calls w + Z.to_nat (Z.max 0 warmup))%nat) in *.
set (N := Z.to_nat (Z.max 1 n)) in *.
destruct (burst_prologue E w n period_ms save_dir format warmup duration_ms
                         mkdir_ok period_fits)
  as (t0 & ps & w1 & evs1 & Hrun & M1 & Hw1 & Hm1 & Hc1).
fold out_dir N in Hrun, Hm1.
assert (Hready : ready (_SRC w) = true).
{ destruct (Hall 0%nat ltac:(lia)) as (_ & p & d & mime & wd & ht & Hfile & _).
  unfold frame_file in Hfile.
  destruct (grab_of E (_SRC w) (g + 0)) as [[[[] [img|]] msg] | e] eqn:Hg;
    try discriminate.
  eapply grab_of_ready; eassumption. }
rewrite Hready in M1. destruct M1 as [S1 MS1 G1 C1 F1 E1].
destruct (burst_loop_ok E (_SRC w) out_dir format t0 ps g (S (clock_reads w))
                        (S (fs_calls w)) N 0
                        {| paths := [];
                           mime_last :=
                             if String.eqb (Py.lower (Py.str_or format "jpg")) "jpg"
                             then "image/jpeg" else "image/png";
                           w_last := 0; h_last := 0 |} w1)
  as (l' & w' & evs2 & Hloop & Hpaths & Hat & M2 & Hw2 & Hm2 & Hc2).
{ unfold at_frame. repeat split; try lia; assumption. }
{ intros i Hi. apply Hall. lia. }
exists l', w', (evs1 ++ evs2)%list. split.
{ rewrite Hrun. unfold bind at 1. change (Z.of_nat 0) with 0 in Hloop.
  rewrite Hloop. reflexivity. }
split; [exact Hpaths|].
destruct M2 as [S2 MS2 G2 C2 F2 E2].
split; [congruence|]. split; [rewrite E2, E1; now rewrite app_assoc|].
rewrite writes_of_app, mkdirs_of_app, closes_of_app.
rewrite Hw1, Hw2, Hm1, Hm2, Hc1, Hc2. repeat split.
Qed.

Lemma burst_capture_fails_at (i : nat) :
(i < Z.to_nat (Z.max 1 n))%nat ->
(forall j, (j <= i)%nat -> fits_float (Z.of_nat j)) ->
(forall j, (j < i)%nat ->
           frame_ok E (_SRC w) (Path_expanduser E save_dir) format
                    (grab_calls w + Z.to_nat (Z.max 0 warmup))
                    (S (clock_reads w)) (S (fs_calls w)) j) ->
frame_file E (_SRC w) (Path_expanduser E save_dir) format
           (grab_calls w + Z.to_nat (Z.max 0 warmup))
           (S (clock_reads w)) i = None ->
exists err w' evs,
  burst_capture E n period_ms save_dir format warmup duration_ms w =
    (Ok [("ok", VBool false); ("error", VStr err);
         ("paths",
          paths_value
            (map (frame_path E (_SRC w) (Path_expanduser E save_dir) format
                             (grab_calls w + Z.to_nat (Z.max 0 warmup))
                             (S (clock_reads w)))
                 (seq 0 i)))], w')
  /\ _SRC w' = _SRC w
  /\ effects w' = (effects w ++ evs)%list
  /\ writes_of evs =
       map (fun j =>
              (frame_path E (_SRC w) (Path_expanduser E save_dir) format
                          (grab_calls w + Z.to_nat (Z.max 0 warmup))
                          (S (clock_reads w)) j,
               frame_data E (_SRC w) (Path_expanduser E save_dir) format
                          (grab_calls w + Z.to_nat (Z.max 0 warmup))
                          (S (clock_reads w)) j))
           (seq 0 i)
  /\ mkdirs_of evs = [Path_expanduser E save_dir]
  /\ closes_of evs = [].
Proof.
intros Hi Hfits Hok Hfail.
set (out_dir := Path_expanduser E save_dir) in *.
set (g := (grab_calls w + Z.to_nat (Z.max 0 warmup))%nat) in *.
set (N := Z.to_nat (Z.max 1 n)) in *.
destruct (burst_prologue E w n period_ms save_dir format warmup duration_ms
                         mkdir_ok period_fits)
  as (t0 & ps & w1 & evs1 & Hrun & M1 & Hw1 & Hm1 & Hc1).
fold out_dir N in Hrun, Hm1.
destruct M1 as [S1 MS1 G1 C1 F1 E1].
set (l0 := {| paths := [];
              mime_last :=
                if String.eqb (Py.lower (Py.str_or format "jpg")) "jpg"
                then "image/jpeg" else "image/png";
              w_last := 0; h_last := 0 |}) in *.
(* the frames before [i], when the source is ready *)
assert (Hbefore : exists l' w2 evs2,
           for_range (burst_frame E t0 ps out_dir format) 0 i l0 w1
             = (Ok (Next l'), w2)
           /\ paths l' = map (frame_path E (_SRC w) out_dir format g
                                        (S (clock_reads w))) (seq 0 i)
           /\ _SRC w2 = _SRC w
           /\ (ready (_SRC w) = false
               \/ grab_calls w2 = (g + i)%nat)
           /\ effects w2 = (effects w1 ++ evs2)%list
           /\ writes_of evs2 =
                map (fun j =>
                       (frame_path E (_SRC w) out_dir format g
                                   (S (clock_reads w)) j,
                        frame_data E (_SRC w) out_dir format g
                                   (S (clock_reads w)) j)) (seq 0 i)
           /\ mkdirs_of evs2 = [] /\ closes_of evs2 = []).
{ destruct (ready (_SRC w)) eqn:Hready.
  - destruct (burst_loop_ok E (_SRC w) out_dir format t0 ps g
                            (S (clock_reads w)) (S (fs_calls w)) i 0 l0 w1)
      as (l' & w2 & evs2 & Hloop & Hpaths & Hat & M2 & Hw2 & Hm2 & Hc2).
    { unfold at_frame. repeat split; try lia; assumption. }
    { intros j Hj. split; [apply Hfits | apply Hok]; lia. }
    destruct M2 as [S2 MS2 G2 C2 F2 E2]. destruct Hat as (_ & Hg2 & _).
    exists l', w2, evs2. change (Z.of_nat 0) with 0 in Hloop.
    repeat split; auto; try congruence.
  - destruct i as [| i'].
    + exists l0, w1, []. cbn [for_range seq map]. rewrite app_nil_r.
      repeat split; auto.
    + exfalso.
      destruct (Hok 0%nat ltac:(lia)) as (p & d & mime & wd & ht & Hfile & _).
      unfold frame_file in Hfile.
      destruct (grab_of E (_SRC w) (g + 0)) as [[[[] [img|]] msg] | e] eqn:Hg;
        try discriminate.
      apply grab_of_ready in Hg. congruence. }
destruct Hbefore as (l' & w2 & evs2 & Hloop & Hpaths & S2 & Hg2 & E2
                     & Hw2 & Hm2 & Hc2).
destruct (burst_frame_fail E (_SRC w) out_dir format t0 ps g
                           (S (clock_reads w)) i l' w2)
  as (err & w3 & evs3 & Hframe & S3 & E3 & Hw3 & Hm3 & Hc3).
{ exact S2. }
{ apply Hfits. lia. }
{ destruct Hg2 as [Hunready | Hg2]; [now left | right; now split]. }
exists err, w3, (evs1 ++ evs2 ++ evs3)%list. split.
{ rewrite Hrun. unfold bind at 1.
  replace N with (i + S (N - S i))%nat by lia.
  rewrite for_range_app, Hloop. cbn [for_range].
  unfold bind at 1. rewrite Z.add_0_l, Hframe. unfold ret.
  rewrite Hpaths. reflexivity. }
split; [exact S3|]. split.
{ rewrite E3, E2, E1. now rewrite <- !app_assoc. }
rewrite !writes_of_app, !mkdirs_of_app, !closes_of_app.
rewrite Hw1, Hw2, Hw3, Hm1, Hm2, Hm3, Hc1, Hc2, Hc3.
rewrite app_nil_r. repeat split.
Qed.

End BurstCapture.

(** With a source open, [screenshare_burst] settles the frame count and
    goes on to capture. *)
Lemma screenshare_burst_open E w h n period_ms save_dir format warmup
      duration_ms :
  src_sct (_SRC w) = Some h ->
  screenshare_burst E n period_ms save_dir format warmup duration_ms w =
    match frames_requested n period_ms duration_ms with
    | Ok n' => burst_capture E n' period_ms save_dir format warmup duration_ms w
    | Raise e => (Raise e, w)
    end.
Proof.
  intro Hopen. unfold screenshare_burst, frames_requested.
  unfold bind at 1. unfold get_world. rewrite Hopen.
  unfold bind at 1.
  destruct (0 <? duration_ms); [|reflexivity].
  unfold lift. now destruct (burst_n_from_duration duration_ms period_ms).
Qed.

Lemma nth_error_map_seq A (f : nat -> A) n i x :
  nth_error (map f (seq 0 n)) i = Some x -> (i < n)%nat /\ x = f i.
Proof.
  intro H.
  assert (Hi : (i < n)%nat).
  { rewrite <- (length_seq n 0), <- (length_map f).
    apply nth_error_Some. congruence. }
  split; [exact Hi|].
  rewrite nth_error_map, nth_error_seq in H.
  apply Nat.ltb_lt in Hi. rewrite Hi in H.
  change (0 + i)%nat with i in H. cbn [option_map] in H. congruence.
Qed.

Lemma frame_ok_index E src out_dir format g c f i :
  frame_ok E src out_dir format g c f i ->
  sequence_index (frame_path E src out_dir format g c i) = Some i.
Proof.
  intros (p & d & mime & wd & ht & Hfile & _).
  unfold frame_path. rewrite Hfile.
  eapply sequence_index_frame; eassumption.
Qed.

(** C8: a burst of [n >= 1] frames with [duration_ms = 0], on an open
    source, in which nothing fails (the directory can be made, the numbers
    convert to floats, every frame is grabbed, encoded and written):
    the answer is [ok: true] with exactly [n] paths and [n: n]; exactly
    those [n] files are written, in the order of the paths; the path at
    position [i] carries the sequence index [i], so that the indices
    increase strictly along the list and the paths are pairwise distinct. *)
Theorem burst_writes_every_frame
        (E : Env) (w : World) (h : Sct) (n period_ms : Z)
        (save_dir format : string) (warmup : Z) :
  src_sct (_SRC w) = Some h ->
  1 <= n ->
  fs_mkdir E (fs_calls w) (Path_expanduser E save_dir) = None ->
  fits_float period_ms ->
  (forall i, (i < Z.to_nat n)%nat -> fits_float (Z.of_nat i)) ->
  (forall i, (i < Z.to_nat n)%nat ->
             frame_ok E (_SRC w) (Path_expanduser E save_dir) format
                      (grab_calls w + Z.to_nat (Z.max 0 warmup))
                      (S (clock_reads w)) (S (fs_calls w)) i) ->
  exists resp w' ps evs,
    screenshare_burst E n period_ms save_dir format warmup 0 w = (Ok resp, w')
    /\ dict_get "ok" resp = Some (VBool true)
    /\ dict_get "paths" resp = Some (paths_value ps)
    /\ dict_get "n" resp = Some (VInt n)
    /\ Z.of_nat (List.length ps) = n
    /\ effects w' = (effects w ++ evs)%list
    /\ map fst (writes_of evs) = ps
    /\ (forall i p, nth_error ps i = Some p -> sequence_index p = Some i)
    /\ NoDup ps.
Proof.
  intros Hopen Hn Hmk Hper Hfits Hframes.
  assert (HN : Z.to_nat (Z.max 1 n) = Z.to_nat n) by (f_equal; lia).
  destruct (burst_capture_all_ok E w n period_ms save_dir format warmup 0
                                 Hmk Hper)
    as (l & w' & evs & Hrun & Hpaths & _ & Heff & Hwrites & _ & _).
  { rewrite HN. intros i Hi. split; [apply Hfits | apply Hframes]; exact Hi. }
  rewrite HN in Hpaths, Hwrites.
  eexists _, w', (paths l), evs. split.
  { rewrite (screenshare_burst_open E w h) by exact Hopen. exact Hrun. }
  split; [reflexivity|]. split; [reflexivity|]. split.
  { cbn. rewrite Hpaths, length_map, length_seq. do 2 f_equal. lia. }
  split; [rewrite Hpaths, length_map, length_seq; lia|].
  split; [exact Heff|]. split.
  { rewrite Hwrites, Hpaths, map_map. reflexivity. }
  split.
  - intros i p Hnth. rewrite Hpaths in Hnth.
    apply nth_error_map_seq in Hnth as [Hi ->].
    apply (frame_ok_index E _ _ _ _ _ (S (fs_calls w))). now apply Hframes.
  - rewrite Hpaths. apply NoDup_by_index; [|apply seq_NoDup].
    intros i Hi. apply in_seq in Hi.
    apply (frame_ok_index E _ _ _ _ _ (S (fs_calls w))). apply Hframes. lia.
Qed.

Lemma burst_writes_every_frame_witness :
  exists resp w' ps evs,
    screenshare_burst demo_env 5 100 "." "jpg" 0 0 demo_world = (Ok resp, w')
    /\ dict_get "ok" resp = Some (VBool true)
    /\ dict_get "paths" resp = Some (paths_value ps)
    /\ dict_get "n" resp = Some (VInt 5)
    /\ Z.of_nat (List.length ps) = 5
    /\ effects w' = (effects demo_world ++ evs)%list
    /\ map fst (writes_of evs) = ps
    /\ (forall i p, nth_error ps i = Some p -> sequence_index p = Some i)
    /\ NoDup ps.
Proof.
  apply (burst_writes_every_frame
           demo_env demo_world (mkSct 0 demo_monitors) 5 100 "." "jpg" 0).
  - reflexivity.
  - lia.
  - reflexivity.
  - eexists; reflexivity.
  - intros i Hi.
    do 5 (destruct i as [| i]; [eexists; reflexivity|]).
    exfalso. simpl in Hi. lia.
  - intros i Hi.
    do 5 (destruct i as [| i];
          [eexists _, _, _, _, _; split; [vm_compute; reflexivity | reflexivity]|]).
    exfalso. simpl in Hi. lia.
Defined.

(** C6: on an open source, when frame [i] (counted from 0) is the first
    whose grab or encoding fails, the burst stops there and answers
    [ok: false] with an error and the list of exactly the [i] paths
    written before, in order (the path at position [j] carries index [j]);
    those [i] files are the files the call wrote, and nothing removes
    them. *)
Theorem burst_failure_returns_partial_paths
        (E : Env) (w : World) (h : Sct) (n period_ms : Z)
        (save_dir format : string) (warmup duration_ms n' : Z) (i : nat) :
  src_sct (_SRC w) = Some h ->
  frames_requested n period_ms duration_ms = Ok n' ->
  (i < Z.to_nat (Z.max 1 n'))%nat ->
  fs_mkdir E (fs_calls w) (Path_expanduser E save_dir) = None ->
  fits_float period_ms ->
  (forall j, (j <= i)%nat -> fits_float (Z.of_nat j)) ->
  (forall j, (j < i)%nat ->
             frame_ok E (_SRC w) (Path_expanduser E save_dir) format
                      (grab_calls w + Z.to_nat (Z.max 0 warmup))
                      (S (clock_reads w)) (S (fs_calls w)) j) ->
  frame_file E (_SRC w) (Path_expanduser E save_dir) format
             (grab_calls w + Z.to_nat (Z.max 0 warmup))
             (S (clock_reads w)) i = None ->
  exists err w' ps evs,
    screenshare_burst E n period_ms save_dir format warmup duration_ms w =
      (Ok [("ok", VBool false); ("error", VStr err);
           ("paths", paths_value ps)], w')
    /\ List.length ps = i
    /\ effects w' = (effects w ++ evs)%list
    /\ map fst (writes_of evs) = ps
    /\ (forall j p, nth_error ps j = Some p -> sequence_index p = Some j).
Proof.
  intros Hopen Hcount Hi Hmk Hper Hfits Hframes Hfail.
  destruct (burst_capture_fails_at E w n' period_ms save_dir format warmup
                                   duration_ms Hmk Hper i Hi Hfits Hframes Hfail)
    as (err & w' & evs & Hrun & _ & Heff & Hwrites & _ & _).
  eexists err, w', _, evs. split.
  { rewrite (screenshare_burst_open E w h) by exact Hopen.
    rewrite Hcount. exact Hrun. }
  split; [now rewrite length_map, length_seq|].
  split; [exact Heff|]. split.
  { rewrite Hwrites, map_map. reflexivity. }
  intros j p Hnth. apply nth_error_map_seq in Hnth as [Hj ->].
  apply (frame_ok_index E _ _ _ _ _ (S (fs_calls w))). now apply Hframes.
Qed.

Lemma burst_failure_returns_partial_paths_witness :
  exists err w' ps evs,
    screenshare_burst flaky_env 5 100 "." "jpg" 0 0 demo_world =
      (Ok [("ok", VBool false); ("error", VStr err);
           ("paths", paths_value ps)], w')
    /\ List.length ps = 2%nat
    /\ effects w' = (effects demo_world ++ evs)%list
    /\ map fst (writes_of evs) = ps
    /\ (forall j p, nth_error ps j = Some p -> sequence_index p = Some j).
Proof.
  apply (burst_failure_returns_partial_paths
           flaky_env demo_world (mkSct 0 demo_monitors) 5 100 "." "jpg" 0 0 5 2).
  - reflexivity.
  - reflexivity.
  - simpl. lia.
  - reflexivity.
  - eexists; reflexivity.
  - intros j Hj.
    do 3 (destruct j as [| j]; [eexists; reflexivity|]).
    exfalso. lia.
  - intros j Hj.
    do 2 (destruct j as [| j];
          [eexists _, _, _, _, _; split; [vm_compute; reflexivity | reflexivity]|]).
    exfalso. lia.
  - vm_compute. reflexivity.
Defined.

Lemma fits_float_0 : fits_float 0.
Proof. eexists; reflexivity. Qed.

(** A burst of one frame. *)
Lemma burst_writes_one E w h period_ms save_dir format warmup :
  src_sct (_SRC w) = Some h ->
  fs_mkdir E (fs_calls w) (Path_expanduser E save_dir) = None ->
  fits_float period_ms ->
  frame_ok E (_SRC w) (Path_expanduser E save_dir) format
           (grab_calls w + Z.to_nat (Z.max 0 warmup))
           (S (clock_reads w)) (S (fs_calls w)) 0 ->
  exists resp w' p evs,
    screenshare_burst E 1 period_ms save_dir format warmup 0 w = (Ok resp, w')
    /\ dict_get "ok" resp = Some (VBool true)
    /\ dict_get "paths" resp = Some (paths_value [p])
    /\ dict_get "n" resp = Some (VInt 1)
    /\ effects w' = (effects w ++ evs)%list
    /\ map fst (writes_of evs) = [p].
Proof.
  intros Hopen Hmk Hper Hframe.
  destruct (burst_capture_all_ok E w 1 period_ms save_dir format warmup 0
                                 Hmk Hper)
    as (l & w' & evs & Hrun & Hpaths & _ & Heff & Hwrites & _ & _).
  { intros i Hi. change (Z.to_nat (Z.max 1 1)) with 1%nat in Hi.
    assert (i = 0)%nat as -> by lia. split; [exact fits_float_0 | exact Hframe]. }
  change (Z.to_nat (Z.max 1 1)) with 1%nat in Hpaths, Hwrites.
  cbn [seq map] in Hpaths, Hwrites.
  eexists _, w', _, evs. split.
  { rewrite (screenshare_burst_open E w h) by exact Hopen. exact Hrun. }
  split; [reflexivity|]. split; [cbn; rewrite Hpaths; reflexivity|].
  split; [cbn; rewrite Hpaths; reflexivity|].
  split; [exact Heff|]. rewrite Hwrites. reflexivity.
Qed.

(** C10: with [duration_ms = 0] and an open source, a count [n <= 0] is
    raised to 1: the call behaves exactly as the call with [n = 1], and
    when its one frame succeeds it answers [ok: true] with exactly one
    path, not an empty list and not an error. *)
Theorem burst_nonpositive_count_runs_once
        (E : Env) (w : World) (h : Sct) (n period_ms : Z)
        (save_dir format : string) (warmup : Z) :
  src_sct (_SRC w) = Some h ->
  n <= 0 ->
  screenshare_burst E n period_ms save_dir format warmup 0 w =
    screenshare_burst E 1 period_ms save_dir format warmup 0 w
  /\ (fs_mkdir E (fs_calls w) (Path_expanduser E save_dir) = None ->
      fits_float period_ms ->
      frame_ok E (_SRC w) (Path_expanduser E save_dir) format
               (grab_calls w + Z.to_nat (Z.max 0 warmup))
               (S (clock_reads w)) (S (fs_calls w)) 0 ->
      exists resp w' p evs,
        screenshare_burst E n period_ms save_dir format warmup 0 w
          = (Ok resp, w')
        /\ dict_get "ok" resp = Some (VBool true)
        /\ dict_get "paths" resp = Some (paths_value [p])
        /\ dict_get "n" resp = Some (VInt 1)
        /\ effects w' = (effects w ++ evs)%list
        /\ map fst (writes_of evs) = [p]).
Proof.
  intros Hopen Hn.
  assert (Hsame : screenshare_burst E n period_ms save_dir format warmup 0 w =
                  screenshare_burst E 1 period_ms save_dir format warmup 0 w).
  { rewrite !(screenshare_burst_open E w h) by exact Hopen.
    unfold frames_requested. cbn [Z.ltb Z.compare].
    unfold burst_capture. now replace (Z.max 1 n) with (Z.max 1 1) by lia. }
  split; [exact Hsame|].
  intros Hmk Hper Hframe.
  destruct (burst_writes_one E w h period_ms save_dir format warmup
                             Hopen Hmk Hper Hframe)
    as (resp & w' & p & evs & Hrun & H).
  exists resp, w', p, evs. split; [rewrite Hsame; exact Hrun | exact H].
Qed.

Lemma burst_nonpositive_count_runs_once_witness :
  screenshare_burst demo_env (-3) 150 "." "png" 0 0 demo_world =
    screenshare_burst demo_env 1 150 "." "png" 0 0 demo_world
  /\ exists resp w' p evs,
       screenshare_burst demo_env (-3) 150 "." "png" 0 0 demo_world
         = (Ok resp, w')
       /\ dict_get "ok" resp = Some (VBool true)
       /\ dict_get "paths" resp = Some (paths_value [p])
       /\ dict_get "n" resp = Some (VInt 1)
       /\ effects w' = (effects demo_world ++ evs)%list
       /\ map fst (writes_of evs) = [p].
Proof.
  destruct (burst_nonpositive_count_runs_once
              demo_env demo_world (mkSct 0 demo_monitors) (-3) 150 "." "png" 0)
    as [Hsame Hone].
  - reflexivity.
  - lia.
  - split; [exact Hsame|]. apply Hone.
    + reflexivity.
    + eexists; reflexivity.
    + eexists _, _, _, _, _; split; [vm_compute; reflexivity | reflexivity].
Defined.

(** C5, as amended: on an open source, for [duration_ms > 0] and
    [period_ms <> 0], both below [2^1023] in magnitude (so that they
    convert to floats), the requested [n] is replaced by [max(1, r)]
    where [r] is what Python's [round] (ties to even) gives for
    [float(duration_ms) / float(period_ms)]: the conversions, the division
    and the rounding all succeed, the count is at least 1 and does not
    depend on the [n] passed, and the call goes on as a burst of that many
    frames. *)
Theorem burst_count_from_duration
        (E : Env) (w : World) (h : Sct) (n period_ms : Z)
        (save_dir format : string) (warmup duration_ms : Z) :
  src_sct (_SRC w) = Some h ->
  0 < duration_ms < 2 ^ 1023 ->
  period_ms <> 0 ->
  Z.abs period_ms < 2 ^ 1023 ->
  exists fd fp r,
    Py.float_of_int duration_ms = Ok fd
    /\ Py.float_of_int period_ms = Ok fp
    /\ Py.round (SFdiv prec emax fd fp) = Ok r
    /\ frames_requested n period_ms duration_ms = Ok (Z.max 1 r)
    /\ 1 <= Z.max 1 r
    /\ screenshare_burst E n period_ms save_dir format warmup duration_ms w =
         burst_capture E (Z.max 1 r) period_ms save_dir format warmup
                       duration_ms w.
Proof.
  intros Hopen Hd Hp Hpa.
  destruct (burst_n_from_duration_total duration_ms period_ms Hd Hp Hpa)
    as (fd & fp & r & Hfd & Hfp & Hr & Hn).
  assert (Hcount : frames_requested n period_ms duration_ms = Ok (Z.max 1 r)).
  { unfold frames_requested.
    replace (0 <? duration_ms) with true by (symmetry; apply Z.ltb_lt; lia).
    exact Hn. }
  exists fd, fp, r. repeat split; try assumption; try lia.
  rewrite (screenshare_burst_open E w h) by exact Hopen. now rewrite Hcount.
Qed.

Lemma burst_count_from_duration_witness :
  (exists fd fp r,
      Py.float_of_int 1000 = Ok fd
      /\ Py.float_of_int 200 = Ok fp
      /\ Py.round (SFdiv prec emax fd fp) = Ok r
      /\ frames_requested 8 200 1000 = Ok (Z.max 1 r)
      /\ 1 <= Z.max 1 r
      /\ screenshare_burst demo_env 8 200 "." "jpg" 0 1000 demo_world =
           burst_capture demo_env (Z.max 1 r) 200 "." "jpg" 0 1000 demo_world)
  /\ frames_requested 8 200 1000 = Ok 5.
Proof.
  split; [|reflexivity].
  apply (burst_count_from_duration
           demo_env demo_world (mkSct 0 demo_monitors) 8 200 "." "jpg" 0 1000).
  - reflexivity.
  - split; [lia | reflexivity].
  - discriminate.
  - reflexivity.
Defined.

(** With [period_ms = 0] and a positive duration no frame count comes out:
    the division raises, and the exception leaves [screenshare_burst];
    so does the [OverflowError] of a duration beyond the float range. *)
Lemma burst_count_zero_period_raises :
  frames_requested 8 0 1000 = Raise ZeroDivisionError
  /\ screenshare_burst demo_env 8 0 "." "jpg" 0 1000 demo_world =
       (Raise ZeroDivisionError, demo_world)
  /\ frames_requested 8 200 (2 ^ 1024) = Raise OverflowError_int.
Proof. repeat split; vm_compute; reflexivity. Qed.

(** C1 at its failing inputs: [screenshare_burst] on an open source lets
    the [ZeroDivisionError] of [period_ms = 0] escape, and lets the
    exception of a failed file write escape, where [screenshare_capture]
    turns the same write failure into an [ok: false] answer. *)
Theorem burst_lets_exceptions_escape :
  screenshare_burst demo_env 8 0 "." "jpg" 0 1000 demo_world =
    (Raise ZeroDivisionError, demo_world)
  /\ fst (screenshare_burst full_disk_env 8 150 "." "jpg" 0 0 demo_world) =
       Raise (mkExn "OSError" "[Errno 28] No space left on device")
  /\ fst (screenshare_capture full_disk_env "." "jpg" demo_world) =
       Ok [("ok", VBool false);
           ("error",
            VStr "Failed to write file: [Errno 28] No space left on device")].
Proof. repeat split; vm_compute; reflexivity. Qed.

(** * Further properties of the tools *)

(** ** The scale of a new source *)

Lemma SFcompare_Eq_finite_r x s m e :
  SFcompare x (S754_finite s m e) = Some Eq -> x = S754_finite s m e.
Proof.
  destruct x as [s0 | s0 | | s0 m0 e0]; cbn;
    try discriminate; try (destruct s0; discriminate);
    try (destruct s; discriminate).
  destruct s0, s; try discriminate;
    destruct (Z.compare_spec e0 e) as [-> | _ | _]; try discriminate;
    change (Pos.compare_cont Eq m0 m) with (Pos.compare m0 m);
    destruct (Pos.compare_spec m0 m) as [-> | _ | _]; cbn; try discriminate;
    reflexivity.
Qed.

Lemma SFcompare_Eq_finite_l x s m e :
  SFcompare (S754_finite s m e) x = Some Eq -> x = S754_finite s m e.
Proof.
  destruct x as [s0 | s0 | | s0 m0 e0]; cbn;
    try discriminate; try (destruct s; discriminate);
    try (destruct s0; discriminate).
  destruct s, s0; try discriminate;
    destruct (Z.compare_spec e e0) as [-> | _ | _]; try discriminate;
    change (Pos.compare_cont Eq m m0) with (Pos.compare m m0);
    destruct (Pos.compare_spec m m0) as [-> | _ | _]; cbn; try discriminate;
    reflexivity.
Qed.

(** [a < b] excludes [b < a], on any two floats. *)
Lemma SFltb_asym x y : SFltb x y = true -> SFltb y x = false.
Proof.
  unfold SFltb.
  destruct x as [s1 | s1 | | s1 m1 e1], y as [s2 | s2 | | s2 m2 e2]; cbn;
    try discriminate; try reflexivity;
    try (destruct s1; try discriminate; reflexivity);
    try (destruct s2; try discriminate; reflexivity);
    try (destruct s1, s2; try discriminate; reflexivity).
  change (Pos.compare_cont Eq m1 m2) with (Pos.compare m1 m2).
  change (Pos.compare_cont Eq m2 m1) with (Pos.compare m2 m1).
  rewrite (Z.compare_antisym e1 e2), (Pos.compare_antisym m1 m2).
  destruct s1, s2; try discriminate; try reflexivity;
    destruct (e1 ?= e2); cbn; try discriminate; try reflexivity;
    destruct (m1 ?= m2)%positive; cbn; try discriminate; reflexivity.
Qed.

(** Below 0.1 is below 1.0. *)
Lemma below_tenth_below_one x :
  Py.flt x Py.f0_1 = true -> Py.flt x Py.f1 = true.
Proof.
  unfold Py.flt, SFltb, Py.f0_1, Py.f1.
  destruct x as [s | s | | s m e]; cbv beta iota delta [SFcompare];
    try discriminate; try (destruct s; try discriminate; reflexivity).
  destruct s; [reflexivity|].
  destruct (Z.compare_spec e (-56)) as [-> | He | He]; try discriminate.
  - intros _. reflexivity.
  - intros _. destruct (Z.compare_spec e (-52)); try lia; reflexivity.
Qed.

Lemma clamp_scale_in_bounds sc :
  scale_in_bounds (Py.fmax Py.f0_1 (Py.fmin Py.f1 (Py.or_one sc))) = true.
Proof.
  unfold scale_in_bounds, Py.fmax, Py.fmin, Py.flt, SFltb, SFleb.
  set (z := Py.or_one sc).
  destruct (SFcompare z Py.f1) as [[]|] eqn:H1; try reflexivity.
  destruct (SFcompare Py.f0_1 z) as [[]|] eqn:H2; try reflexivity.
  now rewrite H1, H2.
Qed.

Lemma clamp_scale_keeps sc :
  scale_in_bounds sc = true ->
  Py.fmax Py.f0_1 (Py.fmin Py.f1 (Py.or_one sc)) = sc.
Proof.
  unfold scale_in_bounds. intro H. apply andb_true_iff in H as [Hlo Hhi].
  assert (Hnz : Py.or_one sc = sc).
  { unfold Py.or_one, Py.feq, SFeqb, Py.f0.
    destruct sc as [s | s | | s m e];
      cbv beta iota delta [SFleb SFcompare Py.f0_1] in Hlo;
      cbv beta iota delta [SFcompare];
      try discriminate Hlo; try reflexivity; now destruct s. }
  rewrite Hnz. unfold Py.fmax, Py.fmin, Py.flt, SFltb.
  unfold SFleb in Hlo, Hhi.
  destruct (SFcompare sc Py.f1) as [[]|] eqn:H1; try discriminate.
  - apply SFcompare_Eq_finite_r in H1. subst sc. reflexivity.
  - destruct (SFcompare Py.f0_1 sc) as [[]|] eqn:H2; try discriminate.
    + apply SFcompare_Eq_finite_l in H2. now subst sc.
    + reflexivity.
Qed.

Lemma clamp_scale_above sc :
  Py.flt Py.f1 sc = true ->
  Py.fmax Py.f0_1 (Py.fmin Py.f1 (Py.or_one sc)) = Py.f1.
Proof.
  intro H.
  assert (Hnz : Py.or_one sc = sc).
  { unfold Py.or_one, Py.feq, SFeqb, Py.f0.
    destruct sc as [s | s | | s m e];
      cbv beta iota delta [Py.flt SFltb SFcompare Py.f1] in H;
      cbv beta iota delta [SFcompare];
      try discriminate H; try reflexivity; now destruct s. }
  rewrite Hnz. unfold Py.fmin.
  unfold Py.flt in *. now rewrite (SFltb_asym _ _ H).
Qed.

Lemma clamp_scale_below sc :
  Py.flt sc Py.f0_1 = true -> Py.feq sc Py.f0 = false ->
  Py.fmax Py.f0_1 (Py.fmin Py.f1 (Py.or_one sc)) = Py.f0_1.
Proof.
  intros H Hnz. unfold Py.or_one. rewrite Hnz.
  unfold Py.fmin. rewrite (below_tenth_below_one _ H).
  unfold Py.fmax. unfold Py.flt in *. now rewrite (SFltb_asym _ _ H).
Qed.

Lemma clamp_scale_falsy sc :
  Py.feq sc Py.f0 = true \/ sc = S754_nan ->
  Py.fmax Py.f0_1 (Py.fmin Py.f1 (Py.or_one sc)) = Py.f1.
Proof.
  intros [H | ->]; [|reflexivity].
  unfold Py.or_one. now rewrite H.
Qed.

(** X1: the scale a new source stores is the requested one brought into
    [0.1 .. 1.0], for every float: a scale within the bounds is kept, one
    above 1.0 becomes 1.0, one below 0.1 that is not zero becomes 0.1, and
    zero or NaN become 1.0.  The props report the stored scale. *)
Theorem start_brings_scale_within_bounds
        (E : Env) (w : World) (h : Sct) (mon : Monitor)
        (mi l t wd ht : Z) (sc : Py.float) :
  src_sct (_SRC w) = None ->
  mss_mss E (mss_calls w) = Ok h ->
  0 <= mi ->
  nth_error (monitors h) (Z.to_nat mi) = Some mon ->
  exists s resp w',
    screenshare_start E mi l t wd ht sc w = (Ok resp, w')
    /\ src_scale (_SRC w') = s
    /\ dict_get "scale" (src_props (_SRC w')) = Some (VFloat s)
    /\ dict_get "props" resp = Some (VDict (src_props (_SRC w')))
    /\ scale_in_bounds s = true
    /\ (scale_in_bounds sc = true -> s = sc)
    /\ (Py.flt Py.f1 sc = true -> s = Py.f1)
    /\ (Py.flt sc Py.f0_1 = true -> Py.feq sc Py.f0 = false -> s = Py.f0_1)
    /\ (Py.feq sc Py.f0 = true \/ sc = S754_nan -> s = Py.f1).
Proof.
  intros Hs Hm Hmi Hnth.
  pose proof (open_source_new E w h mi l t wd ht sc mon Hs Hm Hmi Hnth) as Hrun.
  cbv zeta in Hrun.
  eexists _, _, _. split.
  { unfold screenshare_start, bind at 1. rewrite Hrun. reflexivity. }
  split; [reflexivity|]. split; [reflexivity|]. split; [reflexivity|].
  split; [apply clamp_scale_in_bounds|].
  split; [apply clamp_scale_keeps|].
  split; [apply clamp_scale_above|].
  split; [apply clamp_scale_below | apply clamp_scale_falsy].
Qed.

Lemma start_brings_scale_within_bounds_witness :
  exists s resp w',
    screenshare_start demo_env 1 0 0 0 0
      (S754_finite false 5629499534213120 (-50)) initial_world = (Ok resp, w')
    /\ src_scale (_SRC w') = s
    /\ scale_in_bounds s = true
    /\ s = Py.f1.
Proof.
  destruct (start_brings_scale_within_bounds
              demo_env initial_world (mkSct 0 demo_monitors)
              (mkMonitor 0 0 1920 1080) 1 0 0 0 0
              (S754_finite false 5629499534213120 (-50)))
    as (s & resp & w' & Hrun & Hsc & _ & _ & Hin & _ & Habove & _).
  - reflexivity.
  - reflexivity.
  - lia.
  - reflexivity.
  - exists s, resp, w'. split; [exact Hrun|]. split; [exact Hsc|].
    split; [exact Hin|]. apply Habove. reflexivity.
Defined.

(** ** Starting and stopping *)

(** X2: when the capture library cannot be initialized, with no source
    open, [screenshare_start] answers [ok: false] with the library's error
    in the message, stores nothing, acquires nothing, and a later start
    asks the library again. *)
Theorem start_reports_library_failure
        (E : Env) (w : World) (e : Exn) (mi l t wd ht : Z) (sc : Py.float) :
  src_sct (_SRC w) = None ->
  mss_mss E (mss_calls w) = Raise e ->
  exists w',
    screenshare_start E mi l t wd ht sc w =
      (Ok [("ok", VBool false);
           ("message", VStr ("Failed to initialize mss: " ++ exn_str e));
           ("props", VDict (src_props (_SRC w)));
           ("monitor_index", VInt (src_monitor_index (_SRC w)))], w')
    /\ _SRC w' = _SRC w
    /\ effects w' = effects w
    /\ mss_calls w' = S (mss_calls w)
    /\ is_open w' = false.
Proof.
  intros Hs Hm. eexists. split.
  { unfold screenshare_start, _open_source, bind, get_world, attempt, mss_new.
    rewrite Hs, Hm. reflexivity. }
  split; [reflexivity|]. split; [reflexivity|]. split; [reflexivity|].
  unfold is_open. simpl. now rewrite Hs.
Qed.

Lemma start_reports_library_failure_witness :
  exists w',
    screenshare_start headless_env 1 0 0 0 0 Py.f1 initial_world =
      (Ok [("ok", VBool false);
           ("message", VStr "Failed to initialize mss: $DISPLAY not set.");
           ("props", VDict []);
           ("monitor_index", VInt 1)], w')
    /\ _SRC w' = SRC_default
    /\ effects w' = [].
Proof.
  destruct (start_reports_library_failure
              headless_env initial_world
              (mkExn "ScreenShotError" "$DISPLAY not set.") 1 0 0 0 0 Py.f1)
    as (w' & Hrun & Hsrc & Heff & _).
  - reflexivity.
  - reflexivity.
  - exists w'. split; [exact Hrun|]. split; [exact Hsrc | exact Heff].
Defined.

(** What [screenshare_start] does, case by case. *)
Lemma start_cases (E : Env) (w : World) (mi l t wd ht : Z) (sc : Py.float) :
  let r := screenshare_start E mi l t wd ht sc w in
  (* a source is open already *)
  (is_open w = true /\ snd r = w
   /\ exists resp, fst r = Ok resp /\ dict_get "ok" resp = Some (VBool true))
  (* the library gives no handle *)
  \/ (is_open w = false /\ _SRC (snd r) = _SRC w /\ effects (snd r) = effects w
      /\ exists resp, fst r = Ok resp /\ dict_get "ok" resp = Some (VBool false))
  (* the index is invalid: the handle is released *)
  \/ (is_open w = false /\ _SRC (snd r) = _SRC w
      /\ (exists h, effects (snd r) = (effects w ++ [EvAcquire h; EvClose h])%list)
      /\ ((exists resp, fst r = Ok resp
                        /\ dict_get "ok" resp = Some (VBool false))
          \/ exists e, fst r = Raise e))
  (* the source is opened *)
  \/ (is_open w = false
      /\ (exists h, src_sct (_SRC (snd r)) = Some h
                    /\ effects (snd r) = (effects w ++ [EvAcquire h])%list)
      /\ exists resp, fst r = Ok resp /\ dict_get "ok" resp = Some (VBool true)).
Proof.
  cbv zeta.
  unfold screenshare_start, _open_source, bind, get_world, attempt, mss_new,
    close_handle, is_open.
  destruct (src_sct (_SRC w)) as [h0|] eqn:Hs.
  { left. simpl. split; [reflexivity|]. split; [reflexivity|].
    eexists. split; reflexivity. }
  right.
  destruct (mss_mss E (mss_calls w)) as [h | e] eqn:Hm.
  2:{ left. simpl. split; [reflexivity|]. split; [reflexivity|].
      split; [reflexivity|]. eexists. split; reflexivity. }
  right. cbv beta iota.
  destruct ((mi <? 0) || (mi >=? Z.of_nat (length (monitors h)))) eqn:Hguard.
  { left. split; [reflexivity|].
    destruct (sct_close E h); simpl.
    - split; [reflexivity|]. split.
      + exists h. now rewrite <- app_assoc.
      + right. eexists. reflexivity.
    - split; [reflexivity|]. split.
      + exists h. now rewrite <- app_assoc.
      + left. eexists. split; reflexivity. }
  right.
  apply orb_false_iff in Hguard as [Hlo Hhi].
  apply Z.ltb_ge in Hlo. rewrite Z.geb_leb in Hhi. apply Z.leb_gt in Hhi.
  destruct (nth_error (monitors h) (Z.to_nat mi)) as [mon|] eqn:Hnth.
  2:{ apply nth_error_None in Hnth. lia. }
  simpl. split; [reflexivity|]. split.
  - exists h. split; reflexivity.
  - eexists. split; reflexivity.
Qed.

(** X3: whenever [screenshare_start] answers, its [ok] says whether a
    source is open afterwards, its [props] and [monitor_index] are the
    stored ones, and [screenshare_status] then reports the same; an answer
    [ok: false] means [_SRC] is as it was before the call. *)
Theorem start_answer_matches_state
        (E : Env) (w w' : World) (resp : Dict)
        (mi l t wd ht : Z) (sc : Py.float) :
  screenshare_start E mi l t wd ht sc w = (Ok resp, w') ->
  dict_get "ok" resp = Some (VBool (is_open w'))
  /\ dict_get "props" resp = Some (VDict (src_props (_SRC w')))
  /\ dict_get "monitor_index" resp
     = Some (VInt (src_monitor_index (_SRC w')))
  /\ (exists st, screenshare_status w' = (Ok st, w')
                 /\ dict_get "open" st = dict_get "ok" resp
                 /\ dict_get "props" st = dict_get "props" resp
                 /\ dict_get "monitor_index" st = dict_get "monitor_index" resp)
  /\ (is_open w' = false -> _SRC w' = _SRC w).
Proof.
  intro Hrun.
  assert (Hshape : exists ok msg,
             resp = [("ok", VBool ok); ("message", VStr msg);
                     ("props", VDict (src_props (_SRC w')));
                     ("monitor_index", VInt (src_monitor_index (_SRC w')))]).
  { revert Hrun. unfold screenshare_start. unfold bind at 1.
    destruct (_open_source E mi l t wd ht sc w) as [[[ok msg] | e] w1];
      [|discriminate].
    unfold bind, get_world, ret. intros [= <- <-]. now exists ok, msg. }
  destruct Hshape as (ok & msg & ->).
  pose proof (start_cases E w mi l t wd ht sc) as Hcases. cbv zeta in Hcases.
  rewrite Hrun in Hcases. cbn [fst snd] in Hcases.
  assert (Hok : ok = is_open w' /\ (is_open w' = false -> _SRC w' = _SRC w)).
  { destruct Hcases
      as [(Ho & -> & r & [= <-] & [= Hr])
         | [(Ho & Hsrc & _ & r & [= <-] & [= Hr])
           | [(Ho & Hsrc & _ & [(r & [= <-] & [= Hr]) | (e & He)])
             | (Ho & (h & Hh & _) & r & [= <-] & [= Hr])]]].
    - split; [congruence|]. reflexivity.
    - unfold is_open in *. rewrite Hsrc. split; [congruence|]. reflexivity.
    - unfold is_open in *. rewrite Hsrc. split; [congruence|]. reflexivity.
    - discriminate He.
    - unfold is_open. rewrite Hh. split; [congruence|]. discriminate. }
  destruct Hok as [-> Hsame].
  split; [reflexivity|]. split; [reflexivity|]. split; [reflexivity|].
  split; [|exact Hsame].
  eexists. split; [apply status_run|]. repeat split.
Qed.

Lemma start_answer_matches_state_witness :
  dict_get "ok"
    [("ok", VBool false);
     ("message", VStr "Invalid monitor_index 7; available 0..2");
     ("props", VDict []); ("monitor_index", VInt 1)]
  = Some (VBool (is_open
                   (snd (screenshare_start demo_env 7 0 0 0 0 Py.f1
                           initial_world)))).
Proof.
  apply (start_answer_matches_state
           demo_env initial_world
           (snd (screenshare_start demo_env 7 0 0 0 0 Py.f1 initial_world))
           _ 7 0 0 0 0 Py.f1).
  reflexivity.
Defined.

(** X4: [screenshare_start] never leaks a handle: whatever the library and
    the arguments, every handle it acquires is either the one [_SRC] holds
    afterwards or was released before the call ended, and it writes no
    file and creates no directory. *)
Theorem start_never_leaks_a_handle
        (E : Env) (w : World) (mi l t wd ht : Z) (sc : Py.float) :
  exists evs,
    effects (snd (screenshare_start E mi l t wd ht sc w))
    = (effects w ++ evs)%list
    /\ acquires_of evs
       = (closes_of evs
          ++ match src_sct (_SRC w),
                   src_sct (_SRC (snd (screenshare_start E mi l t wd ht sc w)))
             with
             | None, Some h => [h]
             | _, _ => []
             end)%list
    /\ writes_of evs = [] /\ mkdirs_of evs = [].
Proof.
  pose proof (start_cases E w mi l t wd ht sc) as Hcases. cbv zeta in Hcases.
  unfold is_open in Hcases.
  destruct Hcases
    as [(Ho & Hw & _)
       | [(Ho & Hsrc & Heff & _)
         | [(Ho & Hsrc & (h & Heff) & _)
           | (Ho & (h & Hh & Heff) & _)]]].
  - exists []. rewrite Hw, app_nil_r.
    destruct (src_sct (_SRC w)); [|discriminate]. repeat split.
  - exists []. rewrite Heff, Hsrc, app_nil_r.
    destruct (src_sct (_SRC w)); [discriminate|]. repeat split.
  - exists [EvAcquire h; EvClose h]. rewrite Heff, Hsrc.
    destruct (src_sct (_SRC w)); [discriminate|]. repeat split.
  - exists [EvAcquire h]. rewrite Heff, Hh.
    destruct (src_sct (_SRC w)); [discriminate|]. repeat split.
Qed.

(** X5: stopping and then starting reconfigures the source: whatever was
    open is released, and the new start, given a handle and a valid index,
    stores the new monitor index and acquires the new handle (whereas a
    start on an open source changes nothing). *)
Theorem stop_then_start_reconfigures
        (E : Env) (w : World) (h : Sct) (mon : Monitor)
        (mi l t wd ht : Z) (sc : Py.float) :
  mss_mss E (mss_calls w) = Ok h ->
  0 <= mi ->
  nth_error (monitors h) (Z.to_nat mi) = Some mon ->
  exists w1 resp w2,
    screenshare_stop E w = (Ok [("ok", VBool true)], w1)
    /\ screenshare_start E mi l t wd ht sc w1 = (Ok resp, w2)
    /\ dict_get "ok" resp = Some (VBool true)
    /\ dict_get "message" resp = Some (VStr "Screen source initialized")
    /\ dict_get "monitor_index" resp = Some (VInt mi)
    /\ src_sct (_SRC w2) = Some h
    /\ src_monitor_index (_SRC w2) = mi
    /\ effects w2 =
         (effects w ++ match src_sct (_SRC w) with
                       | Some h0 => [EvClose h0]
                       | None => []
                       end ++ [EvAcquire h])%list.
Proof.
  intros Hm Hmi Hnth.
  assert (Hstop : exists w1,
             screenshare_stop E w = (Ok [("ok", VBool true)], w1)
             /\ src_sct (_SRC w1) = None
             /\ mss_calls w1 = mss_calls w
             /\ effects w1 = (effects w ++ match src_sct (_SRC w) with
                                           | Some h0 => [EvClose h0]
                                           | None => []
                                           end)%list).
  { unfold screenshare_stop, _close_source, bind, get_world, try_except,
      close_handle, modify, ret.
    destruct (src_sct (_SRC w)) as [h0|]; [destruct (sct_close E h0)|];
      eexists; (split; [reflexivity|]); simpl; repeat split;
      now rewrite app_nil_r. }
  destruct Hstop as (w1 & Hstop & Hs1 & Hm1 & He1).
  rewrite <- Hm1 in Hm.
  pose proof (open_source_new E w1 h mi l t wd ht sc mon Hs1 Hm Hmi Hnth)
    as Hrun.
  cbv zeta in Hrun.
  exists w1. eexists _, _. split; [exact Hstop|]. split.
  { unfold screenshare_start, bind at 1. rewrite Hrun. reflexivity. }
  split; [reflexivity|]. split; [reflexivity|]. split; [reflexivity|].
  split; [reflexivity|]. split; [reflexivity|].
  simpl. rewrite He1. now rewrite <- app_assoc.
Qed.

Lemma stop_then_start_reconfigures_witness :
  exists w1 resp w2,
    screenshare_stop demo_env demo_world = (Ok [("ok", VBool true)], w1)
    /\ screenshare_start demo_env 2 0 0 0 0 Py.f1 w1 = (Ok resp, w2)
    /\ dict_get "monitor_index" resp = Some (VInt 2)
    /\ effects w2 = [EvAcquire (mkSct 0 demo_monitors);
                     EvClose (mkSct 0 demo_monitors);
                     EvAcquire (mkSct 1 demo_monitors)].
Proof.
  destruct (stop_then_start_reconfigures
              demo_env demo_world (mkSct 1 demo_monitors)
              (mkMonitor 1920 0 1920 1080) 2 0 0 0 0 Py.f1)
    as (w1 & resp & w2 & Hstop & Hstart & _ & _ & Hmi & _ & _ & Heff).
  - reflexivity.
  - lia.
  - reflexivity.
  - exists w1, resp, w2. split; [exact Hstop|]. split; [exact Hstart|].
    split; [exact Hmi | exact Heff].
Defined.

(** ** Listing the displays *)

Lemma enumerate_displays_length mons : forall i max_index,
  List.length (enumerate_displays i mons max_index)
  = Nat.min (List.length mons) (Z.to_nat (max_index + 1 - i)).
Proof.
  induction mons as [| mon rest IH]; intros i max_index;
    cbn [enumerate_displays List.length]; [reflexivity|].
  destruct (i >? max_index) eqn:Hi.
  - apply Z.gtb_lt in Hi. cbn [List.length]. lia.
  - assert (i <= max_index) by (rewrite Z.gtb_ltb in Hi; now apply Z.ltb_ge).
    cbn [List.length]. rewrite IH. lia.
Qed.

Lemma enumerate_displays_nth mons : forall i max_index k mon,
  nth_error mons k = Some mon ->
  i + Z.of_nat k <= max_index ->
  nth_error (enumerate_displays i mons max_index) k
  = Some (display_dict (i + Z.of_nat k) mon).
Proof.
  induction mons as [| m rest IH]; intros i max_index k mon Hk Hle.
  - destruct k; discriminate Hk.
  - cbn [enumerate_displays].
    replace (i >? max_index) with false
      by (symmetry; rewrite Z.gtb_ltb; apply Z.ltb_ge; lia).
    destruct k as [| k]; cbn [nth_error] in *.
    + injection Hk as ->. now rewrite Z.add_0_r.
    + rewrite (IH (i + 1) max_index k mon Hk) by lia.
      do 2 f_equal. lia.
Qed.

(** X6: with a capture library that gives a handle and releases it,
    [list_displays] lists the displays in the library's order from index 0
    up to [max_index] and no further: [min(len(monitors), max_index + 1)]
    entries (none for a negative [max_index]), entry [k] carrying index
    [k], the geometry of monitor [k] and [virtual] exactly for index 0.
    The handle it opened is released, and [_SRC] is not touched. *)
Theorem list_displays_enumerates_in_order
        (E : Env) (w : World) (h : Sct) (max_index : Z) :
  mss_mss E (mss_calls w) = Ok h ->
  sct_close E h = None ->
  exists ds w',
    list_displays E max_index w = (Ok [("displays", VList ds)], w')
    /\ List.length ds
       = Nat.min (List.length (monitors h)) (Z.to_nat (max_index + 1))
    /\ (forall k mon,
           nth_error (monitors h) k = Some mon ->
           Z.of_nat k <= max_index ->
           nth_error ds k =
             Some (VDict [("index", VInt (Z.of_nat k));
                          ("left", VInt (mon_left mon));
                          ("top", VInt (mon_top mon));
                          ("width", VInt (mon_width mon));
                          ("height", VInt (mon_height mon));
                          ("virtual", VBool (Nat.eqb k 0))]))
    /\ _SRC w' = _SRC w
    /\ effects w' = (effects w ++ [EvAcquire h; EvClose h])%list.
Proof.
  intros Hm Hc.
  exists (enumerate_displays 0 (monitors h) max_index).
  eexists. split.
  { unfold list_displays, try_except, bind, mss_new, close_handle.
    rewrite Hm. cbv beta iota. rewrite Hc. reflexivity. }
  split.
  { rewrite enumerate_displays_length. now rewrite Z.sub_0_r. }
  split.
  { intros k mon Hk Hle.
    rewrite (enumerate_displays_nth _ 0 max_index k mon Hk) by lia.
    unfold display_dict. rewrite Z.add_0_l.
    now destruct k. }
  split; [reflexivity|].
  simpl. now rewrite <- app_assoc.
Qed.

Lemma list_displays_enumerates_in_order_witness :
  exists ds w',
    list_displays demo_env 1 initial_world = (Ok [("displays", VList ds)], w')
    /\ List.length ds = 2%nat
    /\ nth_error ds 1 =
         Some (VDict [("index", VInt 1); ("left", VInt 0); ("top", VInt 0);
                      ("width", VInt 1920); ("height", VInt 1080);
                      ("virtual", VBool false)])
    /\ _SRC w' = SRC_default.
Proof.
  destruct (list_displays_enumerates_in_order
              demo_env initial_world (mkSct 0 demo_monitors) 1)
    as (ds & w' & Hrun & Hlen & Hnth & Hsrc & _).
  - reflexivity.
  - reflexivity.
  - exists ds, w'. split; [exact Hrun|]. split; [exact Hlen|].
    split; [|exact Hsrc].
    apply (Hnth 1%nat (mkMonitor 0 0 1920 1080)); [reflexivity | simpl; lia].
Defined.

(** X7: [list_displays] never raises, whatever the capture library does:
    it always answers with a [displays] list, which is empty whenever the
    answer carries an [error]; every handle it acquires it releases; it
    writes nothing and leaves [_SRC] alone, open source or not. *)
Theorem list_displays_never_raises (E : Env) (w : World) (max_index : Z) :
  exists resp w' evs ds,
    list_displays E max_index w = (Ok resp, w')
    /\ dict_get "displays" resp = Some (VList ds)
    /\ (dict_get "error" resp <> None -> ds = [])
    /\ _SRC w' = _SRC w
    /\ effects w' = (effects w ++ evs)%list
    /\ acquires_of evs = closes_of evs
    /\ writes_of evs = [] /\ mkdirs_of evs = [].
Proof.
  unfold list_displays, try_except, bind, mss_new, close_handle.
  destruct (mss_mss E (mss_calls w)) as [h | e].
  - cbv beta iota. destruct (sct_close E h) as [e |].
    + eexists _, _, [EvAcquire h; EvClose h], _.
      split; [reflexivity|]. split; [reflexivity|]. split; [reflexivity|].
      split; [reflexivity|]. split; [simpl; now rewrite <- app_assoc|].
      repeat split.
    + eexists _, _, [EvAcquire h; EvClose h], _.
      split; [reflexivity|]. split; [reflexivity|].
      split; [intro H; now contradiction H|].
      split; [reflexivity|]. split; [simpl; now rewrite <- app_assoc|].
      repeat split.
  - eexists _, _, [], _.
    split; [reflexivity|]. split; [reflexivity|]. split; [reflexivity|].
    split; [reflexivity|]. split; [simpl; now rewrite app_nil_r|].
    repeat split.
Qed.

(** X8: when the capture library gives no handle, or fails to release the
    one it gave, [list_displays] answers with an empty list and the text of
    the exception: displays already enumerated are dropped. *)
Theorem list_displays_reports_failure
        (E : Env) (w : World) (e : Exn) (max_index : Z) :
  mss_mss E (mss_calls w) = Raise e
  \/ (exists h, mss_mss E (mss_calls w) = Ok h /\ sct_close E h = Some e) ->
  fst (list_displays E max_index w) =
    Ok [("displays", VList []); ("error", VStr (exn_str e))].
Proof.
  unfold list_displays, try_except, bind, mss_new, close_handle.
  intros [Hm | (h & Hm & Hc)]; rewrite Hm; cbv beta iota.
  - reflexivity.
  - rewrite Hc. reflexivity.
Qed.

Lemma list_displays_reports_failure_witness :
  fst (list_displays headless_env 10 initial_world) =
    Ok [("displays", VList []); ("error", VStr "$DISPLAY not set.")].
Proof.
  apply (list_displays_reports_failure
           headless_env initial_world
           (mkExn "ScreenShotError" "$DISPLAY not set.") 10).
  left. reflexivity.
Defined.

(** ** Detecting WSL *)

Lemma lower_app a b : Py.lower (a ++ b) = (Py.lower a ++ Py.lower b)%string.
Proof.
  induction a as [| c a IH]; cbn [Py.lower String.append];
    [reflexivity | now rewrite IH].
Qed.

Lemma prefix_app s t : String.prefix s (s ++ t) = true.
Proof.
  induction s as [| c s IH]; cbn [String.append].
  - now destruct t.
  - cbn [String.prefix].
    destruct (ascii_dec c c) as [_ | Hne]; [exact IH | now contradiction Hne].
Qed.

Lemma contains_app sub a b : Py.contains sub (a ++ sub ++ b) = true.
Proof.
  induction a as [| c a IH].
  - cbn [String.append]. destruct (sub ++ b)%string eqn:Hs;
      cbn [Py.contains]; rewrite <- Hs, prefix_app; reflexivity.
  - cbn [String.append Py.contains]. rewrite IH.
    now destruct (String.prefix sub (String c (a ++ sub ++ b))).
Qed.

(** X9: [_is_wsl] recognizes the word "microsoft" in any letter case and at
    any place of the kernel release, or else of the kernel version, whatever
    the rest of the environment. *)
Theorem is_wsl_recognizes_microsoft_kernel (E : Env) (a s b : string) :
  Py.lower s = "microsoft" ->
  platform_release E = Ok (a ++ s ++ b)
  \/ (exists r, platform_release E = Ok r
                /\ platform_version E = Ok (a ++ s ++ b)) ->
  _is_wsl E = true.
Proof.
  intros Hs H.
  assert (Hin : Py.contains "microsoft" (Py.lower (a ++ s ++ b)) = true)
    by (rewrite !lower_app, Hs; apply contains_app).
  unfold _is_wsl. destruct H as [-> | (r & -> & ->)].
  - now rewrite Hin.
  - rewrite Hin. now destruct (Py.contains "microsoft" (Py.lower r)).
Qed.

Lemma is_wsl_recognizes_microsoft_kernel_witness : _is_wsl wsl_env = true.
Proof.
  apply (is_wsl_recognizes_microsoft_kernel
           wsl_env "5.15.90.1-" "Microsoft" "-standard-WSL2").
  - reflexivity.
  - left. reflexivity.
Defined.

(** ** Encoding *)

Lemma encode_format_test fmt :
  String.eqb (Py.lower (Py.str_or fmt "jpg")) "jpg"
  = String.eqb (Py.lower fmt) "jpg" || String.eqb fmt "".
Proof.
  destruct fmt as [| c fmt]; [reflexivity|].
  unfold Py.str_or. cbn [String.eqb]. now rewrite orb_false_r.
Qed.

(** X10: [_encode_image_pil] looks at the format only to tell "jpg" from
    the rest: the format is read without regard to letter case, the empty
    format means "jpg", and every other format, known or not, is encoded
    as PNG. *)
Theorem encode_format_is_jpg_or_png (E : Env) (img : Image) (fmt : string) :
  _encode_image_pil E img fmt =
    _encode_image_pil E img
      (if String.eqb (Py.lower fmt) "jpg" || String.eqb fmt ""
       then "jpg" else "png").
Proof.
  unfold _encode_image_pil. cbv zeta.
  rewrite (encode_format_test fmt).
  destruct (String.eqb (Py.lower fmt) "jpg" || String.eqb fmt "");
    reflexivity.
Qed.

(** X11: [_encode_image_pil] never raises and always reports the size of
    the image it was given; on success the MIME type is [image/jpeg] for
    the "jpg" format and [image/png] otherwise; on failure the data are
    empty and the third component is the text "encode failed: ..." of the
    exception. *)
Theorem encode_reports_size_and_kind (E : Env) (img : Image) (fmt : string) :
  exists ok data third,
    _encode_image_pil E img fmt
    = (ok, data, third, img_width img, img_height img)
    /\ (ok = true ->
        third = if String.eqb (Py.lower (Py.str_or fmt "jpg")) "jpg"
                then "image/jpeg" else "image/png")
    /\ (ok = false ->
        data = [] /\ exists e, third = ("encode failed: " ++ exn_str e)%string).
Proof.
  unfold _encode_image_pil. cbv zeta.
  destruct (String.eqb (Py.lower (Py.str_or fmt "jpg")) "jpg").
  - destruct (negb (String.eqb (img_mode img) "RGB")).
    + destruct (pil_convert E img "RGB") as [px | e].
      * destruct (pil_save E _ "JPEG") as [data | e];
          eexists _, _, _; (split; [reflexivity|]); split;
          try discriminate; try reflexivity.
        intros _. split; [reflexivity | now exists e].
      * eexists _, _, _. split; [reflexivity|]. split; [discriminate|].
        intros _. split; [reflexivity | now exists e].
    + destruct (pil_save E img "JPEG") as [data | e];
        eexists _, _, _; (split; [reflexivity|]); split;
        try discriminate; try reflexivity.
      intros _. split; [reflexivity | now exists e].
  - destruct (pil_save E img "PNG") as [data | e];
      eexists _, _, _; (split; [reflexivity|]); split;
      try discriminate; try reflexivity.
    intros _. split; [reflexivity | now exists e].
Qed.

(** X12: a JPEG is always encoded from an RGB image of the same size: the
    image itself when its mode is RGB, and otherwise its conversion to
    RGB. *)
Theorem encode_jpeg_from_rgb
        (E : Env) (img : Image) (fmt : string) (data : bytes) (wd ht : Z) :
  _encode_image_pil E img fmt = (true, data, "image/jpeg", wd, ht) ->
  exists img',
    pil_save E img' "JPEG" = Ok data
    /\ img_mode img' = "RGB"
    /\ img_width img' = img_width img /\ img_height img' = img_height img
    /\ (img_mode img = "RGB" -> img' = img)
    /\ (img_mode img <> "RGB" ->
        pil_convert E img "RGB" = Ok (img_pixels img')).
Proof.
  unfold _encode_image_pil. cbv zeta.
  destruct (String.eqb (Py.lower (Py.str_or fmt "jpg")) "jpg").
  - destruct (String.eqb (img_mode img) "RGB") eqn:Hmode; cbn [negb].
    + apply String.eqb_eq in Hmode.
      destruct (pil_save E img "JPEG") as [d | e] eqn:Hsave;
        [|discriminate].
      intros [= <- _ _]. exists img. split; [exact Hsave|].
      split; [exact Hmode|]. split; [reflexivity|]. split; [reflexivity|].
      split; [reflexivity|]. intro Hne. now contradiction Hne.
    + apply String.eqb_neq in Hmode.
      destruct (pil_convert E img "RGB") as [px | e] eqn:Hconv;
        [|discriminate].
      destruct (pil_save E _ "JPEG") as [d | e] eqn:Hsave; [|discriminate].
      intros [= <- _ _]. eexists. split; [exact Hsave|].
      split; [reflexivity|]. split; [reflexivity|]. split; [reflexivity|].
      split; [intro Heq; now contradiction Hmode | reflexivity].
  - destruct (pil_save E img "PNG"); discriminate.
Qed.

Lemma encode_jpeg_from_rgb_witness :
  exists img',
    pil_save wayland_env img' "JPEG" = Ok []
    /\ img_mode img' = "RGB"
    /\ img_width img' = 1920 /\ img_height img' = 1080.
Proof.
  destruct (encode_jpeg_from_rgb
              wayland_env (mkImage 1920 1080 "RGBA" []) "JPG" [] 1920 1080)
    as (img' & Hsave & Hmode & Hw & Hh & _).
  - reflexivity.
  - exists img'. split; [exact Hsave|]. split; [exact Hmode|].
    split; [exact Hw | exact Hh].
Defined.

(** ** The capture mechanisms *)

Section GrabDetail.

Variable E : Env.

(** The resize step reads and changes nothing of the world; it keeps the
    image when the scale is not strictly between 0 and 1, and otherwise
    gives an image of at least one pixel each way. *)
Lemma rescale_run img sc :
  exists r,
    (forall w, rescale E img sc w = (r, w))
    /\ (downscales sc = false -> r = Ok img)
    /\ (forall img', r = Ok img' -> downscales sc = true ->
                     1 <= img_width img' /\ 1 <= img_height img').
Proof.
  unfold rescale, downscales.
  destruct (Py.flt Py.f0 sc && Py.flt sc Py.f1).
  2:{ exists (Ok img). split; [reflexivity|]. split; [reflexivity|].
      discriminate. }
  unfold bind, lift, ret.
  destruct (Py.float_of_int (img_width img)) as [fw | e];
    [|exists (Raise e); repeat split; discriminate].
  destruct (Py.int_of_float (Py.fmul fw sc)) as [iw | e];
    [|exists (Raise e); repeat split; discriminate].
  destruct (Py.float_of_int (img_height img)) as [fh | e];
    [|exists (Raise e); repeat split; discriminate].
  destruct (Py.int_of_float (Py.fmul fh sc)) as [ih | e];
    [|exists (Raise e); repeat split; discriminate].
  eexists. split; [reflexivity|]. split; [discriminate|].
  intros img' [= <-] _. cbn [resize img_width img_height]. lia.
Qed.

(** The fast path with a scale that does not downscale hands over what
    the library gave. *)
Lemma primary_grab_unscaled h rg sc k raw :
  sct_grab E k h rg = Ok raw -> downscales sc = false ->
  primary_grab E h rg sc k = Ok raw.
Proof.
  intros Hraw Hds. unfold primary_grab. rewrite Hraw.
  destruct (rescale_run raw sc) as (r & Hr & Hk & _).
  rewrite Hr. exact (Hk Hds).
Qed.

(** The chain of mechanisms, case by case. *)
Lemma mechanisms_cases h rg sc k w :
  exists ok img msg evs w',
    grab_mechanisms E h rg sc k w = (Ok (ok, img, msg), w')
    /\ effects w' = (effects w ++ evs)%list
    /\ runs_only evs
    /\ (_SRC w' = _SRC w /\ mss_calls w' = mss_calls w
        /\ grab_calls w' = grab_calls w
        /\ clock_reads w' = clock_reads w /\ fs_calls w' = fs_calls w)
    /\ mechanisms_outcome E h rg sc k ok img msg evs.
Proof.
  unfold mechanisms_outcome, primary_grab, powershell_capture, tool_files.
  unfold grab_mechanisms, try_except, bind, lift, run_process, run_saving,
    bind, modify, ret, raise.
  repeat match goal with
         | |- context [rescale E ?i ?s ?w0] =>
             let r := fresh "r" in
             let Hr := fresh "Hr" in
             let Hk := fresh "Hk" in
             let Hd := fresh "Hd" in
             destruct (rescale_run i s) as (r & Hr & Hk & Hd);
             rewrite !Hr; clear Hr Hk;
             destruct r; [|clear Hd]
         | |- context [match sct_grab E ?a ?b ?c with _ => _ end] =>
             destruct (sct_grab E a b c) eqn:?
         | |- context [if _is_wsl E then _ else _] =>
             destruct (_is_wsl E) eqn:?
         | |- context [match float_of_str E ?a with _ => _ end] =>
             destruct (float_of_str E a) eqn:?
         | |- context [match powershell_exe E ?a ?b with _ => _ end] =>
             destruct (powershell_exe E a b) eqn:?
         | |- context [match wslpath E ?a ?b with _ => _ end] =>
             destruct (wslpath E a b) eqn:?
         | |- context [match Image_open E ?a ?b with _ => _ end] =>
             destruct (Image_open E a b) eqn:?
         | |- context [match gettempdir E with _ => _ end] =>
             destruct (gettempdir E) eqn:?
         | |- context [if which E ?t then _ else _] =>
             destruct (which E t) eqn:?
         | |- context [match run_tool E ?a ?b ?c with _ => _ end] =>
             destruct (run_tool E a b c) eqn:?
         end.
  all: cbn [fst].
  all: eexists _, _, _, _, _.
  all: split; [reflexivity|].
  all: split;
    [first [symmetry; apply app_nil_r
           | cbn [effects emit]; rewrite <- ?app_assoc; reflexivity]|].
  all: split;
    [repeat first [apply Forall_nil
                  | apply Forall_cons;
                    [first [left; eexists; reflexivity
                           | right; eexists; reflexivity]|]]|].
  all: split; [repeat split|].
  all: split;
    [first
       [ left; split; [reflexivity|]; split; [reflexivity|];
         eexists; split; [reflexivity|];
         match goal with
         | H : forall img', Ok ?i = Ok img' -> _ |- _ =>
             intro Hds; exact (H i eq_refl Hds)
         end
       | right; split; [reflexivity|]; split; [reflexivity|];
         eexists _, _, _; split; [reflexivity|];
         split; [intros; congruence|];
         split; [intros; first [reflexivity | congruence]|];
         split; [intros; first [reflexivity | congruence]|];
         intros ? ? [? ?]; first [reflexivity | congruence] ]|].
  all: cbn [app runs_of temps_of].
  all: split;
    [(exists [], []
      + exists [], ["gnome-screenshot"]
      + exists [], ["grim"]
      + exists ["powershell.exe"], []
      + exists ["powershell.exe"], ["gnome-screenshot"]
      + exists ["powershell.exe"], ["grim"]
      + exists ["powershell.exe"; "wslpath"], []
      + exists ["powershell.exe"; "wslpath"], ["gnome-screenshot"]
      + exists ["powershell.exe"; "wslpath"], ["grim"]);
     split; [reflexivity|];
     split; [auto|]; split; [auto|];
     split; [intros; first [congruence | reflexivity]|];
     split; [intros; first [congruence | discriminate]|];
     intros; first [split; congruence | discriminate]|].
  all: split;
    [intros f Hf; cbn [In] in Hf |- *; intuition|].
  all: intros; first [discriminate | repeat split; congruence].
Qed.

Lemma grab_cases w :
  exists ok img msg evs w',
    _grab E w = (Ok (ok, img, msg), w')
    /\ effects w' = (effects w ++ evs)%list
    /\ runs_only evs
    /\ (_SRC w' = _SRC w /\ mss_calls w' = mss_calls w
        /\ grab_calls w'
           = (if ready (_SRC w) then S (grab_calls w) else grab_calls w)
        /\ clock_reads w' = clock_reads w /\ fs_calls w' = fs_calls w)
    /\ (ready (_SRC w) = false ->
        evs = [] /\ ok = false /\ img = None
        /\ msg = "Screen source not initialized")
    /\ (forall h rg,
           src_sct (_SRC w) = Some h -> src_region (_SRC w) = Some rg ->
           mechanisms_outcome E h rg (grab_scale w) (grab_calls w)
                              ok img msg evs).
Proof.
  unfold _grab, bind, get_world, next_grab, ready, grab_scale.
  destruct (src_sct (_SRC w)) as [h|];
    [destruct (src_region (_SRC w)) as [rg|] |].
  - destruct (mechanisms_cases h rg (Py.or_one (src_scale (_SRC w)))
                               (grab_calls w) (tick_grab w))
      as (ok & img & msg & evs & w' & Hrun & Heff & Hevs & Hst & Hout).
    exists ok, img, msg, evs, w'. rewrite Hrun.
    split; [reflexivity|]. split; [exact Heff|]. split; [exact Hevs|].
    split; [exact Hst|]. split; [discriminate|].
    intros hh rr [= <-] [= <-]. exact Hout.
  - exists false, None, "Screen source not initialized", [], w.
    split; [reflexivity|]. split; [now rewrite app_nil_r|].
    split; [constructor|]. split; [repeat split|].
    split; [intros _; repeat split|]. intros hh rr _ [=].
  - exists false, None, "Screen source not initialized", [], w.
    split; [reflexivity|]. split; [now rewrite app_nil_r|].
    split; [constructor|]. split; [repeat split|].
    split; [intros _; repeat split|]. intros hh rr [=].
Qed.

(** The files the programs of a grab are told to save are those of its
    mechanisms. *)
Lemma grab_temps w ok img msg evs :
  (ready (_SRC w) = false ->
   evs = [] /\ ok = false /\ img = None
   /\ msg = "Screen source not initialized") ->
  (forall h rg,
      src_sct (_SRC w) = Some h -> src_region (_SRC w) = Some rg ->
      mechanisms_outcome E h rg (grab_scale w) (grab_calls w)
                         ok img msg evs) ->
  incl (temps_of evs) (tool_files E (grab_calls w)).
Proof.
  unfold ready. intros Hnot Hout.
  destruct (src_sct (_SRC w)) as [h|];
    [destruct (src_region (_SRC w)) as [rg|] |].
  - now destruct (Hout h rg eq_refl eq_refl) as (_ & _ & Htemps & _).
  - destruct (Hnot eq_refl) as (-> & _). intros f [].
  - destruct (Hnot eq_refl) as (-> & _). intros f [].
Qed.

(** Starting programs writes, opens, creates, releases and acquires
    nothing. *)
Lemma programs_silent evs :
  runs_only evs ->
  writes_of evs = [] /\ mkdirs_of evs = [] /\ closes_of evs = []
  /\ acquires_of evs = [] /\ opens_of evs = [].
Proof.
  induction 1 as [| ev evs [[cmd ->] | [f ->]] _ IH]; cbn; auto.
Qed.

End GrabDetail.

Lemma temps_of_In f evs : In (EvTemp f) evs -> In f (temps_of evs).
Proof.
  induction evs as [| ev evs IH]; [intros []|].
  intros [-> | Hin]; [now left|].
  destruct ev; cbn [temps_of]; auto. right. auto.
Qed.

(** X13: [_grab] never raises, in any environment and any state: it
    answers either [(True, img, "ok")] with an image or [(False, None, msg)].
    All it does on the outside is to start external programs, each told
    where to save its screenshot: in the file of the PowerShell script, or
    in [screenshare_fallback.png] of the temp directory.  Itself it makes
    no directory, opens no file for writing and writes none: what reaches
    the file system are these temp files.  It leaves [_SRC], the capture
    library's handle count and the clock alone. *)
Theorem grab_never_raises (E : Env) (w : World) :
  exists ok img msg evs w',
    _grab E w = (Ok (ok, img, msg), w')
    /\ ((ok = true /\ msg = "ok" /\ exists i, img = Some i)
        \/ (ok = false /\ img = None))
    /\ effects w' = (effects w ++ evs)%list
    /\ (forall ev, In ev evs ->
                   (exists cmd, ev = EvRun cmd)
                   \/ (exists f, ev = EvTemp f
                                 /\ In f (tool_files E (grab_calls w))))
    /\ writes_of evs = [] /\ opens_of evs = [] /\ mkdirs_of evs = []
    /\ closes_of evs = [] /\ acquires_of evs = []
    /\ _SRC w' = _SRC w /\ mss_calls w' = mss_calls w
    /\ clock_reads w' = clock_reads w.
Proof.
  destruct (grab_cases E w)
    as (ok & img & msg & evs & w' & Hrun & Heff & Hevs
        & (Hsrc & Hmss & _ & Hclock & _) & Hnot & Hout).
  exists ok, img, msg, evs, w'. split; [exact Hrun|].
  destruct (programs_silent evs Hevs) as (Hw & Hm & Hc & Ha & Ho).
  unfold ready in Hnot.
  destruct (src_sct (_SRC w)) as [h|];
    [destruct (src_region (_SRC w)) as [rg|] |].
  - destruct (Hout h rg eq_refl eq_refl) as (Hshape & _ & Htemps & _).
    split.
    { destruct Hshape as [(Hok & Hmsg & i & Hi & _) | (Hok & Himg & _)].
      + left. split; [exact Hok|]. split; [exact Hmsg|]. now exists i.
      + right. now split. }
    split; [exact Heff|]. split.
    { intros ev Hin. unfold runs_only in Hevs.
      rewrite Forall_forall in Hevs.
      destruct (Hevs ev Hin) as [Hcmd | [f ->]]; [now left|].
      right. exists f. split; [reflexivity|].
      apply Htemps. now apply temps_of_In. }
    split; [exact Hw|]. split; [exact Ho|]. split; [exact Hm|].
    split; [exact Hc|]. split; [exact Ha|]. split; [exact Hsrc|].
    split; [exact Hmss | exact Hclock].
  - destruct (Hnot eq_refl) as (-> & Hok & Himg & _).
    split; [right; now split|]. split; [exact Heff|].
    split; [intros ev []|].
    split; [exact Hw|]. split; [exact Ho|]. split; [exact Hm|].
    split; [exact Hc|]. split; [exact Ha|]. split; [exact Hsrc|].
    split; [exact Hmss | exact Hclock].
  - destruct (Hnot eq_refl) as (-> & Hok & Himg & _).
    split; [right; now split|]. split; [exact Heff|].
    split; [intros ev []|].
    split; [exact Hw|]. split; [exact Ho|]. split; [exact Hm|].
    split; [exact Hc|]. split; [exact Ha|]. split; [exact Hsrc|].
    split; [exact Hmss | exact Hclock].
Qed.

(** X14: [_grab] starts external programs only as fallbacks and in a fixed
    order.  It starts none unless the fast path raised, in [sct.grab] or in
    the resize of its image; so a grab that succeeds and is not to be
    scaled is returned as the library gave it.  Then come [powershell.exe],
    followed or not by [wslpath], only under WSL, and after them one
    compositor tool at most: [gnome-screenshot] when it is installed,
    [grim] only when it is not.  That makes three programs at most. *)
Theorem grab_starts_programs_only_as_fallbacks (E : Env) (w : World) :
  exists ok img msg evs w',
    _grab E w = (Ok (ok, img, msg), w')
    /\ effects w' = (effects w ++ evs)%list
    /\ (exists ps fb,
           runs_of evs = (ps ++ fb)%list
           /\ (ps = [] \/ ps = ["powershell.exe"]
               \/ ps = ["powershell.exe"; "wslpath"])
           /\ (fb = [] \/ fb = ["gnome-screenshot"] \/ fb = ["grim"])
           /\ (ps <> [] -> _is_wsl E = true)
           /\ (fb = ["gnome-screenshot"] ->
               which E "gnome-screenshot" = true)
           /\ (fb = ["grim"] ->
               which E "gnome-screenshot" = false /\ which E "grim" = true))
    /\ (List.length (runs_of evs) <= 3)%nat
    /\ (In "powershell.exe" (runs_of evs) -> _is_wsl E = true)
    /\ (In "wslpath" (runs_of evs) -> In "powershell.exe" (runs_of evs))
    /\ (In "grim" (runs_of evs) -> which E "gnome-screenshot" = false)
    /\ (ready (_SRC w) = false -> evs = [])
    /\ (forall h rg,
           src_sct (_SRC w) = Some h -> src_region (_SRC w) = Some rg ->
           (forall i,
               primary_grab E h rg (grab_scale w) (grab_calls w) = Ok i ->
               evs = [] /\ ok = true /\ img = Some i)
           /\ (evs <> [] ->
               exists e,
                 primary_grab E h rg (grab_scale w) (grab_calls w) = Raise e)
           /\ (forall raw,
                  sct_grab E (grab_calls w) h rg = Ok raw ->
                  downscales (grab_scale w) = false ->
                  evs = [] /\ ok = true /\ img = Some raw)).
Proof.
  destruct (grab_cases E w)
    as (ok & img & msg & evs & w' & Hrun & Heff & Hevs & _ & Hnot & Hout).
  exists ok, img, msg, evs, w'. split; [exact Hrun|]. split; [exact Heff|].
  unfold ready in Hnot |- *.
  destruct (src_sct (_SRC w)) as [h|];
    [destruct (src_region (_SRC w)) as [rg|] |].
  - destruct (Hout h rg eq_refl eq_refl) as (_ & Hprogs & _ & Hfast).
    split; [exact Hprogs|].
    destruct Hprogs as (ps & fb & -> & Hps & Hfb & Hwsl & Hgnome & Hgrim).
    split.
    { destruct Hps as [-> | [-> | ->]]; destruct Hfb as [-> | [-> | ->]];
        cbn [app List.length]; lia. }
    split.
    { intro Hin. apply Hwsl.
      destruct Hps as [-> | [-> | ->]]; [|discriminate | discriminate].
      destruct Hfb as [-> | [-> | ->]]; cbn [app In] in Hin;
        intuition discriminate. }
    split.
    { destruct Hps as [-> | [-> | ->]]; destruct Hfb as [-> | [-> | ->]];
        cbn [app In]; intuition discriminate. }
    split.
    { intro Hin.
      destruct Hfb as [-> | [-> | ->]]; [| |now apply Hgrim];
        destruct Hps as [-> | [-> | ->]]; cbn [app In] in Hin;
        intuition discriminate. }
    split; [discriminate|].
    intros hh rr [= <-] [= <-]. split; [exact Hfast|]. split.
    + intro Hne.
      destruct (primary_grab E h rg (grab_scale w) (grab_calls w))
        as [i | e] eqn:Hp; [|now exists e].
      destruct (Hfast i eq_refl) as (Hnil & _). now contradiction Hne.
    + intros raw Hraw Hds. apply Hfast.
      now apply primary_grab_unscaled.
  - destruct (Hnot eq_refl) as (-> & _). cbn [runs_of In List.length].
    split.
    { exists [], []. split; [reflexivity|]. split; [now left|].
      split; [now left|]. split; [intro H; now contradiction H|].
      split; discriminate. }
    split; [lia|]. split; [intros []|]. split; [intros []|].
    split; [intros []|]. split; [reflexivity|]. intros hh rr _ [=].
  - destruct (Hnot eq_refl) as (-> & _). cbn [runs_of In List.length].
    split.
    { exists [], []. split; [reflexivity|]. split; [now left|].
      split; [now left|]. split; [intro H; now contradiction H|].
      split; discriminate. }
    split; [lia|]. split; [intros []|]. split; [intros []|].
    split; [intros []|]. split; [reflexivity|]. intros hh rr [=].
Qed.



(** X16: with a stored scale strictly between 0 and 1, every image [_grab]
    returns, from whichever mechanism, is at least one pixel wide and one
    pixel high. *)
Theorem grab_scaled_image_has_pixels
        (E : Env) (w w' : World) (h : Sct) (rg : Region)
        (img : Image) (msg : string) :
  src_sct (_SRC w) = Some h ->
  src_region (_SRC w) = Some rg ->
  downscales (grab_scale w) = true ->
  _grab E w = (Ok (true, Some img, msg), w') ->
  1 <= img_width img /\ 1 <= img_height img.
Proof.
  intros Hs Hr Hds Hrun.
  destruct (grab_cases E w)
    as (ok & img0 & msg0 & evs & w0 & Hrun0 & _ & _ & _ & _ & Hout).
  rewrite Hrun in Hrun0. injection Hrun0 as <- <- <- <-.
  destruct (Hout h rg Hs Hr) as ([(_ & _ & i & [= <-] & Hdim) | (Hok & _)] & _).
  - exact (Hdim Hds).
  - discriminate Hok.
Qed.

Lemma grab_scaled_image_has_pixels_witness :
  1 <= img_width (mkImage 960 540 "RGB" [])
  /\ 1 <= img_height (mkImage 960 540 "RGB" []).
Proof.
  apply (grab_scaled_image_has_pixels
           demo_env half_scale_world (snd (_grab demo_env half_scale_world))
           (mkSct 0 demo_monitors) (mkRegion 0 0 1920 1080)
           (mkImage 960 540 "RGB" []) "ok").
  - reflexivity.
  - reflexivity.
  - reflexivity.
  - reflexivity.
Defined.

(** ** Capturing one frame *)

Lemma timestamp_name_run E prefix ext w :
  _timestamp_name E prefix ext w =
    (Ok (prefix ++ "_" ++ strftime_compact (localtime E (clock_reads w)) ++ "_"
         ++ Py.zpad 3 (Z.to_nat (time_millis E (S (clock_reads w)) mod 1000))
         ++ ext)%string,
     tick_clock (tick_clock w)).
Proof. reflexivity. Qed.

Lemma opens_of_app evs1 evs2 :
  opens_of (evs1 ++ evs2) = (opens_of evs1 ++ opens_of evs2)%list.
Proof.
  induction evs1 as [| ev evs1 IH]; simpl; [reflexivity|].
  destruct ev; simpl; now rewrite IH.
Qed.

Lemma temps_of_app evs1 evs2 :
  temps_of (evs1 ++ evs2) = (temps_of evs1 ++ temps_of evs2)%list.
Proof.
  induction evs1 as [| ev evs1 IH]; simpl; [reflexivity|].
  destruct ev; simpl; now rewrite IH.
Qed.

Lemma acquires_of_app evs1 evs2 :
  acquires_of (evs1 ++ evs2) = (acquires_of evs1 ++ acquires_of evs2)%list.
Proof.
  induction evs1 as [| ev evs1 IH]; simpl; [reflexivity|].
  destruct ev; simpl; now rewrite IH.
Qed.

(** X17: when the grab and the encoding succeed and the directory can be
    made, [screenshare_capture] makes the directory, names the file
    [screen_<date>_<time>_<ms>] with the extension of the MIME type, and
    tries once to open and to write it.  On success it answers [ok: true]
    with that path and the metadata of the encoding, and that file, opened
    once, has been written with the encoded bytes.  When [open] or the
    write fails it answers [ok: false] with "Failed to write file: ..."
    and no write has completed: the file was left alone when it is [open]
    that failed, and was created or emptied by [open] when it is the write
    after it that failed.  [_SRC] is unchanged. *)
Theorem capture_saves_one_file
        (E : Env) (w w1 : World) (img : Image) (msg : string)
        (data : bytes) (mime : string) (wd ht : Z)
        (save_dir format : string) :
  _grab E w = (Ok (true, Some img, msg), w1) ->
  _encode_image_pil E img format = (true, data, mime, wd, ht) ->
  fs_mkdir E (fs_calls w) (Path_expanduser E save_dir) = None ->
  exists w' evs,
    screenshare_capture E save_dir format w =
      (Ok match fs_write E (S (fs_calls w))
                         (capture_path E save_dir (clock_reads w) mime) data
          with
          | None =>
              [("ok", VBool true);
               ("path", VStr (capture_path E save_dir (clock_reads w) mime));
               ("mime", VStr mime); ("width", VInt wd); ("height", VInt ht)]
          | Some e =>
              [("ok", VBool false);
               ("error", VStr ("Failed to write file: " ++ exn_str e))]
          end, w')
    /\ effects w' = (effects w ++ evs)%list
    /\ mkdirs_of evs = [Path_expanduser E save_dir]
    /\ opens_of evs =
         match open_wb E (S (fs_calls w))
                       (capture_path E save_dir (clock_reads w) mime)
         with
         | None => [capture_path E save_dir (clock_reads w) mime]
         | Some _ => []
         end
    /\ writes_of evs =
         match fs_write E (S (fs_calls w))
                        (capture_path E save_dir (clock_reads w) mime) data
         with
         | None => [(capture_path E save_dir (clock_reads w) mime, data)]
         | Some _ => []
         end
    /\ _SRC w' = _SRC w.
Proof.
  intros Hrun Henc Hmk.
  destruct (grab_cases E w)
    as (ok & img0 & msg0 & evs0 & w0 & Hrun0 & Heff & Hevs
        & (Hsrc & _ & _ & Hclk & Hfs) & _ & _).
  rewrite Hrun in Hrun0. injection Hrun0 as <- <- <- <-.
  destruct (programs_silent evs0 Hevs) as (Hw0 & Hm0 & _ & _ & Ho0).
  unfold screenshare_capture. unfold bind at 1. rewrite Hrun, Henc.
  cbn [negb]. cbv beta iota.
  unfold bind at 1. unfold mkdir at 1. rewrite Hfs, Hmk.
  unfold bind at 1. rewrite timestamp_name_run.
  unfold try_except, bind, write_file, fs_write, ret.
  cbn [fs_calls clock_reads tick_clock tick_fs emit].
  rewrite Hfs, Hclk. fold (ext_of_mime mime).
  change (path_join (Path_expanduser E save_dir) _)
    with (capture_path E save_dir (clock_reads w) mime).
  set (p := capture_path E save_dir (clock_reads w) mime).
  destruct (open_wb E (S (fs_calls w)) p) as [e |].
  - eexists _, (evs0 ++ [EvMkdir (Path_expanduser E save_dir)])%list.
    split; [reflexivity|]. cbn [effects _SRC tick_clock tick_fs emit].
    split; [rewrite Heff; now rewrite <- app_assoc|].
    rewrite mkdirs_of_app, writes_of_app, opens_of_app, Hw0, Hm0, Ho0.
    split; [reflexivity|]. split; [reflexivity|].
    split; [reflexivity | exact Hsrc].
  - cbv zeta. destruct (f_write E (S (fs_calls w)) p data) as [e |].
    + eexists _, (evs0 ++ [EvMkdir (Path_expanduser E save_dir);
                           EvOpen p])%list.
      split; [reflexivity|]. cbn [effects _SRC tick_clock tick_fs emit].
      split; [rewrite Heff; now rewrite <- !app_assoc|].
      rewrite mkdirs_of_app, writes_of_app, opens_of_app, Hw0, Hm0, Ho0.
      split; [reflexivity|]. split; [reflexivity|].
      split; [reflexivity | exact Hsrc].
    + eexists _, (evs0 ++ [EvMkdir (Path_expanduser E save_dir);
                           EvOpen p; EvWrite p data])%list.
      split; [reflexivity|]. cbn [effects _SRC tick_clock tick_fs emit].
      split; [rewrite Heff; now rewrite <- !app_assoc|].
      rewrite mkdirs_of_app, writes_of_app, opens_of_app, Hw0, Hm0, Ho0.
      split; [reflexivity|]. split; [reflexivity|].
      split; [reflexivity | exact Hsrc].
Qed.

Lemma capture_saves_one_file_witness :
  exists w' evs,
    screenshare_capture demo_env "shots" "png" demo_world =
      (Ok [("ok", VBool true);
           ("path", VStr "shots/screen_20250102_030405_273.png");
           ("mime", VStr "image/png");
           ("width", VInt 1920); ("height", VInt 1080)], w')
    /\ effects w' = (effects demo_world ++ evs)%list
    /\ mkdirs_of evs = ["shots"]
    /\ opens_of evs = ["shots/screen_20250102_030405_273.png"]
    /\ writes_of evs = [("shots/screen_20250102_030405_273.png", [])].
Proof.
  destruct (capture_saves_one_file
              demo_env demo_world (snd (_grab demo_env demo_world))
              (mkImage 1920 1080 "RGB" []) "ok" [] "image/png" 1920 1080
              "shots" "png")
    as (w' & evs & Hrun & Heff & Hmk & Hop & Hwr & _).
  - reflexivity.
  - reflexivity.
  - reflexivity.
  - exists w', evs. split; [exact Hrun|]. split; [exact Heff|].
    split; [exact Hmk|]. split; [exact Hop | exact Hwr].
Defined.

(** X18: whatever the environment does, [screenshare_capture] reports
    what it did to the file system.  An answer [ok: true] carries the path
    of the one file it opened and wrote, which is the file
    [screen_<date>_<time>_<ms><ext>] of the directory it made.  An answer
    [ok: false] carries an error and no write has completed: either
    nothing was opened, or the answer is "Failed to write file: ..." and
    that file of the directory made was created or emptied by an [open]
    whose write then failed.  The only exception it lets through is that
    of the directory creation, before anything is opened.  Whatever else
    reaches the file system are the temp files of the programs [_grab]
    starts.  It never changes [_SRC] and never acquires or releases a
    handle. *)
Theorem capture_reports_what_it_wrote
        (E : Env) (w : World) (save_dir format : string) :
  exists r w' evs,
    screenshare_capture E save_dir format w = (r, w')
    /\ effects w' = (effects w ++ evs)%list
    /\ _SRC w' = _SRC w
    /\ closes_of evs = [] /\ acquires_of evs = []
    /\ incl (temps_of evs) (tool_files E (grab_calls w))
    /\ ((exists resp mime d,
            r = Ok resp
            /\ dict_get "ok" resp = Some (VBool true)
            /\ dict_get "path" resp
               = Some (VStr (capture_path E save_dir (clock_reads w) mime))
            /\ writes_of evs
               = [(capture_path E save_dir (clock_reads w) mime, d)]
            /\ opens_of evs = [capture_path E save_dir (clock_reads w) mime]
            /\ mkdirs_of evs = [Path_expanduser E save_dir])
        \/ (exists resp err,
               r = Ok resp
               /\ dict_get "ok" resp = Some (VBool false)
               /\ dict_get "error" resp = Some (VStr err)
               /\ writes_of evs = []
               /\ (opens_of evs = []
                   \/ exists mime e,
                       opens_of evs
                       = [capture_path E save_dir (clock_reads w) mime]
                       /\ mkdirs_of evs = [Path_expanduser E save_dir]
                       /\ err = ("Failed to write file: " ++ exn_str e)%string))
        \/ (exists e,
               r = Raise e
               /\ fs_mkdir E (fs_calls w) (Path_expanduser E save_dir) = Some e
               /\ writes_of evs = [] /\ opens_of evs = []
               /\ mkdirs_of evs = [])).
Proof.
  destruct (grab_cases E w)
    as (ok & img & msg & evs0 & w1 & Hrun & Heff & Hevs
        & (Hsrc & _ & _ & Hclk & Hfs) & Hnot & Hout).
  destruct (programs_silent evs0 Hevs) as (Hw0 & Hm0 & Hc0 & Ha0 & Ho0).
  pose proof (grab_temps E w ok img msg evs0 Hnot Hout) as Ht0.
  clear Hnot Hout.
  assert (Hquiet : forall tl,
             closes_of tl = [] -> acquires_of tl = [] -> temps_of tl = [] ->
             closes_of (evs0 ++ tl) = [] /\ acquires_of (evs0 ++ tl) = []
             /\ incl (temps_of (evs0 ++ tl)) (tool_files E (grab_calls w))).
  { intros tl Hc Ha Ht.
    rewrite closes_of_app, acquires_of_app, temps_of_app, Hc0, Ha0, Hc, Ha, Ht.
    rewrite !app_nil_r. repeat split. exact Ht0. }
  unfold screenshare_capture. unfold bind at 1. rewrite Hrun.
  assert (Hfail : forall err,
             exists r w' evs,
               (Ok [("ok", VBool false); ("error", VStr err)], w1) = (r, w')
               /\ effects w' = (effects w ++ evs)%list
               /\ _SRC w' = _SRC w
               /\ closes_of evs = [] /\ acquires_of evs = []
               /\ incl (temps_of evs) (tool_files E (grab_calls w))
               /\ ((exists resp mime d,
                       r = Ok resp
                       /\ dict_get "ok" resp = Some (VBool true)
                       /\ dict_get "path" resp
                          = Some (VStr (capture_path E save_dir
                                                     (clock_reads w) mime))
                       /\ writes_of evs
                          = [(capture_path E save_dir (clock_reads w) mime, d)]
                       /\ opens_of evs
                          = [capture_path E save_dir (clock_reads w) mime]
                       /\ mkdirs_of evs = [Path_expanduser E save_dir])
                   \/ (exists resp err,
                          r = Ok resp
                          /\ dict_get "ok" resp = Some (VBool false)
                          /\ dict_get "error" resp = Some (VStr err)
                          /\ writes_of evs = []
                          /\ (opens_of evs = []
                              \/ exists mime e,
                                  opens_of evs
                                  = [capture_path E save_dir (clock_reads w)
                                                  mime]
                                  /\ mkdirs_of evs = [Path_expanduser E save_dir]
                                  /\ err = ("Failed to write file: "
                                            ++ exn_str e)%string))
                   \/ (exists e,
                          r = Raise e
                          /\ fs_mkdir E (fs_calls w) (Path_expanduser E save_dir)
                             = Some e
                          /\ writes_of evs = [] /\ opens_of evs = []
                          /\ mkdirs_of evs = []))).
  { intro err. eexists _, w1, evs0. split; [reflexivity|].
    split; [exact Heff|]. split; [exact Hsrc|]. split; [exact Hc0|].
    split; [exact Ha0|]. split; [exact Ht0|]. right. left. eexists _, err.
    split; [reflexivity|]. split; [reflexivity|]. split; [reflexivity|].
    split; [exact Hw0 | now left]. }
  destruct ok; [destruct img as [img|] |]; try apply Hfail.
  destruct (_encode_image_pil E img format) as [[[[ok2 data] mime] wd] ht].
  destruct ok2; cbn [negb]; cbv beta iota; [|apply Hfail].
  clear Hfail.
  unfold bind at 1. unfold mkdir at 1. rewrite Hfs.
  destruct (fs_mkdir E (fs_calls w) (Path_expanduser E save_dir))
    as [e |] eqn:Hmk.
  { eexists _, _, evs0. split; [reflexivity|].
    cbn [effects _SRC tick_fs].
    split; [exact Heff|]. split; [exact Hsrc|]. split; [exact Hc0|].
    split; [exact Ha0|]. split; [exact Ht0|]. right. right. exists e.
    split; [reflexivity|]. split; [reflexivity|]. split; [exact Hw0|].
    split; [exact Ho0 | exact Hm0]. }
  unfold bind at 1. rewrite timestamp_name_run.
  unfold try_except, bind, write_file, ret.
  cbn [fs_calls clock_reads tick_clock tick_fs emit].
  rewrite Hclk. fold (ext_of_mime mime).
  change (path_join (Path_expanduser E save_dir) _)
    with (capture_path E save_dir (clock_reads w) mime).
  set (p := capture_path E save_dir (clock_reads w) mime).
  destruct (open_wb E _ p) as [e |].
  - eexists _, _, (evs0 ++ [EvMkdir (Path_expanduser E save_dir)])%list.
    split; [reflexivity|]. cbn [effects _SRC tick_clock tick_fs emit].
    split; [rewrite Heff; now rewrite <- app_assoc|]. split; [exact Hsrc|].
    destruct (Hquiet [EvMkdir (Path_expanduser E save_dir)])
      as (Hc & Ha & Ht); [reflexivity | reflexivity | reflexivity |].
    split; [exact Hc|]. split; [exact Ha|]. split; [exact Ht|].
    rewrite writes_of_app, opens_of_app, Hw0, Ho0.
    right. left. eexists _, _.
    split; [reflexivity|]. split; [reflexivity|]. split; [reflexivity|].
    split; [reflexivity | now left].
  - cbv zeta. destruct (f_write E _ p data) as [e |].
    + eexists _, _, (evs0 ++ [EvMkdir (Path_expanduser E save_dir);
                              EvOpen p])%list.
      split; [reflexivity|]. cbn [effects _SRC tick_clock tick_fs emit].
      split; [rewrite Heff; now rewrite <- !app_assoc|]. split; [exact Hsrc|].
      destruct (Hquiet [EvMkdir (Path_expanduser E save_dir); EvOpen p])
        as (Hc & Ha & Ht); [reflexivity | reflexivity | reflexivity |].
      split; [exact Hc|]. split; [exact Ha|]. split; [exact Ht|].
      rewrite writes_of_app, opens_of_app, mkdirs_of_app, Hw0, Ho0, Hm0.
      right. left. eexists _, _.
      split; [reflexivity|]. split; [reflexivity|]. split; [reflexivity|].
      split; [reflexivity|]. right. exists mime, e.
      split; [reflexivity|]. split; reflexivity.
    + eexists _, _, (evs0 ++ [EvMkdir (Path_expanduser E save_dir);
                              EvOpen p; EvWrite p data])%list.
      split; [reflexivity|]. cbn [effects _SRC tick_clock tick_fs emit].
      split; [rewrite Heff; now rewrite <- !app_assoc|]. split; [exact Hsrc|].
      destruct (Hquiet [EvMkdir (Path_expanduser E save_dir); EvOpen p;
                        EvWrite p data])
        as (Hc & Ha & Ht); [reflexivity | reflexivity | reflexivity |].
      split; [exact Hc|]. split; [exact Ha|]. split; [exact Ht|].
      rewrite writes_of_app, opens_of_app, mkdirs_of_app, Hw0, Ho0, Hm0.
      left. eexists _, mime, data.
      split; [reflexivity|]. split; [reflexivity|]. split; [reflexivity|].
      split; [reflexivity|]. split; reflexivity.
Qed.

(** ** The burst in any environment *)

(** X19: with no source open, [screenshare_burst] answers [ok: false] with
    the not-initialized error before it looks at its arguments: nothing is
    computed from the period and the duration, no directory is made and
    the world is left as it was. *)
Theorem burst_without_source
        (E : Env) (w : World) (n period_ms : Z) (save_dir format : string)
        (warmup duration_ms : Z) :
  src_sct (_SRC w) = None ->
  screenshare_burst E n period_ms save_dir format warmup duration_ms w =
    (Ok [("ok", VBool false);
         ("error", VStr "Screen source not initialized")], w).
Proof.
  intro Hs. unfold screenshare_burst, bind, get_world.
  now rewrite Hs.
Qed.

Lemma burst_without_source_witness :
  screenshare_burst demo_env 8 0 "." "jpg" 0 1000 initial_world =
    (Ok [("ok", VBool false);
         ("error", VStr "Screen source not initialized")], initial_world).
Proof.
  apply (burst_without_source demo_env initial_world 8 0 "." "jpg" 0 1000).
  reflexivity.
Defined.

Section BurstCases.

Variable E : Env.
Variables (t0 period_s : Py.float) (out_dir format : string).

Lemma frame_quiet_nil : frame_quiet E [].
Proof. repeat split. intros f []. Qed.

Lemma frame_quiet_app evs1 evs2 :
  frame_quiet E evs1 -> frame_quiet E evs2 -> frame_quiet E (evs1 ++ evs2).
Proof.
  intros (M1 & C1 & A1 & T1) (M2 & C2 & A2 & T2). unfold frame_quiet.
  rewrite mkdirs_of_app, closes_of_app, acquires_of_app, temps_of_app.
  rewrite M1, M2, C1, C2, A1, A2. repeat split.
  intros f Hin. apply in_app_or in Hin. destruct Hin; auto.
Qed.

(** A grab, whatever the environment does. *)
Lemma grab_quiet w :
  exists r w' evs,
    _grab E w = (Ok r, w')
    /\ effects w' = (effects w ++ evs)%list
    /\ _SRC w' = _SRC w
    /\ clock_reads w' = clock_reads w
    /\ frame_quiet E evs
    /\ writes_of evs = [] /\ opens_of evs = [].
Proof.
  destruct (grab_cases E w)
    as (ok & img & msg & evs & w' & Hrun & Heff & Hevs
        & (Hsrc & _ & _ & Hclk & _) & Hnot & Hout).
  destruct (programs_silent evs Hevs) as (Hw & Hm & Hc & Ha & Ho).
  pose proof (grab_temps E w ok img msg evs Hnot Hout) as Ht.
  exists (ok, img, msg), w', evs. split; [exact Hrun|].
  split; [exact Heff|]. split; [exact Hsrc|]. split; [exact Hclk|].
  split; [|now split].
  split; [exact Hm|]. split; [exact Hc|]. split; [exact Ha|].
  intros f Hin. exists (grab_calls w). now apply Ht.
Qed.

(** One frame, whatever the environment does. *)
Lemma burst_frame_cases i l w :
  exists r w' evs,
    burst_frame E t0 period_s out_dir format i l w = (r, w')
    /\ effects w' = (effects w ++ evs)%list
    /\ _SRC w' = _SRC w
    /\ frame_quiet E evs
    /\ frame_outcome E out_dir format i l r evs.
Proof.
  unfold burst_frame. unfold bind at 1. unfold lift at 1.
  destruct (Py.float_of_int i) as [fi | e].
  2:{ exists (Raise e), w, []. split; [reflexivity|].
      split; [now rewrite app_nil_r|]. split; [reflexivity|].
      split; [apply frame_quiet_nil | reflexivity]. }
  unfold bind at 1. unfold time_perf_counter, bind at 1, next_clock, ret at 1.
  set (target := Py.fadd t0 (Py.fmul fi period_s)).
  set (now := perf_counter E (clock_reads w)).
  assert (Hpace : exists w2 evsA,
             (if Py.flt now target then time_sleep (Py.fsub target now)
              else ret tt) (tick_clock w) = (Ok tt, w2)
             /\ effects w2 = (effects w ++ evsA)%list
             /\ _SRC w2 = _SRC w
             /\ frame_quiet E evsA
             /\ writes_of evsA = [] /\ opens_of evsA = []).
  { destruct (Py.flt now target).
    - eexists _, [EvSleep (Py.fsub target now)].
      split; [reflexivity|]. split; [reflexivity|]. split; [reflexivity|].
      split; [|now split]. repeat split. intros f [].
    - exists (tick_clock w), []. split; [reflexivity|].
      split; [simpl; now rewrite app_nil_r|]. split; [reflexivity|].
      split; [apply frame_quiet_nil | now split]. }
  destruct Hpace as (w2 & evsA & Hpace & EA & SA & QA & WA & OA).
  unfold bind at 1. rewrite Hpace.
  destruct (grab_quiet w2)
    as ([[ok img] msg] & w3 & evsB & Hrun & EB & SB & _ & QB & WB & OB).
  unfold bind at 1. rewrite Hrun.
  assert (E3 : effects w3 = (effects w ++ (evsA ++ evsB))%list)
    by (rewrite EB, EA; now rewrite app_assoc).
  assert (S3 : _SRC w3 = _SRC w) by congruence.
  pose proof (frame_quiet_app _ _ QA QB) as Q3.
  assert (W3 : writes_of (evsA ++ evsB) = [])
    by (rewrite writes_of_app, WA, WB; reflexivity).
  assert (O3 : opens_of (evsA ++ evsB) = [])
    by (rewrite opens_of_app, OA, OB; reflexivity).
  assert (Hleave : forall err,
             exists r w' evs,
               (Ok (Return (S := BurstLocals)
                      [("ok", VBool false); ("error", VStr err);
                       ("paths", paths_value (paths l))]), w3) = (r, w')
               /\ effects w' = (effects w ++ evs)%list
               /\ _SRC w' = _SRC w
               /\ frame_quiet E evs
               /\ frame_outcome E out_dir format i l r evs).
  { intro err. eexists _, w3, (evsA ++ evsB)%list.
    split; [reflexivity|]. split; [exact E3|]. split; [exact S3|].
    split; [exact Q3|]. split; [exact W3|]. split; [exact O3|].
    now exists err. }
  destruct ok; [destruct img as [img|] |]; try apply Hleave.
  destruct (_encode_image_pil E img format)
    as [[[[ok2 data] mime] wd] ht] eqn:Henc.
  destruct ok2; cbn [negb]; cbv beta iota; [|apply Hleave].
  clear Hleave.
  unfold time_strftime, time_ms, write_file, bind, next_clock, ret.
  cbv beta iota.
  fold (ext_of_mime mime).
  cbn [clock_reads fs_calls tick_clock].
  change (path_join out_dir _)
    with (burst_path E out_dir (clock_reads w3) i mime).
  set (p := burst_path E out_dir (clock_reads w3) i mime).
  destruct (open_wb E _ p) as [e |].
  { eexists _, _, (evsA ++ evsB)%list. split; [reflexivity|].
    cbn [effects _SRC tick_clock tick_fs].
    split; [exact E3|]. split; [exact S3|]. split; [exact Q3 | exact W3]. }
  cbv zeta. destruct (f_write E _ p data) as [e |].
  - eexists _, _, ((evsA ++ evsB) ++ [EvOpen p])%list.
    split; [reflexivity|]. cbn [effects _SRC tick_clock tick_fs emit].
    split; [rewrite E3; now rewrite <- !app_assoc|]. split; [exact S3|].
    split.
    { apply frame_quiet_app; [exact Q3|]. repeat split. intros f []. }
    cbn [frame_outcome]. rewrite writes_of_app, W3. reflexivity.
  - eexists _, _, ((evsA ++ evsB) ++ [EvOpen p; EvWrite p data])%list.
    split; [reflexivity|]. cbn [effects _SRC tick_clock tick_fs emit].
    split; [rewrite E3; now rewrite <- !app_assoc|]. split; [exact S3|].
    split.
    { apply frame_quiet_app; [exact Q3|]. repeat split. intros f []. }
    cbn [frame_outcome]. exists img, p, data.
    cbn [paths mime_last w_last h_last].
    rewrite writes_of_app, opens_of_app, W3, O3.
    split; [reflexivity|]. split; [reflexivity|]. split; [reflexivity|].
    split; [now exists (clock_reads w3), mime | exact Henc].
Qed.

(** The capture loop, whatever the environment does: the paths collected
    are those of the files written, in order, each opened once and
    written, frame by frame. *)
Lemma burst_loop_cases cnt : forall start l w,
  exists r w' evs,
    for_range (burst_frame E t0 period_s out_dir format) start cnt l w
    = (r, w')
    /\ effects w' = (effects w ++ evs)%list
    /\ _SRC w' = _SRC w
    /\ frame_quiet E evs
    /\ match r with
       | Ok _ => frames_outcome E out_dir start evs
       | Raise _ => True
       end
    /\ match r with
       | Ok (Next l') =>
           paths l' = (paths l ++ map fst (writes_of evs))%list
           /\ List.length (writes_of evs) = cnt
           /\ (cnt = 0%nat -> l' = l)
           /\ (cnt <> 0%nat ->
               exists img front p d,
                 writes_of evs = (front ++ [(p, d)])%list
                 /\ _encode_image_pil E img format
                    = (true, d, mime_last l', w_last l', h_last l'))
       | Ok (Return resp) =>
           (List.length (writes_of evs) < cnt)%nat
           /\ exists err,
               resp = [("ok", VBool false); ("error", VStr err);
                       ("paths",
                        paths_value
                          (paths l ++ map fst (writes_of evs))%list)]
       | Raise _ => (List.length (writes_of evs) < cnt)%nat
       end.
Proof.
  induction cnt as [| cnt IH]; intros start l w.
  - exists (Ok (Next l)), w, []. cbn [for_range]. split; [reflexivity|].
    split; [now rewrite app_nil_r|]. split; [reflexivity|].
    split; [apply frame_quiet_nil|].
    split; [split; [reflexivity | intros [| j] p d [=]]|].
    cbn [writes_of map List.length]. rewrite app_nil_r.
    split; [reflexivity|]. split; [reflexivity|]. split; [reflexivity|].
    intro H. now contradiction H.
  - cbn [for_range]. unfold bind at 1.
    destruct (burst_frame_cases start l w)
      as (r1 & w1 & evs1 & Hrun1 & E1 & S1 & Q1 & Hr1).
    rewrite Hrun1. destruct r1 as [[resp | l1] | e].
    + exists (Ok (Return resp)), w1, evs1. split; [reflexivity|].
      split; [exact E1|]. split; [exact S1|]. split; [exact Q1|].
      destruct Hr1 as (W1 & O1 & err & ->). rewrite W1.
      split.
      { split; [rewrite W1; exact O1|]. rewrite W1.
        intros [| j] p d [=]. }
      cbn [map List.length]. rewrite app_nil_r.
      split; [lia | now exists err].
    + destruct Hr1 as (img1 & p1 & d1 & Hp1 & W1 & O1 & Hshape1 & Henc1).
      destruct (IH (start + 1) l1 w1)
        as (r2 & w2 & evs2 & Hrun2 & E2 & S2 & Q2 & Hf2 & Hr2).
      exists r2, w2, (evs1 ++ evs2)%list. split; [exact Hrun2|].
      split; [rewrite E2, E1; now rewrite app_assoc|].
      split; [congruence|].
      split; [now apply frame_quiet_app|].
      unfold frames_outcome in Hf2 |- *.
      rewrite writes_of_app, W1.
      split.
      { destruct r2 as [fl | e]; [|exact I].
        destruct Hf2 as (O2 & Hnth2). split.
        - rewrite opens_of_app, O1, O2. reflexivity.
        - intros [| j] p d; cbn [app nth_error].
          + intros [= <- <-]. now rewrite Z.add_0_r.
          + intro Hj. destruct (Hnth2 j p d Hj) as (c & mime & ->).
            exists c, mime. f_equal. lia. }
      cbn [app map fst List.length].
      destruct r2 as [[resp | l'] | e].
      * destruct Hr2 as (Hlen & err & ->). split; [lia|].
        exists err. rewrite Hp1. now rewrite <- app_assoc.
      * destruct Hr2 as (Hp2 & Hlen & Hzero & Hlast).
        split; [rewrite Hp2, Hp1; now rewrite <- app_assoc|].
        split; [lia|]. split; [discriminate|]. intros _.
        destruct cnt as [| cnt].
        -- rewrite (Hzero eq_refl).
           destruct (writes_of evs2); [|discriminate Hlen].
           now exists img1, [], p1, d1.
        -- destruct (Hlast ltac:(discriminate))
             as (img & front & p & d & -> & Henc).
           now exists img, ((p1, d1) :: front), p, d.
      * lia.
    + exists (Raise e), w1, evs1. split; [reflexivity|].
      split; [exact E1|]. split; [exact S1|]. split; [exact Q1|].
      split; [exact I|]. cbn [frame_outcome] in Hr1. rewrite Hr1.
      cbn [List.length]. lia.
Qed.

(** The warm-up grabs, whatever the environment does. *)
Lemma warmup_cases cnt : forall start w,
  exists w' evs,
    for_range (R := Dict)
              (fun _ (u : unit) => bind (_grab E) (fun _ => ret (Next u)))
              start cnt tt w = (Ok (Next tt), w')
    /\ effects w' = (effects w ++ evs)%list
    /\ _SRC w' = _SRC w
    /\ frame_quiet E evs
    /\ writes_of evs = [] /\ opens_of evs = [].
Proof.
  induction cnt as [| cnt IH]; intros start w.
  - exists w, []. cbn [for_range]. split; [reflexivity|].
    split; [now rewrite app_nil_r|]. split; [reflexivity|].
    split; [apply frame_quiet_nil | now split].
  - destruct (grab_quiet w)
      as (r & w1 & evs1 & Hrun & E1 & S1 & _ & Q1 & W1 & O1).
    destruct (IH (start + 1) w1)
      as (w' & evs2 & Hrun2 & E2 & S2 & Q2 & W2 & O2).
    exists w', (evs1 ++ evs2)%list. split.
    { cbn [for_range]. unfold bind at 1. unfold bind at 1. rewrite Hrun.
      unfold ret at 1. exact Hrun2. }
    split; [rewrite E2, E1; now rewrite app_assoc|].
    split; [congruence|].
    split; [now apply frame_quiet_app|].
    rewrite writes_of_app, opens_of_app, W1, W2, O1, O2. now split.
Qed.

End BurstCases.

(** What [screenshare_burst] has done when it answers, on an open source
    or not. *)
Lemma burst_cases E w w' n period_ms save_dir format warmup duration_ms resp :
  screenshare_burst E n period_ms save_dir format warmup duration_ms w
  = (Ok resp, w') ->
  (is_open w = false /\ w' = w
   /\ resp = [("ok", VBool false);
              ("error", VStr "Screen source not initialized")])
  \/ exists n' evs,
      frames_requested n period_ms duration_ms = Ok n'
      /\ effects w' = (effects w ++ evs)%list
      /\ _SRC w' = _SRC w
      /\ mkdirs_of evs = [Path_expanduser E save_dir]
      /\ closes_of evs = [] /\ acquires_of evs = []
      /\ (forall f, In f (temps_of evs) -> exists k, In f (tool_files E k))
      /\ frames_outcome E (Path_expanduser E save_dir) 0 evs
      /\ dict_get "paths" resp
         = Some (paths_value (map fst (writes_of evs)))
      /\ ((dict_get "ok" resp = Some (VBool true)
           /\ List.length (writes_of evs) = Z.to_nat (Z.max 1 n')
           /\ dict_get "n" resp
              = Some (VInt (Z.of_nat (Z.to_nat (Z.max 1 n'))))
           /\ exists img front p d mime wd ht,
               writes_of evs = (front ++ [(p, d)])%list
               /\ _encode_image_pil E img format = (true, d, mime, wd, ht)
               /\ dict_get "mime" resp = Some (VStr mime)
               /\ dict_get "width" resp = Some (VInt wd)
               /\ dict_get "height" resp = Some (VInt ht))
          \/ (dict_get "ok" resp = Some (VBool false)
              /\ (List.length (writes_of evs) < Z.to_nat (Z.max 1 n'))%nat
              /\ exists err, dict_get "error" resp = Some (VStr err))).
Proof.
  unfold screenshare_burst. unfold bind at 1. unfold get_world at 1.
  unfold is_open.
  destruct (src_sct (_SRC w)) as [h|].
  2:{ intros [= <- <-]. left. repeat split. }
  intro Hrun. right.
  assert (Hn : exists n',
             frames_requested n period_ms duration_ms = Ok n'
             /\ burst_capture E n' period_ms save_dir format warmup
                              duration_ms w = (Ok resp, w')).
  { revert Hrun. unfold frames_requested, bind, lift, ret.
    destruct (0 <? duration_ms).
    - destruct (burst_n_from_duration duration_ms period_ms) as [n' | e];
        [|discriminate].
      intro Hrun. now exists n'.
    - intro Hrun. now exists n. }
  destruct Hn as (n' & Hn' & Hcap). clear Hrun.
  exists n'. revert Hcap. unfold burst_capture.
  set (out_dir := Path_expanduser E save_dir).
  unfold bind at 1. unfold mkdir at 1.
  destruct (fs_mkdir E (fs_calls w) out_dir); [discriminate|].
  unfold bind at 1. unfold lift at 1.
  destruct (Py.float_of_int period_ms) as [fp |]; [|discriminate].
  unfold bind at 1. unfold lift at 1.
  change (Py.fdiv fp Py.f1000) with (Ok (SFdiv prec emax fp Py.f1000)).
  cbv beta iota.
  unfold bind at 1. unfold time_perf_counter, bind at 1, next_clock, ret at 1.
  set (w0 := tick_clock (emit (EvMkdir out_dir) (tick_fs w))).
  destruct (warmup_cases E (Z.to_nat (Z.max 0 warmup)) 0 w0)
    as (w1 & evs1 & Hwarm & E1 & S1 & (M1 & C1 & A1 & T1) & W1 & O1).
  unfold bind at 1. rewrite Hwarm.
  set (ps := Py.fmax Py.f0 (SFdiv prec emax fp Py.f1000)).
  set (t0 := perf_counter E (clock_reads (emit (EvMkdir out_dir) (tick_fs w)))).
  set (l0 := {| paths := []; mime_last := _; w_last := 0; h_last := 0 |}).
  destruct (burst_loop_cases E t0 ps out_dir format
                             (Z.to_nat (Z.max 1 n')) 0 l0 w1)
    as (r & w2 & evs2 & Hloop & E2 & S2 & (M2 & C2 & A2 & T2) & Hf & Hr).
  unfold bind at 1. rewrite Hloop.
  assert (Heff : effects w2
                 = (effects w ++ ([EvMkdir out_dir] ++ evs1) ++ evs2)%list).
  { rewrite E2, E1. subst w0. cbn [effects tick_clock emit tick_fs].
    now rewrite <- !app_assoc. }
  assert (Hsrc : _SRC w2 = _SRC w) by (rewrite S2, S1; reflexivity).
  assert (Hquiet : mkdirs_of (([EvMkdir out_dir] ++ evs1) ++ evs2) = [out_dir]
                   /\ closes_of (([EvMkdir out_dir] ++ evs1) ++ evs2) = []
                   /\ acquires_of (([EvMkdir out_dir] ++ evs1) ++ evs2) = []
                   /\ writes_of (([EvMkdir out_dir] ++ evs1) ++ evs2)
                      = writes_of evs2
                   /\ opens_of (([EvMkdir out_dir] ++ evs1) ++ evs2)
                      = opens_of evs2
                   /\ (forall f,
                          In f (temps_of (([EvMkdir out_dir] ++ evs1) ++ evs2))
                          -> exists k, In f (tool_files E k))).
  { rewrite !mkdirs_of_app, !closes_of_app, !acquires_of_app, !writes_of_app,
      !opens_of_app, !temps_of_app.
    rewrite M1, M2, C1, C2, A1, A2, W1, O1.
    split; [reflexivity|]. split; [reflexivity|]. split; [reflexivity|].
    split; [reflexivity|]. split; [reflexivity|].
    cbn [temps_of app]. intros f Hin.
    apply in_app_or in Hin. destruct Hin; auto. }
  destruct Hquiet as (HM & HC & HA & HW & HO & HT).
  destruct r as [[d | l'] | e]; [| |discriminate].
  - destruct Hr as (Hlen & err & ->). unfold ret. intros [= <- <-].
    exists (([EvMkdir out_dir] ++ evs1) ++ evs2)%list.
    split; [exact Hn'|]. split; [exact Heff|]. split; [exact Hsrc|].
    split; [exact HM|]. split; [exact HC|]. split; [exact HA|].
    split; [exact HT|].
    split; [unfold frames_outcome; rewrite HW, HO; exact Hf|]. rewrite HW.
    split; [reflexivity|]. right.
    split; [reflexivity|]. split; [exact Hlen | now exists err].
  - destruct Hr as (Hp & Hlen & _ & Hlast). unfold ret. intros [= <- <-].
    exists (([EvMkdir out_dir] ++ evs1) ++ evs2)%list.
    split; [exact Hn'|]. split; [exact Heff|]. split; [exact Hsrc|].
    split; [exact HM|]. split; [exact HC|]. split; [exact HA|].
    split; [exact HT|].
    split; [unfold frames_outcome; rewrite HW, HO; exact Hf|]. rewrite HW.
    cbn [dict_get String.eqb Ascii.eqb Bool.eqb].
    rewrite Hp. cbn [paths l0 app]. split; [reflexivity|]. left.
    split; [reflexivity|]. split; [exact Hlen|].
    split; [rewrite length_map, Hlen; reflexivity|].
    destruct Hlast as (img & front & p & d & Hfront & Henc); [lia|].
    exists img, front, p, d, (mime_last l'), (w_last l'), (h_last l').
    split; [exact Hfront|]. split; [exact Henc|]. repeat split.
Qed.

(** X20: whenever [screenshare_burst] answers on an open source, it
    reports exactly the files it wrote: the paths of the answer are the
    paths of the files written during the call, in the order they were
    written; each of them was opened once and written, and the [j]-th is
    the file [scr_<date>_<ms>_<j><ext>] of the one directory the call
    made.  An answer [ok: true] means that all [max(1, n)] frames were
    written and [n] says so; an answer [ok: false] carries an error and
    fewer paths than frames requested.  [_SRC] is unchanged and no handle
    is acquired or released; whatever else reaches the file system are
    the temp files of the programs the grabs start. *)
Theorem burst_reports_what_it_wrote
        (E : Env) (w w' : World) (n period_ms : Z) (save_dir format : string)
        (warmup duration_ms : Z) (resp : Dict) :
  is_open w = true ->
  screenshare_burst E n period_ms save_dir format warmup duration_ms w
  = (Ok resp, w') ->
  exists n' evs,
    frames_requested n period_ms duration_ms = Ok n'
    /\ effects w' = (effects w ++ evs)%list
    /\ _SRC w' = _SRC w
    /\ mkdirs_of evs = [Path_expanduser E save_dir]
    /\ closes_of evs = [] /\ acquires_of evs = []
    /\ dict_get "paths" resp = Some (paths_value (map fst (writes_of evs)))
    /\ opens_of evs = map fst (writes_of evs)
    /\ (forall j p d,
           nth_error (writes_of evs) j = Some (p, d) ->
           exists c mime,
             p = burst_path E (Path_expanduser E save_dir) c (Z.of_nat j)
                            mime)
    /\ (forall f, In f (temps_of evs) -> exists k, In f (tool_files E k))
    /\ ((dict_get "ok" resp = Some (VBool true)
         /\ List.length (writes_of evs) = Z.to_nat (Z.max 1 n')
         /\ dict_get "n" resp
            = Some (VInt (Z.of_nat (Z.to_nat (Z.max 1 n')))))
        \/ (dict_get "ok" resp = Some (VBool false)
            /\ (List.length (writes_of evs) < Z.to_nat (Z.max 1 n'))%nat
            /\ exists err, dict_get "error" resp = Some (VStr err))).
Proof.
  intros Hopen Hrun.
  destruct (burst_cases E w w' n period_ms save_dir format warmup
                        duration_ms resp Hrun)
    as [(Hclosed & _)
       | (n' & evs & Hn & Heff & Hsrc & HM & HC & HA & HT & (HO & Hnth)
          & Hp & Hok)].
  { congruence. }
  exists n', evs. split; [exact Hn|]. split; [exact Heff|].
  split; [exact Hsrc|]. split; [exact HM|]. split; [exact HC|].
  split; [exact HA|]. split; [exact Hp|]. split; [exact HO|].
  split; [exact Hnth|]. split; [exact HT|].
  destruct Hok as [(Ht & Hlen & Hcount & _) | Hfail].
  - left. split; [exact Ht|]. split; [exact Hlen | exact Hcount].
  - right. exact Hfail.
Qed.

Lemma burst_reports_what_it_wrote_witness :
  exists evs,
    effects (snd (screenshare_burst flaky_env 4 0 "." "jpg" 0 0 demo_world))
    = (effects demo_world ++ evs)%list
    /\ dict_get "paths"
         [("ok", VBool false);
          ("error",
           VStr "Failed to capture: Failed to grab (mss=XGetImage() failed, wsl_ps=n/a, fallback=no compositor screenshot tool (gnome-screenshot/grim) found)");
          ("paths",
           VList [VStr "scr_20250102_030405_573_00.jpg";
                  VStr "scr_20250102_030405_023_01.jpg"])]
       = Some (paths_value (map fst (writes_of evs)))
    /\ opens_of evs = map fst (writes_of evs).
Proof.
  destruct (burst_reports_what_it_wrote
              flaky_env demo_world
              (snd (screenshare_burst flaky_env 4 0 "." "jpg" 0 0 demo_world))
              4 0 "." "jpg" 0 0
              [("ok", VBool false);
               ("error",
                VStr "Failed to capture: Failed to grab (mss=XGetImage() failed, wsl_ps=n/a, fallback=no compositor screenshot tool (gnome-screenshot/grim) found)");
               ("paths",
                VList [VStr "scr_20250102_030405_573_00.jpg";
                       VStr "scr_20250102_030405_023_01.jpg"])])
    as (n' & evs & _ & Heff & _ & _ & _ & _ & Hp & Ho & _).
  - reflexivity.
  - vm_compute. reflexivity.
  - exists evs. split; [exact Heff|]. split; [exact Hp | exact Ho].
Defined.

(** X21: the [mime], [width] and [height] of a successful burst are those
    of the last frame: the metadata of the encoding whose bytes are the
    content of the last file written. *)
Theorem burst_reports_last_frame
        (E : Env) (w w' : World) (n period_ms : Z) (save_dir format : string)
        (warmup duration_ms : Z) (resp : Dict) :
  screenshare_burst E n period_ms save_dir format warmup duration_ms w
  = (Ok resp, w') ->
  dict_get "ok" resp = Some (VBool true) ->
  exists evs img front p d mime wd ht,
    effects w' = (effects w ++ evs)%list
    /\ writes_of evs = (front ++ [(p, d)])%list
    /\ _encode_image_pil E img format = (true, d, mime, wd, ht)
    /\ dict_get "mime" resp = Some (VStr mime)
    /\ dict_get "width" resp = Some (VInt wd)
    /\ dict_get "height" resp = Some (VInt ht).
Proof.
  intros Hrun Hok.
  destruct (burst_cases E w w' n period_ms save_dir format warmup
                        duration_ms resp Hrun)
    as [(_ & _ & ->)
       | (n' & evs & _ & Heff & _ & _ & _ & _ & _ & _ & _ & Hcases)].
  { discriminate Hok. }
  destruct Hcases as [(_ & _ & _ & Hlast) | (Hfalse & _)].
  - destruct Hlast as (img & front & p & d & mime & wd & ht & Hlast).
    exists evs, img, front, p, d, mime, wd, ht. split; [exact Heff | exact Hlast].
  - congruence.
Qed.

Lemma burst_reports_last_frame_witness :
  exists evs img front p d,
    effects (snd (screenshare_burst demo_env 2 0 "." "png" 0 0
                    half_scale_world))
    = (effects half_scale_world ++ evs)%list
    /\ writes_of evs = (front ++ [(p, d)])%list
    /\ _encode_image_pil demo_env img "png"
       = (true, d, "image/png", 960, 540).
Proof.
  destruct (burst_reports_last_frame
              demo_env half_scale_world
              (snd (screenshare_burst demo_env 2 0 "." "png" 0 0
                      half_scale_world))
              2 0 "." "png" 0 0
              [("ok", VBool true);
               ("paths", VList [VStr "scr_20250102_030405_573_00.png";
                                VStr "scr_20250102_030405_023_01.png"]);
               ("mime", VStr "image/png");
               ("width", VInt 960); ("height", VInt 540);
               ("n", VInt 2); ("period_ms", VInt 0);
               ("duration_ms", VInt 0); ("save_dir", VStr ".")])
    as (evs & img & front & p & d & mime & wd & ht
        & Heff & Hw & Henc & [= <-] & [= <-] & [= <-]).
  - vm_compute. reflexivity.
  - reflexivity.
  - exists evs, img, front, p, d. split; [exact Heff|]. split; [exact Hw|].
    exact Henc.
Defined.

(** ** The frame count for a negative period *)

Lemma binary_round_aux_sign sx m e l :
  match binary_round_aux prec emax sx m e l with
  | S754_finite s _ _ => s = sx
  | _ => True
  end.
Proof.
  unfold binary_round_aux.
  destruct (shr_fexp prec emax m e l) as [mrs e1].
  destruct (shr_fexp prec emax _ e1 loc_Exact) as [mrs' e2].
  destruct (shr_m mrs'); try exact I.
  now destruct (e2 <=? emax - prec).
Qed.

Lemma round_half_even_nonneg m e : 0 <= m -> 0 <= Py.round_half_even m e.
Proof.
  intro Hm. unfold Py.round_half_even.
  destruct (0 <=? e) eqn:He.
  - apply Z.leb_le in He. apply Z.mul_nonneg_nonneg; [exact Hm|].
    now apply Z.pow_nonneg.
  - apply Z.leb_gt in He.
    assert (Hd : 0 < 2 ^ (- e)) by (apply Z.pow_pos_nonneg; lia).
    assert (Hq : 0 <= m / 2 ^ (- e)) by (apply Z.div_pos; lia).
    cbv zeta. destruct (_ ?= _); [destruct (Z.even _)| |]; lia.
Qed.

(** X22: with a positive duration and a negative period, the frame count
    [screenshare_burst] derives is 1: the quotient of the two is negative,
    it rounds to an integer that is not positive, and [max(1, .)] makes it
    one frame. *)
Theorem burst_negative_period_takes_one_frame (n period_ms duration_ms : Z) :
  0 < duration_ms < 2 ^ 1023 ->
  - 2 ^ 1023 < period_ms < 0 ->
  frames_requested n period_ms duration_ms = Ok 1
  /\ burst_n_from_duration duration_ms period_ms = Ok 1.
Proof.
  intros Hd Hp.
  assert (Hn : burst_n_from_duration duration_ms period_ms = Ok 1).
  { destruct (burst_n_from_duration_total duration_ms period_ms)
      as (fd & fp & r & Hfd & Hfp & Hr & Hrun); [exact Hd | lia | lia |].
    destruct (float_of_int_normal duration_ms) as (m1 & e1 & Hd1 & _);
      [lia | lia |].
    destruct (float_of_int_normal period_ms) as (m2 & e2 & Hp2 & _);
      [lia | lia |].
    replace (duration_ms <? 0) with false in Hd1
      by (symmetry; apply Z.ltb_ge; lia).
    replace (period_ms <? 0) with true in Hp2
      by (symmetry; apply Z.ltb_lt; lia).
    rewrite Hd1 in Hfd. injection Hfd as <-.
    rewrite Hp2 in Hfp. injection Hfp as <-.
    assert (Hneg : r <= 0).
    { revert Hr. cbn [SFdiv xorb].
      destruct (SFdiv_core_binary prec emax (Zpos m1) e1 (Zpos m2) e2)
        as [[mz ez] lz].
      pose proof (binary_round_aux_sign true mz ez lz) as Hs.
      destruct (binary_round_aux prec emax true mz ez lz)
        as [s | s | | s m e]; cbn [Py.round]; try discriminate.
      - intros [= <-]. lia.
      - subst s. intros [= <-]. cbn [cond_Zopp].
        pose proof (round_half_even_nonneg (Zpos m) e ltac:(lia)). lia. }
    rewrite Hrun. f_equal. lia. }
  split; [|exact Hn].
  unfold frames_requested.
  replace (0 <? duration_ms) with true by (symmetry; apply Z.ltb_lt; lia).
  exact Hn.
Qed.

Lemma burst_negative_period_takes_one_frame_witness :
  frames_requested 8 (-150) 1000 = Ok 1
  /\ burst_n_from_duration 1000 (-150) = Ok 1.
Proof.
  apply (burst_negative_period_takes_one_frame 8 (-150) 1000).
  - split; [lia | reflexivity].
  - split; [reflexivity | lia].
Defined.

(** ** File names *)

(** X23: two frames of a burst with different indices never get the same
    path, whatever the directory, the clock readings and the formats: a
    burst cannot overwrite one of its own frames. *)
Theorem burst_frames_get_distinct_paths
        (dir ts1 ts2 : string) (ms1 ms2 : nat) (i j : nat)
        (mime1 mime2 : string) :
  i <> j ->
  path_join dir (burst_fname ts1 ms1 (Z.of_nat i) (ext_of_mime mime1))
  <> path_join dir (burst_fname ts2 ms2 (Z.of_nat j) (ext_of_mime mime2)).
Proof.
  intros Hij Heq. apply Hij.
  destruct (path_join_prefix dir) as [pre Hpre].
  rewrite !Hpre in Heq.
  apply (f_equal sequence_index) in Heq.
  rewrite !sequence_index_fname in Heq by apply ext_of_mime_length.
  now injection Heq.
Qed.

Lemma burst_frames_get_distinct_paths_witness :
  path_join "shots"
    (burst_fname "20250102_030405" 123 0 (ext_of_mime "image/jpeg"))
  <> path_join "shots"
       (burst_fname "20250102_030405" 123 1 (ext_of_mime "image/jpeg")).
Proof.
  apply (burst_frames_get_distinct_paths
           "shots" "20250102_030405" "20250102_030405" 123 123 0 1
           "image/jpeg" "image/jpeg").
  discriminate.
Defined.
